(** * FlashPress News: storage contract and authentication flow

    A shallow embedding of the server side of the repository:
    - class [MemStorage], the module the routes and [AuthService] import as
      [storage] (third module of src/server/services/aiServices.ts),
    - class [DatabaseStorage] (src/server/storageNew.ts),
    - class [AuthService] (second module of src/server/services/aiServices.ts),
    - [AIService] (src/server/services/aiServices.ts),
    - the authentication middleware and the routes for login, news, chat,
      likes and bookmarks (src/server/routes.ts),
    - [NewsApiService.getTopHeadlines] (src/server/services/newsApi.ts) and
      [formatTimeAgo] of the news card (src/unnamed/part_000).

    Conventions.
    - A JavaScript [Map] keeps its keys in insertion order; [find] and
      the stable [sort] observe that order, so a [Map] is an association
      list ([JsMap]).
    - An [async] function that rejects is a function that throws; both are
      the [Throw] completion.  Mutations made before a throw persist.
    - [randomUUID()], [new Date()] and the bcrypt salt are read from the
      environment; every operation that draws them takes an [Env].
    - A timestamp the code sets with [new Date()] is its time value, the
      milliseconds since the epoch ([Z]).  The publication date of an
      article comes from outside and is a [JsDate], which may be the Invalid
      Date.  Like counters are integers ([Z]).
    - A value read from a request body or from [JSON.parse] is untyped
      ([Json]).
    - bcrypt and jsonwebtoken are libraries outside the repository: they are
      the operations of the class [Crypto], their contracts the hypotheses
      of the sections that need them. *)

From Stdlib Require Import String Ascii List ZArith Lia Bool QArith Qminmax.
From Stdlib Require Import Sorting.Sorted Sorting.Permutation.
Import ListNotations.

Open Scope string_scope.
Open Scope Z_scope.

Set Implicit Arguments.

(** ** Completions and the state-and-exception monad *)

Inductive completion (A : Type) : Type :=
| Return (a : A)
| Throw (message : string).

Arguments Return {A} a.
Arguments Throw {A} message.

Definition M (S A : Type) : Type := S -> completion A * S.

Definition ret {S A} (a : A) : M S A := fun s => (Return a, s).

Definition throw {S A} (message : string) : M S A := fun s => (Throw message, s).

Definition bind {S A B} (c : M S A) (k : A -> M S B) : M S B :=
  fun s =>
    match c s with
    | (Return a, s') => k a s'
    | (Throw message, s') => (Throw message, s')
    end.

(** [try { c } catch (error) { h error.message }] *)
Definition try_catch {S A} (c : M S A) (h : string -> M S A) : M S A :=
  fun s =>
    match c s with
    | (Return a, s') => (Return a, s')
    | (Throw message, s') => h message s'
    end.

Definition gets {S A} (f : S -> A) : M S A := fun s => (Return (f s), s).

Definition modify {S} (f : S -> S) : M S unit := fun s => (Return tt, f s).

Notation "x <- c ;; k" := (bind c (fun x => k))
  (at level 61, c at next level, right associativity).
Notation "c ;;; k" := (bind c (fun _ => k))
  (at level 61, right associativity).

(** ** JavaScript built-ins used by the code *)

(** [Map<string, V>]: keys in insertion order, [set] on an existing key
    keeps its position. *)
Module JsMap.
Section Ops.
Variable V : Type.

Definition t : Type := list (string * V).

Definition empty : t := [].

Fixpoint get (k : string) (m : t) : option V :=
  match m with
  | [] => None
  | (k', v) :: m' => if String.eqb k' k then Some v else get k m'
  end.

Fixpoint set (k : string) (v : V) (m : t) : t :=
  match m with
  | [] => [(k, v)]
  | (k', v') :: m' =>
      if String.eqb k' k then (k, v) :: m' else (k', v') :: set k v m'
  end.

Fixpoint delete (k : string) (m : t) : t :=
  match m with
  | [] => []
  | (k', v') :: m' =>
      if String.eqb k' k then m' else (k', v') :: delete k m'
  end.

Definition values (m : t) : list V := map snd m.

Definition keys (m : t) : list string := map fst m.
End Ops.
Arguments empty {V}.
End JsMap.

(** [Array.prototype.sort(cmp)]: stable; [x] goes before [y] when
    [cmp x y <= 0] and [x] was before [y].  For a comparator that is not a
    consistent ordering the language leaves the order to the engine; the
    order below is then that of one insertion pass from the right. *)
Section Sort.
Variable A : Type.
Variable cmp : A -> A -> Z.

Fixpoint sort_insert (x : A) (l : list A) : list A :=
  match l with
  | [] => [x]
  | y :: l' => if cmp x y <=? 0 then x :: y :: l' else y :: sort_insert x l'
  end.

Fixpoint js_sort (l : list A) : list A :=
  match l with
  | [] => []
  | x :: l' => sort_insert x (js_sort l')
  end.
End Sort.

(** [Array.prototype.slice(start, end)], negative indices counted from the
    end of the array. *)
Definition js_slice {A} (start end_ : Z) (l : list A) : list A :=
  let len := Z.of_nat (length l) in
  let k := if start <? 0 then Z.max (len + start) 0 else Z.min start len in
  let final := if end_ <? 0 then Z.max (len + end_) 0 else Z.min end_ len in
  firstn (Z.to_nat (final - k)) (skipn (Z.to_nat k) l).

(** Truthiness of a string: the empty string is falsy. *)
Definition truthy (s : string) : bool := negb (String.eqb s EmptyString).

(** Truthiness of an optional string argument ([undefined] is falsy). *)
Definition supplied (o : option string) : bool :=
  match o with
  | Some s => truthy s
  | None => false
  end.

(** [s || null] on an optional string. *)
Definition or_null (o : option string) : option string :=
  match o with
  | Some s => if truthy s then Some s else None
  | None => None
  end.

(** [n || d] on numbers: [0] is falsy. *)
Definition num_or (n d : Z) : Z := if n =? 0 then d else n.

(** A [Date] object: one with a time value, or the Invalid Date that
    [new Date(s)] makes of a text it cannot read. *)
Inductive JsDate : Type :=
| ValidDate (time : Z)
| InvalidDate.

(** [date.getTime()]; [None] is NaN. *)
Definition getTime (date : JsDate) : option Z :=
  match date with
  | ValidDate time => Some time
  | InvalidDate => None
  end.

Definition isValid (date : JsDate) : bool :=
  match date with
  | ValidDate _ => true
  | InvalidDate => false
  end.

(** [x - y] on two time values; NaN when one of them is. *)
Definition time_minus (x y : option Z) : option Z :=
  match x, y with
  | Some x, Some y => Some (x - y)
  | _, _ => None
  end.

(** How [sort] reads the number its comparator returns: NaN counts as 0. *)
Definition nan_as_zero (v : option Z) : Z :=
  match v with
  | Some z => z
  | None => 0
  end.

(** A number: a rational, an infinity or NaN. *)
Inductive JsNumber : Type :=
| Finite (q : Q)
| PosInfinity
| NegInfinity
| NaN.

(** An untyped value, as the body parser leaves it in [req.body] and as
    [JSON.parse] returns it.  An object is the list of its own properties,
    each name once. *)
#[warnings="-register-all"]
Inductive Json : Type :=
| JNull
| JBool (b : bool)
| JNumber (n : JsNumber)
| JString (s : string)
| JArray (items : list Json)
| JObject (fields : list (string * Json)).

(** Truthiness: [null], [false], [0], NaN and the empty string are falsy. *)
Definition js_truthy (v : Json) : bool :=
  match v with
  | JNull => false
  | JBool b => b
  | JNumber (Finite q) => negb (Qeq_bool q 0)
  | JNumber NaN => false
  | JNumber _ => true
  | JString s => truthy s
  | JArray _ => true
  | JObject _ => true
  end.

(** Truthiness of a property that may be missing ([undefined]). *)
Definition present (o : option Json) : bool :=
  match o with
  | Some v => js_truthy v
  | None => false
  end.

(** [x || d] on a property that may be missing. *)
Definition js_or (o : option Json) (d : Json) : Json :=
  match o with
  | Some v => if js_truthy v then v else d
  | None => d
  end.

(** [v.name]: reading a property of [null] throws; a boolean, a number, a
    string and an array have no property of the names read here. *)
Definition getField (name : string) (v : Json) : completion (option Json) :=
  match v with
  | JNull => Throw "Cannot read properties of null"
  | JObject fields =>
      Return match find (fun field => String.eqb (fst field) name) fields with
             | Some field => Some (snd field)
             | None => None
             end
  | _ => Return None
  end.

(** [Math.min] and [Math.max] of two numbers. *)
Definition Math_min (x y : JsNumber) : JsNumber :=
  match x, y with
  | NaN, _ => NaN
  | _, NaN => NaN
  | NegInfinity, _ => NegInfinity
  | _, NegInfinity => NegInfinity
  | PosInfinity, z => z
  | z, PosInfinity => z
  | Finite a, Finite b => Finite (Qmin a b)
  end.

Definition Math_max (x y : JsNumber) : JsNumber :=
  match x, y with
  | NaN, _ => NaN
  | _, NaN => NaN
  | PosInfinity, _ => PosInfinity
  | _, PosInfinity => PosInfinity
  | NegInfinity, z => z
  | z, NegInfinity => z
  | Finite a, Finite b => Finite (Qmax a b)
  end.

(** ** Data model ([@shared/schema], from its uses in the code) *)

Module User.
Record t := mk {
  id : string;
  username : string;
  email : string;
  password : string;
  createdAt : Z
}.
End User.

Module InsertUser.
Record t := mk {
  username : string;
  email : string;
  password : string
}.
End InsertUser.

Module Article.
Record t := mk {
  id : string;
  title : string;
  description : option string;
  content : option string;
  url : string;
  imageUrl : option string;
  category : string;
  source : string;
  publishedAt : JsDate;
  likes : Z;
  createdAt : Z
}.
End Article.

Module InsertArticle.
Record t := mk {
  title : string;
  description : option string;
  content : option string;
  url : string;
  imageUrl : option string;
  category : string;
  source : string;
  publishedAt : JsDate
}.
End InsertArticle.

Module Like.
Record t := mk {
  id : string;
  userId : string;
  articleId : string;
  createdAt : Z
}.
End Like.

Module Bookmark.
Record t := mk {
  id : string;
  userId : string;
  resourceType : string;
  resourceId : string;
  title : string;
  createdAt : Z
}.
End Bookmark.

Module InsertBookmark.
Record t := mk {
  userId : string;
  resourceType : string;
  resourceId : string;
  title : string
}.
End InsertBookmark.

Module TnpscResource.
Record t := mk {
  id : string;
  title : string;
  category : string;
  subject : string;
  examStage : string;
  fileUrl : option string;
  description : option string;
  createdAt : Z
}.
End TnpscResource.

Module InsertTnpscResource.
Record t := mk {
  title : string;
  category : string;
  subject : string;
  examStage : string;
  fileUrl : option string;
  description : option string
}.
End InsertTnpscResource.

(** What an operation reads from its environment. *)
Record Env := mkEnv {
  randomUUID : string;   (* randomUUID() *)
  dateNow : Z;           (* new Date(), Date.now() *)
  salt : string          (* the salt bcrypt draws *)
}.

(** ** [MemStorage]

    The maps for comments and chat sessions take no part in the operations
    below and are left out of the state. *)

Record MemStorage := mkMem {
  users : JsMap.t User.t;
  articles : JsMap.t Article.t;
  likes : JsMap.t Like.t;
  bookmarks : JsMap.t Bookmark.t;
  tnpscResources : JsMap.t TnpscResource.t
}.

Definition set_users (f : JsMap.t User.t -> JsMap.t User.t) (s : MemStorage) :=
  mkMem (f (users s)) (articles s) (likes s) (bookmarks s) (tnpscResources s).

Definition set_articles (f : JsMap.t Article.t -> JsMap.t Article.t) (s : MemStorage) :=
  mkMem (users s) (f (articles s)) (likes s) (bookmarks s) (tnpscResources s).

Definition set_likes (f : JsMap.t Like.t -> JsMap.t Like.t) (s : MemStorage) :=
  mkMem (users s) (articles s) (f (likes s)) (bookmarks s) (tnpscResources s).

Definition set_bookmarks (f : JsMap.t Bookmark.t -> JsMap.t Bookmark.t) (s : MemStorage) :=
  mkMem (users s) (articles s) (likes s) (f (bookmarks s)) (tnpscResources s).

Definition set_tnpscResources
    (f : JsMap.t TnpscResource.t -> JsMap.t TnpscResource.t) (s : MemStorage) :=
  mkMem (users s) (articles s) (likes s) (bookmarks s) (f (tnpscResources s)).

(** [{ ...article, likes }] *)
Definition withLikes (article : Article.t) (likes : Z) : Article.t :=
  Article.mk (Article.id article) (Article.title article)
    (Article.description article) (Article.content article)
    (Article.url article) (Article.imageUrl article)
    (Article.category article) (Article.source article)
    (Article.publishedAt article) likes (Article.createdAt article).

(** Comparators of the [sort] calls.  The one of [getArticles] is
    [new Date(b.publishedAt).getTime() - new Date(a.publishedAt).getTime()];
    [new Date(date)] copies a [Date]. *)
Definition byPublishedDesc (a b : Article.t) : option Z :=
  time_minus (getTime (Article.publishedAt b)) (getTime (Article.publishedAt a)).

Definition byBookmarkCreatedDesc (a b : Bookmark.t) : Z :=
  Bookmark.createdAt b - Bookmark.createdAt a.

Definition byResourceCreatedDesc (a b : TnpscResource.t) : Z :=
  TnpscResource.createdAt b - TnpscResource.createdAt a.

Module Mem.

(** [new MemStorage()]: empty maps, then [initializeSampleData]; the three
    ids and timestamps are those the constructor draws. *)
Definition tnpscData (e1 e2 e3 : Env) : list TnpscResource.t :=
  [ TnpscResource.mk (randomUUID e1) "Tamil Nadu History" "book" "History" "prelims"
      (Some "/books/tamil-history.pdf")
      (Some "Comprehensive guide to Tamil Nadu history for TNPSC prelims")
      (dateNow e1);
    TnpscResource.mk (randomUUID e2) "Indian Polity" "book" "Polity" "mains"
      (Some "/books/indian-polity.pdf")
      (Some "Complete coverage of Indian polity for TNPSC mains")
      (dateNow e2);
    TnpscResource.mk (randomUUID e3) "Geography Notes" "notes" "Geography" "prelims"
      (Some "/books/geography-notes.pdf")
      (Some "Important geography notes for TNPSC preparation")
      (dateNow e3) ].

Definition init (e1 e2 e3 : Env) : MemStorage :=
  mkMem JsMap.empty JsMap.empty JsMap.empty JsMap.empty
    (fold_left (fun m resource => JsMap.set (TnpscResource.id resource) resource m)
       (tnpscData e1 e2 e3) JsMap.empty).

(** *** User operations *)

Definition getUser (id : string) : M MemStorage (option User.t) :=
  gets (fun s => JsMap.get id (users s)).

Definition getUserByUsername (username : string) : M MemStorage (option User.t) :=
  gets (fun s =>
    find (fun user => String.eqb (User.username user) username)
         (JsMap.values (users s))).

Definition getUserByEmail (email : string) : M MemStorage (option User.t) :=
  gets (fun s =>
    find (fun user => String.eqb (User.email user) email)
         (JsMap.values (users s))).

Definition createUser (insertUser : InsertUser.t) (e : Env) : M MemStorage User.t :=
  let id := randomUUID e in
  let user := User.mk id (InsertUser.username insertUser) (InsertUser.email insertUser)
                (InsertUser.password insertUser) (dateNow e) in
  modify (set_users (JsMap.set id user)) ;;;
  ret user.

(** *** Article operations *)

Definition getArticles (category : option string) (limit offset : option Z)
    : M MemStorage (list Article.t) :=
  let limit := match limit with Some n => n | None => 20 end in
  let offset := match offset with Some n => n | None => 0 end in
  gets (fun s =>
    let articles := JsMap.values (articles s) in
    let filtered :=
      match category with
      | Some c =>
          if truthy c && negb (String.eqb c "all")
          then filter (fun article => String.eqb (Article.category article) c) articles
          else articles
      | None => articles
      end in
    js_slice offset (offset + limit)
      (js_sort (fun a b => nan_as_zero (byPublishedDesc a b)) filtered)).

Definition getArticleById (id : string) : M MemStorage (option Article.t) :=
  gets (fun s => JsMap.get id (articles s)).

Definition getArticleByUrl (url : string) : M MemStorage (option Article.t) :=
  gets (fun s =>
    find (fun article => String.eqb (Article.url article) url)
         (JsMap.values (articles s))).

Definition createArticle (insertArticle : InsertArticle.t) (e : Env)
    : M MemStorage Article.t :=
  let id := randomUUID e in
  let article :=
    Article.mk id (InsertArticle.title insertArticle)
      (or_null (InsertArticle.description insertArticle))
      (or_null (InsertArticle.content insertArticle))
      (InsertArticle.url insertArticle)
      (or_null (InsertArticle.imageUrl insertArticle))
      (InsertArticle.category insertArticle) (InsertArticle.source insertArticle)
      (InsertArticle.publishedAt insertArticle) 0 (dateNow e) in
  modify (set_articles (JsMap.set id article)) ;;;
  ret article.

Definition updateArticleLikes (id : string) (likes : Z) : M MemStorage unit :=
  article <- gets (fun s => JsMap.get id (articles s)) ;;
  match article with
  | Some article =>
      modify (set_articles (JsMap.set id (withLikes article likes)))
  | None => ret tt
  end.

(** *** Like operations *)

Definition sameLike (userId articleId : string) (like : Like.t) : bool :=
  String.eqb (Like.userId like) userId && String.eqb (Like.articleId like) articleId.

Definition getLikeByUserAndArticle (userId articleId : string)
    : M MemStorage (option Like.t) :=
  gets (fun s => find (sameLike userId articleId) (JsMap.values (likes s))).

Definition createLike (userId articleId : string) (e : Env) : M MemStorage Like.t :=
  let id := randomUUID e in
  let like := Like.mk id userId articleId (dateNow e) in
  modify (set_likes (JsMap.set id like)) ;;;
  ret like.

Definition deleteLike (userId articleId : string) : M MemStorage unit :=
  like <- gets (fun s => find (sameLike userId articleId) (JsMap.values (likes s))) ;;
  match like with
  | Some like => modify (set_likes (JsMap.delete (Like.id like)))
  | None => ret tt
  end.

(** *** Bookmark operations *)

Definition sameBookmark (userId resourceType resourceId : string) (b : Bookmark.t) : bool :=
  String.eqb (Bookmark.userId b) userId
  && String.eqb (Bookmark.resourceType b) resourceType
  && String.eqb (Bookmark.resourceId b) resourceId.

Definition getBookmarksByUserId (userId : string) : M MemStorage (list Bookmark.t) :=
  gets (fun s =>
    js_sort byBookmarkCreatedDesc
      (filter (fun bookmark => String.eqb (Bookmark.userId bookmark) userId)
              (JsMap.values (bookmarks s)))).

Definition createBookmark (insertBookmark : InsertBookmark.t) (e : Env)
    : M MemStorage Bookmark.t :=
  let id := randomUUID e in
  let bookmark :=
    Bookmark.mk id (InsertBookmark.userId insertBookmark)
      (InsertBookmark.resourceType insertBookmark)
      (InsertBookmark.resourceId insertBookmark)
      (InsertBookmark.title insertBookmark) (dateNow e) in
  modify (set_bookmarks (JsMap.set id bookmark)) ;;;
  ret bookmark.

Definition deleteBookmark (userId resourceType resourceId : string) : M MemStorage unit :=
  bookmark <- gets (fun s =>
    find (sameBookmark userId resourceType resourceId) (JsMap.values (bookmarks s))) ;;
  match bookmark with
  | Some bookmark => modify (set_bookmarks (JsMap.delete (Bookmark.id bookmark)))
  | None => ret tt
  end.

(** *** TNPSC resources.  [localeCompare] is the host's collation. *)
Section Tnpsc.
Variable localeCompare : string -> string -> Z.

Definition byTitle (a b : TnpscResource.t) : Z :=
    localeCompare (TnpscResource.title a) (TnpscResource.title b).

Definition getTnpscResources (category subject examStage : option string)
      : M MemStorage (list TnpscResource.t) :=
    gets (fun s =>
      let resources := JsMap.values (tnpscResources s) in
      let resources :=
        match category with
        | Some c => if truthy c
                    then filter (fun r => String.eqb (TnpscResource.category r) c) resources
                    else resources
        | None => resources
        end in
      let resources :=
        match subject with
        | Some c => if truthy c
                    then filter (fun r => String.eqb (TnpscResource.subject r) c) resources
                    else resources
        | None => resources
        end in
      let resources :=
        match examStage with
        | Some c => if truthy c
                    then filter (fun r => String.eqb (TnpscResource.examStage r) c) resources
                    else resources
        | None => resources
        end in
      js_sort byTitle resources).
End Tnpsc.

Definition createTnpscResource (insertResource : InsertTnpscResource.t) (e : Env)
    : M MemStorage TnpscResource.t :=
  let id := randomUUID e in
  let resource :=
    TnpscResource.mk id (InsertTnpscResource.title insertResource)
      (InsertTnpscResource.category insertResource)
      (InsertTnpscResource.subject insertResource)
      (InsertTnpscResource.examStage insertResource)
      (or_null (InsertTnpscResource.fileUrl insertResource))
      (or_null (InsertTnpscResource.description insertResource))
      (dateNow e) in
  modify (set_tnpscResources (JsMap.set id resource)) ;;;
  ret resource.

End Mem.

(** ** [DatabaseStorage] (src/server/storageNew.ts)

    The query builder and the database are outside the repository.  A table
    is the list of its rows; a query filters by its [where] condition, orders
    by its [orderBy] comparator (rows that compare equal stay in table order,
    one of the orders the database may choose), then skips [offset] rows and
    keeps [limit] rows.  The database rejects a negative [limit] or
    [offset].  A timestamp column holds no Invalid Date: the rows of the
    table [articles] have valid publication dates, and on those
    [descPublishedAt] is the order of [desc(articles.publishedAt)]. *)

Module Drizzle.
Section Query.
Variable R : Type.

Record query := mkQuery {
  from : list R;
  orderBy : option (R -> R -> Z);
  where_ : option (R -> bool);
  limit : option Z;
  offset : option Z
}.

Definition select_from (rows : list R) : query := mkQuery rows None None None None.

Definition with_orderBy (c : R -> R -> Z) (q : query) : query :=
  mkQuery (from q) (Some c) (where_ q) (limit q) (offset q).

Definition with_where (p : R -> bool) (q : query) : query :=
  mkQuery (from q) (orderBy q) (Some p) (limit q) (offset q).

Definition with_limit (n : Z) (q : query) : query :=
  mkQuery (from q) (orderBy q) (where_ q) (Some n) (offset q).

Definition with_offset (n : Z) (q : query) : query :=
  mkQuery (from q) (orderBy q) (where_ q) (limit q) (Some n).

(** [and(...conditions)] *)
Definition and_ (conditions : list (R -> bool)) : R -> bool :=
  fun r => forallb (fun c => c r) conditions.

Definition run (q : query) : completion (list R) :=
  let rows := match where_ q with Some p => filter p (from q) | None => from q end in
  let rows := match orderBy q with Some c => js_sort c rows | None => rows end in
  let skip := match offset q with Some n => n | None => 0 end in
  if skip <? 0 then Throw "OFFSET must not be negative"
  else
    let rows := skipn (Z.to_nat skip) rows in
    match limit q with
    | Some n => if n <? 0 then Throw "LIMIT must not be negative"
                else Return (firstn (Z.to_nat n) rows)
    | None => Return rows
    end.

(** [db.delete(table).where(p)] *)
Definition delete_where (p : R -> bool) (rows : list R) : list R :=
  filter (fun r => negb (p r)) rows.
End Query.
End Drizzle.

Record Database := mkDb {
  db_articles : list Article.t;
  db_bookmarks : list Bookmark.t;
  db_tnpscResources : list TnpscResource.t
}.

(** [desc(articles.publishedAt)] *)
Definition descPublishedAt (a b : Article.t) : Z := nan_as_zero (byPublishedDesc a b).

Module Db.

Definition await {A} (c : completion A) : M Database A := fun d => (c, d).

Definition getArticles (category : option string) (limit offset : option Z)
    : M Database (list Article.t) :=
  let limit := match limit with Some n => n | None => 20 end in
  let offset := match offset with Some n => n | None => 0 end in
  fun d =>
    let query := Drizzle.with_orderBy descPublishedAt (Drizzle.select_from (db_articles d)) in
    let query :=
      match category with
      | Some c =>
          if truthy c && negb (String.eqb c "all")
          then Drizzle.with_where (fun a => String.eqb (Article.category a) c) query
          else query
      | None => query
      end in
    await (Drizzle.run (Drizzle.with_offset offset (Drizzle.with_limit limit query))) d.

Definition getBookmarksByUserId (userId : string) : M Database (list Bookmark.t) :=
  fun d =>
    await (Drizzle.run
      (Drizzle.with_orderBy byBookmarkCreatedDesc
        (Drizzle.with_where (fun b => String.eqb (Bookmark.userId b) userId)
          (Drizzle.select_from (db_bookmarks d))))) d.

(** The database assigns [id] and [createdAt] (column defaults). *)
Definition createBookmark (insertBookmark : InsertBookmark.t) (e : Env)
    : M Database Bookmark.t :=
  let bookmark :=
    Bookmark.mk (randomUUID e) (InsertBookmark.userId insertBookmark)
      (InsertBookmark.resourceType insertBookmark)
      (InsertBookmark.resourceId insertBookmark)
      (InsertBookmark.title insertBookmark) (dateNow e) in
  modify (fun d => mkDb (db_articles d) (db_bookmarks d ++ [bookmark])%list (db_tnpscResources d)) ;;;
  ret bookmark.

Definition deleteBookmark (userId resourceType resourceId : string) : M Database unit :=
  modify (fun d =>
    mkDb (db_articles d)
      (Drizzle.delete_where
         (Drizzle.and_ [ (fun b => String.eqb (Bookmark.userId b) userId);
                         (fun b => String.eqb (Bookmark.resourceType b) resourceType);
                         (fun b => String.eqb (Bookmark.resourceId b) resourceId) ])
         (db_bookmarks d))
      (db_tnpscResources d)).

Definition getTnpscResources (category subject examStage : option string)
    : M Database (list TnpscResource.t) :=
  fun d =>
    let query :=
      Drizzle.with_orderBy byResourceCreatedDesc
        (Drizzle.select_from (db_tnpscResources d)) in
    let conditions : list (TnpscResource.t -> bool) := [] in
    let conditions :=
      match category with
      | Some c => if truthy c
                  then (conditions ++ [fun r => String.eqb (TnpscResource.category r) c])%list
                  else conditions
      | None => conditions
      end in
    let conditions :=
      match subject with
      | Some c => if truthy c
                  then (conditions ++ [fun r => String.eqb (TnpscResource.subject r) c])%list
                  else conditions
      | None => conditions
      end in
    let conditions :=
      match examStage with
      | Some c => if truthy c
                  then (conditions ++ [fun r => String.eqb (TnpscResource.examStage r) c])%list
                  else conditions
      | None => conditions
      end in
    let query :=
      if (0 <? Z.of_nat (length conditions))
      then Drizzle.with_where (Drizzle.and_ conditions) query
      else query in
    await (Drizzle.run query) d.

End Db.

(** ** [AuthService] *)

Module JWTPayload.
Record t := mk {
  userId : string;
  username : string
}.
End JWTPayload.

(** The libraries [bcrypt] and [jsonwebtoken].  [jwt_sign payload secret iat
    ttl] is the token issued at second [iat] and valid for [ttl] seconds;
    [jwt_verify token secret now] is the decoded payload or the exception
    [jwt.verify] throws. *)
Class Crypto := {
  bcrypt_hash : string -> Z -> string -> string;
  bcrypt_compare : string -> string -> bool;
  jwt_sign : JWTPayload.t -> string -> Z -> Z -> string;
  jwt_verify : string -> string -> Z -> completion JWTPayload.t
}.

Module UserWithoutPassword.
Record t := mk {
  id : string;
  username : string;
  email : string;
  createdAt : Z
}.
End UserWithoutPassword.

Record AuthService := mkAuthService {
  jwtSecret : string
}.

(** The constructor: [process.env.SESSION_SECRET || 'fallback-secret-key']. *)
Definition newAuthService (SESSION_SECRET : option string) : AuthService :=
  mkAuthService
    match SESSION_SECRET with
    | Some s => if truthy s then s else "fallback-secret-key"
    | None => "fallback-secret-key"
    end.

(** ['7d'] in seconds. *)
Definition expiresIn : Z := 7 * 24 * 60 * 60.

(** The clock of [jsonwebtoken]: [Math.floor(Date.now() / 1000)]. *)
Definition clockTimestamp (now : Z) : Z := now / 1000.

Definition withoutPassword (user : User.t) : UserWithoutPassword.t :=
  UserWithoutPassword.mk (User.id user) (User.username user) (User.email user)
    (User.createdAt user).

Section Auth.
Context {crypto : Crypto}.
Variable this : AuthService.

Definition hashPassword (password : string) (e : Env) : string :=
  bcrypt_hash password 10 (salt e).

Definition verifyPassword (password hashedPassword : string) : bool :=
  bcrypt_compare password hashedPassword.

Definition generateToken (payload : JWTPayload.t) (now : Z) : string :=
  jwt_sign payload (jwtSecret this) (clockTimestamp now) expiresIn.

Definition verifyToken (token : string) (now : Z) : completion (option JWTPayload.t) :=
  match jwt_verify token (jwtSecret this) (clockTimestamp now) with
  | Return payload => Return (Some payload)
  | Throw _ => Return None
  end.

Definition register (userData : InsertUser.t) (e : Env)
    : M MemStorage (UserWithoutPassword.t * string) :=
  existingUser <- Mem.getUserByEmail (InsertUser.email userData) ;;
  match existingUser with
  | Some _ => throw "User with this email already exists"
  | None =>
      existingUsername <- Mem.getUserByUsername (InsertUser.username userData) ;;
      match existingUsername with
      | Some _ => throw "Username already taken"
      | None =>
          let hashedPassword := hashPassword (InsertUser.password userData) e in
          user <- Mem.createUser
                    (InsertUser.mk (InsertUser.username userData) (InsertUser.email userData)
                       hashedPassword) e ;;
          let token :=
            generateToken (JWTPayload.mk (User.id user) (User.username user)) (dateNow e) in
          ret (withoutPassword user, token)
      end
  end.

Definition login (username password : string) (e : Env)
    : M MemStorage (UserWithoutPassword.t * string) :=
  user <- Mem.getUserByUsername username ;;
  user <- match user with
          | Some user => ret (Some user)
          | None => Mem.getUserByEmail username
          end ;;
  match user with
  | None => throw "Invalid credentials"
  | Some user =>
      if verifyPassword password (User.password user)
      then
        let token :=
          generateToken (JWTPayload.mk (User.id user) (User.username user)) (dateNow e) in
        ret (withoutPassword user, token)
      else throw "Invalid credentials"
  end.
End Auth.

(** ** The like-toggle handler (src/server/routes.ts, POST /api/articles/:id/like)

    The handler runs after [authenticateToken]; [userId] is [req.user.userId]. *)

Inductive LikeResponse : Type :=
| LikeOk (liked : bool) (likes : Z)     (* 200 { liked, likes } *)
| LikeNotFound                          (* 404 'Article not found' *)
| LikeFailed.                           (* 500 'Failed to toggle like' *)

Definition toggleLike (id userId : string) (e : Env) : M MemStorage LikeResponse :=
  try_catch
    (existingLike <- Mem.getLikeByUserAndArticle userId id ;;
     article <- Mem.getArticleById id ;;
     match article with
     | None => ret LikeNotFound
     | Some article =>
         match existingLike with
         | Some _ =>
             Mem.deleteLike userId id ;;;
             let newLikes := Z.max 0 (num_or (Article.likes article) 0 - 1) in
             Mem.updateArticleLikes id newLikes ;;;
             ret (LikeOk false newLikes)
         | None =>
             Mem.createLike userId id e ;;;
             let newLikes := num_or (Article.likes article) 0 + 1 in
             Mem.updateArticleLikes id newLikes ;;;
             ret (LikeOk true newLikes)
         end
     end)
    (fun _ => ret LikeFailed).

(** ** [AIService.detectFakeNews] (src/server/services/aiServices.ts) *)

Definition lower_char (c : ascii) : ascii :=
  let n := nat_of_ascii c in
  if (Nat.leb 65 n && Nat.leb n 90)%bool then ascii_of_nat (n + 32) else c.

(** [String.prototype.toLowerCase] on the ASCII letters. *)
Fixpoint toLowerCase (s : string) : string :=
  match s with
  | EmptyString => EmptyString
  | String c s' => String (lower_char c) (toLowerCase s')
  end.

(** [s.includes(sub)] *)
Fixpoint includes (s sub : string) : bool :=
  if String.prefix sub s then true
  else match s with
       | EmptyString => false
       | String _ s' => includes s' sub
       end.

Inductive Credibility : Type := high | medium | low.

Record FakeNewsResult := mkFakeNewsResult {
  isReal : bool;
  confidence : Q;
  explanation : string;
  sourceCredibility : Credibility
}.

(** The fields [detectFakeNews] reads from the object [JSON.parse] returns;
    [None] is a field that is absent. *)
Record Verdict := mkVerdict {
  v_isReal : option bool;
  v_confidence : option Q;
  v_explanation : option string
}.

Definition trustedSources : list string :=
  [ "thanthi"; "polimer"; "suntv"; "times of india"; "the hindu"; "indian express" ].

(** The state of the service is the list of prompts sent to the model so
    far. *)
Section AI.
(** [openrouter.chat.completions.create], then
    [response.choices[0].message?.content]. *)
Variable chat : string -> completion (option string).
Variable JSON_parse : string -> completion Verdict.
(** The prompt built around the text. *)
Variable analysisPrompt : string -> string.

Definition createCompletion (prompt : string) : M (list string) (option string) :=
  fun sent => (chat prompt, (sent ++ [prompt])%list).

Definition detectFakeNews (text : string) (source : option string)
    : M (list string) FakeNewsResult :=
  try_catch
    (let sourceCredibility :=
       match source with
       | Some source =>
           if truthy source
              && existsb (fun trusted => includes (toLowerCase source) trusted) trustedSources
           then high else medium
       | None => medium
       end in
     match sourceCredibility with
     | high =>
         ret (mkFakeNewsResult true (95 # 100)
                "This news comes from a trusted and verified source." high)
     | _ =>
         content <- createCompletion (analysisPrompt text) ;;
         result <- (fun sent =>
                      (JSON_parse match content with
                                  | Some c => if truthy c then c else "{}"
                                  | None => "{}"
                                  end, sent)) ;;
         ret (mkFakeNewsResult
                match v_isReal result with Some b => b | None => false end
                (Qmax 0 (Qmin 1
                   match v_confidence result with
                   | Some c => if Qeq_bool c 0 then 5 # 10 else c
                   | None => 5 # 10
                   end))
                match v_explanation result with
                | Some x => if truthy x then x else "Analysis completed"
                | None => "Analysis completed"
                end
                sourceCredibility)
     end)
    (fun _ => throw "Failed to analyze news authenticity").
End AI.

(** ** Reachable states of the in-memory store

    The writes the route handlers perform on a [MemStorage], starting from
    the seeded store the constructor builds. *)

Inductive step : MemStorage -> MemStorage -> Prop :=
| step_register insertUser e s :
    (* [createUser] is called by [register] alone, after both look-ups miss;
       the stored password is the hash *)
    fst (Mem.getUserByEmail (InsertUser.email insertUser) s) = Return None ->
    fst (Mem.getUserByUsername (InsertUser.username insertUser) s) = Return None ->
    step s (snd (Mem.createUser insertUser e s))
| step_createArticle insertArticle e s :
    step s (snd (Mem.createArticle insertArticle e s))
| step_toggleLike id userId e s :
    step s (snd (toggleLike id userId e s))
| step_createBookmark insertBookmark e s :
    step s (snd (Mem.createBookmark insertBookmark e s))
| step_deleteBookmark userId resourceType resourceId s :
    step s (snd (Mem.deleteBookmark userId resourceType resourceId s))
| step_createTnpscResource insertResource e s :
    step s (snd (Mem.createTnpscResource insertResource e s)).

Inductive reachable : MemStorage -> Prop :=
| reachable_init e1 e2 e3 : reachable (Mem.init e1 e2 e3)
| reachable_step s s' : reachable s -> step s s' -> reachable s'.

(** Every stored like counter is a natural number. *)
Definition likes_nonneg (s : MemStorage) : Prop :=
  Forall (fun a => 0 <= Article.likes a) (JsMap.values (articles s)).

(** No two stored users share a username. *)
Definition usernames_unique (s : MemStorage) : Prop :=
  forall u v,
    In u (JsMap.values (users s)) -> In v (JsMap.values (users s)) ->
    User.username u = User.username v -> u = v.

(** ** Vocabulary of the storage contract *)

(** [x] is a date not later than the date [y]; it holds of no Invalid
    Date. *)
Definition notLater (x y : JsDate) : Prop :=
  match getTime x, getTime y with
  | Some x, Some y => x <= y
  | _, _ => False
  end.

(** Newest first by publication time. *)
Definition newest_first (l : list Article.t) : Prop :=
  StronglySorted (fun a b => notLater (Article.publishedAt b) (Article.publishedAt a)) l.

(** The articles of category [c] all have a valid publication date. *)
Definition dated (c : string) (stored : list Article.t) : Prop :=
  forall a, In a stored -> Article.category a = c -> isValid (Article.publishedAt a) = true.

(** Newest first by creation time. *)
Definition newest_created_first (l : list TnpscResource.t) : Prop :=
  StronglySorted (fun a b => TnpscResource.createdAt b <= TnpscResource.createdAt a) l.

(** [page] is the window [offset, offset + limit) of the stored articles of
    category [c], newest first. *)
Definition is_page (c : string) (stored : list Article.t) (offset limit : Z)
    (page : list Article.t) : Prop :=
  exists sorted,
    Permutation sorted (filter (fun a => String.eqb (Article.category a) c) stored)
    /\ newest_first sorted
    /\ page = firstn (Z.to_nat limit) (skipn (Z.to_nat offset) sorted).

(** The exact-match conjunction of the supplied study-resource filters. *)
Definition matchesFilters (category subject examStage : option string)
    (r : TnpscResource.t) : bool :=
  (if supplied category
   then String.eqb (TnpscResource.category r) (match category with Some c => c | None => EmptyString end)
   else true)
  && (if supplied subject
      then String.eqb (TnpscResource.subject r) (match subject with Some c => c | None => EmptyString end)
      else true)
  && (if supplied examStage
      then String.eqb (TnpscResource.examStage r) (match examStage with Some c => c | None => EmptyString end)
      else true).

(** The entries of a user's bookmark list for one resource. *)
Definition entriesFor (resourceType resourceId : string) (l : list Bookmark.t)
    : list Bookmark.t :=
  filter (fun b => String.eqb (Bookmark.resourceType b) resourceType
                   && String.eqb (Bookmark.resourceId b) resourceId) l.

(** Code-unit order of two strings, the collation used where one is needed
    to run [getTnpscResources]. *)
Definition codeUnitCompare (a b : string) : Z :=
  match String.compare a b with
  | Lt => -1
  | Eq => 0
  | Gt => 1
  end.

(** ** Executable stand-ins for bcrypt and jsonwebtoken

    Used to run the authentication flow on concrete inputs.  A token is the
    secret, the expiry and the two payload fields; a string is written with
    its length in unary in front, the expiry in binary. *)

Module Toy.

Fixpoint ones (n : nat) : string :=
  match n with
  | O => EmptyString
  | S n' => String "1" (ones n')
  end.

Definition enc_str (s rest : string) : string :=
  ones (String.length s) ++ String "0" (s ++ rest).

Fixpoint enc_pos (p : positive) (rest : string) : string :=
  match p with
  | xH => String "." rest
  | xO q => String "0" (enc_pos q rest)
  | xI q => String "1" (enc_pos q rest)
  end.

Definition enc_Z (z : Z) (rest : string) : string :=
  match z with
  | Z0 => String "z" rest
  | Zpos p => String "+" (enc_pos p rest)
  | Zneg p => String "-" (enc_pos p rest)
  end.

Fixpoint dec_len (s : string) : option (nat * string) :=
  match s with
  | EmptyString => None
  | String c s' =>
      if Ascii.eqb c "1" then
        match dec_len s' with
        | Some (n, rest) => Some (S n, rest)
        | None => None
        end
      else if Ascii.eqb c "0" then Some (O, s') else None
  end.

Fixpoint take (n : nat) (s : string) : option (string * string) :=
  match n with
  | O => Some (EmptyString, s)
  | S n' =>
      match s with
      | EmptyString => None
      | String c s' =>
          match take n' s' with
          | Some (a, rest) => Some (String c a, rest)
          | None => None
          end
      end
  end.

Definition dec_str (s : string) : option (string * string) :=
  match dec_len s with
  | Some (n, rest) => take n rest
  | None => None
  end.

Fixpoint dec_pos (s : string) : option (positive * string) :=
  match s with
  | EmptyString => None
  | String c s' =>
      if Ascii.eqb c "." then Some (xH, s')
      else
        match dec_pos s' with
        | Some (q, rest) =>
            if Ascii.eqb c "0" then Some (xO q, rest)
            else if Ascii.eqb c "1" then Some (xI q, rest)
            else None
        | None => None
        end
  end.

Definition dec_Z (s : string) : option (Z * string) :=
  match s with
  | EmptyString => None
  | String c s' =>
      if Ascii.eqb c "z" then Some (0, s')
      else
        match dec_pos s' with
        | Some (p, rest) =>
            if Ascii.eqb c "+" then Some (Zpos p, rest)
            else if Ascii.eqb c "-" then Some (Zneg p, rest)
            else None
        | None => None
        end
  end.

Definition hash (password : string) (rounds : Z) (salt : string) : string :=
  enc_str salt password.

Definition compare (password hashed : string) : bool :=
  match dec_str hashed with
  | Some (_, p) => String.eqb p password
  | None => false
  end.

Definition sign (payload : JWTPayload.t) (secret : string) (iat ttl : Z) : string :=
  enc_str secret
    (enc_Z (iat + ttl)
       (enc_str (JWTPayload.userId payload)
          (enc_str (JWTPayload.username payload) EmptyString))).

Definition verify (token secret : string) (now : Z) : completion JWTPayload.t :=
  match dec_str token with
  | Some (key, rest) =>
      match dec_Z rest with
      | Some (exp, rest) =>
          match dec_str rest with
          | Some (userId, rest) =>
              match dec_str rest with
              | Some (username, _) =>
                  if negb (String.eqb key secret) then Throw "invalid signature"
                  else if exp <=? now then Throw "jwt expired"
                  else Return (JWTPayload.mk userId username)
              | None => Throw "jwt malformed"
              end
          | None => Throw "jwt malformed"
          end
      | None => Throw "jwt malformed"
      end
  | None => Throw "jwt malformed"
  end.

#[global] Instance crypto : Crypto := {
  bcrypt_hash := hash;
  bcrypt_compare := compare;
  jwt_sign := sign;
  jwt_verify := verify
}.

End Toy.

(** ** Concrete stores and requests *)

Module Sample.

Definition auth : AuthService := newAuthService None.

(** The draws of the constructor of [MemStorage]. *)
Definition seed1 : Env := mkEnv "res-1" 1000 "-".
Definition seed2 : Env := mkEnv "res-2" 1000 "-".
Definition seed3 : Env := mkEnv "res-3" 1000 "-".

Definition store0 : MemStorage := Mem.init seed1 seed2 seed3.

Definition alice : InsertUser.t := InsertUser.mk "a" "a@x.com" "p".

(** A user whose username is the email address of [alice]. *)
Definition squatter : InsertUser.t := InsertUser.mk "a@x.com" "b@y.com" "q".

Definition env1 : Env := mkEnv "uuid-1" 5000 "salt1".
Definition env2 : Env := mkEnv "uuid-2" 6000 "salt2".
Definition env3 : Env := mkEnv "uuid-3" 7000 "salt3".
Definition env4 : Env := mkEnv "uuid-4" 8000 "salt4".

(** The user [register] stores for [alice], under the stand-in hash. *)
Definition aliceStored : User.t :=
  User.mk "uuid-1" "a" "a@x.com" (Toy.hash "p" 10 "salt1") 5000.

(** The store after [alice] registered. *)
Definition store1 : MemStorage :=
  snd (Mem.createUser (InsertUser.mk "a" "a@x.com" (Toy.hash "p" 10 "salt1")) env1 store0).

(** Three articles, stored in this order. *)
Definition sportsOld : InsertArticle.t :=
  InsertArticle.mk "Cup final" None None "https://n.example/1" None "sports" "Thanthi"
    (ValidDate 100).
Definition techNews : InsertArticle.t :=
  InsertArticle.mk "New chip" None None "https://n.example/2" None "technology" "Polimer"
    (ValidDate 200).
Definition sportsNew : InsertArticle.t :=
  InsertArticle.mk "Transfer" None None "https://n.example/3" None "sports" "Sun TV"
    (ValidDate 300).

Definition store2 : MemStorage :=
  snd (Mem.createArticle sportsNew env4
    (snd (Mem.createArticle techNews env3
      (snd (Mem.createArticle sportsOld env2 store1))))).

Definition db2 : Database :=
  mkDb (JsMap.values (articles store2)) [] [].

(** A study resource added after the seeded ones. *)
Definition zoology : InsertTnpscResource.t :=
  InsertTnpscResource.mk "Zoology Notes" "notes" "Science" "prelims" None None.

Definition store3 : MemStorage :=
  snd (Mem.createTnpscResource zoology (mkEnv "res-4" 9000 "-") store0).

(** A database holding the same study resources, in the same order. *)
Definition db3 : Database :=
  mkDb [] [] (JsMap.values (tnpscResources store3)).

(** A bookmark of user ["uuid-1"] for article ["art-1"], requested twice. *)
Definition bookmarkRequest : InsertBookmark.t :=
  InsertBookmark.mk "uuid-1" "article" "art-1" "Cup final".

Definition storeBookmarked : MemStorage :=
  snd (Mem.createBookmark bookmarkRequest (mkEnv "bm-1" 10000 "-") store1).

Definition dbBookmarked : Database :=
  mkDb [] (JsMap.values (bookmarks storeBookmarked)) [].

End Sample.

(** * Further operations of the server *)

(** ** Vocabulary of the store invariants *)

(** No two stored users share an email address. *)
Definition emails_unique (s : MemStorage) : Prop :=
  forall u v,
    In u (JsMap.values (users s)) -> In v (JsMap.values (users s)) ->
    User.email u = User.email v -> u = v.

(** No two stored articles share a URL. *)
Definition urls_unique (s : MemStorage) : Prop :=
  forall a b,
    In a (JsMap.values (articles s)) -> In b (JsMap.values (articles s)) ->
    Article.url a = Article.url b -> a = b.

(** A map whose keys are distinct and whose every entry is stored under the
    id of its value, as [map.set(x.id, x)] leaves it. *)
Definition keyed_by {V} (id : V -> string) (m : JsMap.t V) : Prop :=
  NoDup (JsMap.keys m) /\ Forall (fun kv => fst kv = id (snd kv)) m.

(** The likes a user holds on an article. *)
Definition likesOf (userId articleId : string) (s : MemStorage) : list Like.t :=
  filter (Mem.sameLike userId articleId) (JsMap.values (likes s)).

(** ** The authentication middleware (src/server/routes.ts) *)

(** [s.split(' ')] *)
Fixpoint split_spaces (s : string) : list string :=
  match s with
  | EmptyString => [EmptyString]
  | String c s' =>
      if Ascii.eqb c " " then EmptyString :: split_spaces s'
      else match split_spaces s' with
           | piece :: pieces => String c piece :: pieces
           | [] => [String c EmptyString]
           end
  end.

(** [authHeader && authHeader.split(' ')[1]], [None] when the result is
    falsy. *)
Definition bearerToken (authHeader : option string) : option string :=
  match authHeader with
  | Some h =>
      if truthy h
      then match nth_error (split_spaces h) 1 with
           | Some token => if truthy token then Some token else None
           | None => None
           end
      else None
  | None => None
  end.

(** What a middleware does with a request: answer it, hand it on with
    [req.user] as given, or let an exception escape. *)
Inductive Middleware : Type :=
| Respond (status : Z) (message : string)
| Next (user : option JWTPayload.t)
| Escaped (message : string).

Section Middlewares.
Context {crypto : Crypto}.
Variable this : AuthService.

Definition authenticateToken (authHeader : option string) (now : Z) : Middleware :=
  match bearerToken authHeader with
  | None => Respond 401 "Access token required"
  | Some token =>
      match verifyToken this token now with
      | Return None => Respond 403 "Invalid or expired token"
      | Return (Some payload) => Next (Some payload)
      | Throw message => Escaped message
      end
  end.

Definition optionalAuth (authHeader : option string) (now : Z) : Middleware :=
  match bearerToken authHeader with
  | Some token =>
      match verifyToken this token now with
      | Return (Some payload) => Next (Some payload)
      | Return None => Next None
      | Throw message => Escaped message
      end
  | None => Next None
  end.

(** ** Routes of the authentication flow and of the protected resources *)






Inductive Protected (A : Type) : Type :=
| Handled (response : A)
| Denied (status : Z) (message : string)
| Crashed (message : string).

(** [app.METHOD(path, authenticateToken, handler)]: the handler runs only
    when the middleware calls [next()]. *)
Definition behindAuth {A} (authHeader : option string) (now : Z)
    (handler : string -> M MemStorage A) : M MemStorage (Protected A) :=
  match authenticateToken authHeader now with
  | Respond status message => ret (Denied A status message)
  | Escaped message => ret (Crashed A message)
  | Next None => ret (Crashed A "req.user is undefined")
  | Next (Some user) =>
      response <- handler (JWTPayload.userId user) ;;
      ret (Handled response)
  end.

(** POST /api/articles/:id/like *)
Definition likeRoute (authHeader : option string) (now : Z) (id : string) (e : Env)
    : M MemStorage (Protected LikeResponse) :=
  behindAuth authHeader now (fun userId => toggleLike id userId e).

Inductive BookmarksResponse : Type :=
| BookmarkList (bookmarks : list Bookmark.t)   (* 200 { bookmarks } *)
| BookmarkRemoved                              (* 200 'Bookmark removed' *)
| BookmarksFailed (status : Z) (message : string).

(** GET /api/bookmarks *)
Definition getBookmarksRoute (authHeader : option string) (now : Z)
    : M MemStorage (Protected BookmarksResponse) :=
  behindAuth authHeader now (fun userId =>
    try_catch
      (bookmarks <- Mem.getBookmarksByUserId userId ;;
       ret (BookmarkList bookmarks))
      (fun _ => ret (BookmarksFailed 500 "Failed to fetch bookmarks"))).

(** DELETE /api/bookmarks; a field missing from [req.body] is [undefined]
    and equals the field of no bookmark. *)
Definition deleteBookmarkRoute (authHeader : option string) (now : Z)
    (resourceType resourceId : option string)
    : M MemStorage (Protected BookmarksResponse) :=
  behindAuth authHeader now (fun userId =>
    try_catch
      (match resourceType, resourceId with
       | Some resourceType, Some resourceId =>
           Mem.deleteBookmark userId resourceType resourceId
       | _, _ => ret tt
       end ;;;
       ret BookmarkRemoved)
      (fun _ => ret (BookmarksFailed 500 "Failed to remove bookmark"))).
End Middlewares.

(** ** [register], await by await

    [bcrypt.hash] runs outside the event loop: while a registration waits
    for it, the server takes up other requests.  The look-ups of
    [MemStorage] before it, and [createUser] after it, complete without
    giving way to another request. *)

Section RegisterPhases.
Context {crypto : Crypto}.
Variable this : AuthService.

(** [register] up to [await this.hashPassword(...)]. *)
Definition registerLookups (userData : InsertUser.t) : M MemStorage unit :=
  existingUser <- Mem.getUserByEmail (InsertUser.email userData) ;;
  match existingUser with
  | Some _ => throw "User with this email already exists"
  | None =>
      existingUsername <- Mem.getUserByUsername (InsertUser.username userData) ;;
      match existingUsername with
      | Some _ => throw "Username already taken"
      | None => ret tt
      end
  end.

(** [register] from the hash on. *)
Definition registerStore (userData : InsertUser.t) (e : Env)
    : M MemStorage (UserWithoutPassword.t * string) :=
  let hashedPassword := hashPassword (InsertUser.password userData) e in
  user <- Mem.createUser
            (InsertUser.mk (InsertUser.username userData) (InsertUser.email userData)
               hashedPassword) e ;;
  let token :=
    generateToken this (JWTPayload.mk (User.id user) (User.username user)) (dateNow e) in
  ret (withoutPassword user, token).

(** Two registrations in flight: the second request arrives while the first
    waits for its hash. *)
Definition registerInterleaved (first second : InsertUser.t) (e1 e2 : Env)
    : M MemStorage ((UserWithoutPassword.t * string) * (UserWithoutPassword.t * string)) :=
  registerLookups first ;;;
  registerLookups second ;;;
  r1 <- registerStore first e1 ;;
  r2 <- registerStore second e2 ;;
  ret (r1, r2).
End RegisterPhases.

(** ** Storing fetched headlines (src/server/routes.ts, GET /api/news) *)

(** [NewsApiArticle] (src/server/services/newsApi.ts) *)
Module NewsApiArticle.
Record t := mk {
  title : string;
  description : string;
  url : string;
  urlToImage : string;
  publishedAt : string;
  sourceName : string;   (* source.name *)
  content : string
}.
End NewsApiArticle.

Section StoreFetched.
(** [new Date(s)] on the feed's timestamp. *)
Variable parseDate : string -> JsDate.

(** [x || ''] on a string. *)
Definition or_empty (x : string) : string := if truthy x then x else EmptyString.

(** The body of the loop over [newsData.articles]: the article to append to
    the answer, if any.  The draw [e] is used when an article is created. *)
Definition storeOne (category : option string) (apiArticle : NewsApiArticle.t) (e : Env)
    : M MemStorage (option Article.t) :=
  if truthy (NewsApiArticle.title apiArticle) && truthy (NewsApiArticle.url apiArticle)
  then
    existing <- Mem.getArticleByUrl (NewsApiArticle.url apiArticle) ;;
    match existing with
    | None =>
        try_catch
          (article <- Mem.createArticle
                        (InsertArticle.mk
                           (NewsApiArticle.title apiArticle)
                           (Some (or_empty (NewsApiArticle.description apiArticle)))
                           (Some (or_empty (NewsApiArticle.content apiArticle)))
                           (NewsApiArticle.url apiArticle)
                           (Some (or_empty (NewsApiArticle.urlToImage apiArticle)))
                           (match category with
                            | Some c => if truthy c then c else "general"
                            | None => "general"
                            end)
                           (NewsApiArticle.sourceName apiArticle)
                           (parseDate (NewsApiArticle.publishedAt apiArticle))) e ;;
           ret (Some article))
          (fun _ => ret None)
    | Some existing => ret (Some existing)
    end
  else ret None.

(** The loop: the feed's articles, each with the draw of its iteration. *)
Fixpoint storeFetched (category : option string) (feed : list (NewsApiArticle.t * Env))
    : M MemStorage (list Article.t) :=
  match feed with
  | [] => ret []
  | (apiArticle, e) :: feed' =>
      stored <- storeOne category apiArticle e ;;
      rest <- storeFetched category feed' ;;
      ret (match stored with
           | Some article => article :: rest
           | None => rest
           end)
  end.
End StoreFetched.

(** ** Comments and chat sessions of [MemStorage]

    The two maps of the class that the state [MemStorage] above leaves out;
    no operation reads or writes both these and the other maps. *)

Module Comment.
Record t := mk {
  id : string;
  articleId : string;
  userId : string;
  content : string;
  createdAt : Z
}.
End Comment.

Module InsertComment.
Record t := mk {
  articleId : string;
  userId : string;
  content : string
}.
End InsertComment.

Module ChatMessage.
Record t := mk {
  role : string;
  content : Json;      (* declared a string; the chat route stores a body field *)
  timestamp : string
}.
End ChatMessage.

Module ChatSession.
Record t := mk {
  id : string;
  userId : option string;
  messages : list ChatMessage.t;
  createdAt : Z
}.
End ChatSession.

Module InsertChatSession.
Record t := mk {
  userId : option string;
  messages : list ChatMessage.t
}.
End InsertChatSession.

Record MemTalk := mkTalk {
  comments : JsMap.t Comment.t;
  chatSessions : JsMap.t ChatSession.t
}.

Definition byCommentCreatedDesc (a b : Comment.t) : Z :=
  Comment.createdAt b - Comment.createdAt a.

Definition bySessionCreatedDesc (a b : ChatSession.t) : Z :=
  ChatSession.createdAt b - ChatSession.createdAt a.

Module Talk.

Definition getCommentsByArticleId (articleId : string) : M MemTalk (list Comment.t) :=
  gets (fun s =>
    js_sort byCommentCreatedDesc
      (filter (fun comment => String.eqb (Comment.articleId comment) articleId)
              (JsMap.values (comments s)))).

Definition createComment (insertComment : InsertComment.t) (e : Env) : M MemTalk Comment.t :=
  let id := randomUUID e in
  let comment :=
    Comment.mk id (InsertComment.articleId insertComment) (InsertComment.userId insertComment)
      (InsertComment.content insertComment) (dateNow e) in
  modify (fun s => mkTalk (JsMap.set id comment (comments s)) (chatSessions s)) ;;;
  ret comment.

Definition getChatSession (id : string) : M MemTalk (option ChatSession.t) :=
  gets (fun s => JsMap.get id (chatSessions s)).

(** [session.userId === userId]; a session without user matches no id. *)
Definition getChatSessionsByUserId (userId : string) : M MemTalk (list ChatSession.t) :=
  gets (fun s =>
    js_sort bySessionCreatedDesc
      (filter (fun session =>
                 match ChatSession.userId session with
                 | Some u => String.eqb u userId
                 | None => false
                 end)
              (JsMap.values (chatSessions s)))).

Definition createChatSession (insertSession : InsertChatSession.t) (e : Env)
    : M MemTalk ChatSession.t :=
  let id := randomUUID e in
  let session :=
    ChatSession.mk id (or_null (InsertChatSession.userId insertSession))
      (InsertChatSession.messages insertSession) (dateNow e) in
  modify (fun s => mkTalk (comments s) (JsMap.set id session (chatSessions s))) ;;;
  ret session.

Definition updateChatSession (id : string) (messages : list ChatMessage.t) : M MemTalk unit :=
  session <- gets (fun s => JsMap.get id (chatSessions s)) ;;
  match session with
  | Some session =>
      modify (fun s =>
        mkTalk (comments s)
          (JsMap.set id
             (ChatSession.mk (ChatSession.id session) (ChatSession.userId session)
                messages (ChatSession.createdAt session))
             (chatSessions s)))
  | None => ret tt
  end.

End Talk.

(** ** POST /api/chat (src/server/routes.ts) *)

Inductive ChatResponse : Type :=
| ChatOk (response : string)                     (* 200 { response } *)
| ChatError (status : Z) (message : string).

Section ChatRoute.
(** [aiService.chatWithAI] on the two body fields it is given, and
    [Date.prototype.toISOString]. *)
Variable chatWithAI : Json -> option Json -> completion string.
Variable toISOString : Z -> string.

(** The handler.  [user] is [req.user]; [t1], [t2] are the two clock
    readings of the message timestamps and [e] the draw of
    [createChatSession].  A session id that is no string is the key of no
    session. *)
Definition chatHandler (user : option JWTPayload.t)
    (message context sessionId : option Json) (t1 t2 : Z) (e : Env)
    : M MemTalk ChatResponse :=
  try_catch
    (match message with
     | Some message =>
         if js_truthy message then
           response <- (fun s => (chatWithAI message context, s)) ;;
           match user, sessionId with
           | Some user, Some sessionId =>
               if js_truthy sessionId then
                 try_catch
                   (let newMessage := ChatMessage.mk "user" message (toISOString t1) in
                    let aiResponse :=
                      ChatMessage.mk "assistant" (JString response) (toISOString t2) in
                    let create :=
                      Talk.createChatSession
                        (InsertChatSession.mk (Some (JWTPayload.userId user))
                           [newMessage; aiResponse]) e ;;;
                      ret tt in
                    match sessionId with
                    | JString id =>
                        session <- Talk.getChatSession id ;;
                        match session with
                        | Some session =>
                            Talk.updateChatSession id
                              (ChatSession.messages session ++ [newMessage; aiResponse])%list
                        | None => create
                        end
                    | _ => create
                    end)
                   (fun _ => ret tt)
               else ret tt
           | _, _ => ret tt
           end ;;;
           ret (ChatOk response)
         else ret (ChatError 400 "Message is required")
     | None => ret (ChatError 400 "Message is required")
     end)
    (fun _ => ret (ChatError 500 "Failed to get AI response")).

(** [app.post("/api/chat", handler)]: the route is registered without
    middleware.  [req.user] is assigned by [authenticateToken] and by
    [optionalAuth] only, and neither runs here, so the handler finds it
    [undefined]. *)
Definition chatRoute (message context sessionId : option Json) (t1 t2 : Z) (e : Env)
    : M MemTalk ChatResponse :=
  chatHandler None message context sessionId t1 t2 e.
End ChatRoute.

(** ** [AIService.summarizeText] and [AIService.chatWithAI]
    (src/server/services/aiServices.ts) *)

Record ChatRequest := mkChatRequest {
  model : string;
  messages : list (string * string);   (* role, content *)
  max_tokens : option Z
}.

Definition newline : string := String (ascii_of_nat 10) EmptyString.

Definition systemPrompt : string :=
  "You are FlashPress News AI Assistant. You help users with:
      - News summarization and analysis
      - Fact-checking and verification
      - TNPSC exam preparation guidance
      - Current affairs discussions
      Be helpful, accurate, and concise in your responses.".

(** The state of the service is the list of requests sent to the model. *)
Section Completions.
(** [openrouter.chat.completions.create], then
    [response.choices[0].message?.content]; template literals print numbers
    with [numberToString]. *)
Variable create : ChatRequest -> completion (option string).
Variable numberToString : Z -> string.

Definition send (request : ChatRequest) : M (list ChatRequest) (option string) :=
  fun sent => (create request, (sent ++ [request])%list).

(** [content || fallback] *)
Definition content_or (content : option string) (fallback : string) : string :=
  match content with
  | Some c => if truthy c then c else fallback
  | None => fallback
  end.

Definition summarizeText (text : string) (maxLength : option Z)
    : M (list ChatRequest) string :=
  let maxLength := match maxLength with Some n => n | None => 150 end in
  try_catch
    (let prompt :=
       "Please summarize the following text in " ++ numberToString maxLength
       ++ " words or less while maintaining key points:" ++ newline ++ newline ++ text in
     content <- send (mkChatRequest "deepseek/deepseek-r1" [("user", prompt)]
                        (Some (Z.max (maxLength * 2) 200))) ;;
     ret (content_or content "Unable to generate summary"))
    (fun _ => throw "Failed to summarize text").

Definition chatWithAI (message : string) (context : option string)
    : M (list ChatRequest) string :=
  try_catch
    (let userMessage :=
       match context with
       | Some c =>
           if truthy c
           then "Context: " ++ c ++ newline ++ newline ++ "User Question: " ++ message
           else message
       | None => message
       end in
     content <- send (mkChatRequest "deepseek/deepseek-r1"
                        [("system", systemPrompt); ("user", userMessage)] (Some 500)) ;;
     ret (content_or content "I'm sorry, I couldn't process your request."))
    (fun _ => throw "Failed to get AI response").
End Completions.

(** ** [AIService.detectFakeNews] on the untyped answer of the model

    [detectFakeNews] above reads the verdict through the types the result
    declares.  [JSON.parse] returns an untyped value; the function below
    reads the same three properties from it as the code does. *)

Record FakeNewsAnswer := mkFakeNewsAnswer {
  a_isReal : Json;               (* declared boolean *)
  a_confidence : JsNumber;
  a_explanation : Json;          (* declared string *)
  a_sourceCredibility : Credibility
}.

Section UntypedVerdict.
Variable chat : string -> completion (option string).
Variable JSON_parse : string -> completion Json.
Variable analysisPrompt : string -> string.
(** The number a text stands for (NaN when it stands for none), and the
    text of an array or an object. *)
Variable StringToNumber : string -> JsNumber.
Variable toString : Json -> string.

(** The conversion [Math.min] applies to its argument. *)
Definition ToNumber (v : Json) : JsNumber :=
  match v with
  | JNull => Finite 0
  | JBool b => Finite (if b then 1 else 0)
  | JNumber n => n
  | JString s => StringToNumber s
  | JArray _ => StringToNumber (toString v)
  | JObject _ => StringToNumber (toString v)
  end.

Definition detectFakeNewsUntyped (text : string) (source : option string)
    : M (list string) FakeNewsAnswer :=
  try_catch
    (let sourceCredibility :=
       match source with
       | Some source =>
           if truthy source
              && existsb (fun trusted => includes (toLowerCase source) trusted) trustedSources
           then high else medium
       | None => medium
       end in
     match sourceCredibility with
     | high =>
         ret (mkFakeNewsAnswer (JBool true) (Finite (95 # 100))
                (JString "This news comes from a trusted and verified source.") high)
     | _ =>
         content <- createCompletion chat (analysisPrompt text) ;;
         result <- (fun sent =>
                      (JSON_parse match content with
                                  | Some c => if truthy c then c else "{}"
                                  | None => "{}"
                                  end, sent)) ;;
         isReal <- (fun sent => (getField "isReal" result, sent)) ;;
         confidence <- (fun sent => (getField "confidence" result, sent)) ;;
         explanation <- (fun sent => (getField "explanation" result, sent)) ;;
         ret (mkFakeNewsAnswer
                (js_or isReal (JBool false))
                (Math_max (Finite 0)
                   (Math_min (Finite 1) (ToNumber (js_or confidence (JNumber (Finite (5 # 10)))))))
                (js_or explanation (JString "Analysis completed"))
                sourceCredibility)
     end)
    (fun _ => throw "Failed to analyze news authenticity").
End UntypedVerdict.


(** The value [JSON.parse] returns for a well-typed verdict. *)
Definition verdictJson (v : Verdict) : Json :=
  JObject
    ((match v_isReal v with Some b => [("isReal", JBool b)] | None => [] end)
     ++ (match v_confidence v with Some c => [("confidence", JNumber (Finite c))] | None => [] end)
     ++ (match v_explanation v with Some x => [("explanation", JString x)] | None => [] end))%list.

(** ** [NewsApiService] (src/server/services/newsApi.ts) *)

Record NewsApiService := mkNewsApiService {
  apiKey : string
}.

(** The constructor: [process.env.NEWS_API_KEY || '58215056...']. *)
Definition newNewsApiService (NEWS_API_KEY : option string) : NewsApiService :=
  mkNewsApiService
    match NEWS_API_KEY with
    | Some k => if truthy k then k else "58215056cd304f859765f89530f9301c"
    | None => "58215056cd304f859765f89530f9301c"
    end.

(** A request to the news provider: the endpoint under [baseUrl] and the
    entries of its [URLSearchParams], in order. *)
Record NewsRequest := mkNewsRequest {
  endpoint : string;
  params : list (string * string)
}.

(** What [fetch] resolves to: [response.ok], the status line, and the
    [status] and [message] fields and the articles of the parsed body. *)
Record NewsReply := mkNewsReply {
  ok : bool;
  statusLine : string;
  bodyStatus : string;
  bodyMessage : string;
  bodyArticles : list NewsApiArticle.t;
  totalResults : Z
}.

Inductive Headlines : Type :=
| MockData            (* the sample article of the branch without API key *)
| Fetched (articles : list NewsApiArticle.t) (totalResults : Z).

Section NewsApi.
Variable fetch : NewsRequest -> completion NewsReply.
Variable numberToString : Z -> string.
Variable this : NewsApiService.

Definition getTopHeadlines (category country : option string) (pageSize page : option Z)
    : M (list NewsRequest) Headlines :=
  let country := match country with Some c => c | None => "in" end in
  let pageSize := match pageSize with Some n => n | None => 20 end in
  let page := match page with Some n => n | None => 1 end in
  if negb (truthy (apiKey this)) then ret MockData
  else
    let params :=
      [ ("apiKey", apiKey this); ("country", country);
        ("pageSize", numberToString pageSize); ("page", numberToString page) ] in
    let params :=
      match category with
      | Some c => if truthy c && negb (String.eqb c "all")
                  then (params ++ [("category", c)])%list
                  else params
      | None => params
      end in
    let request := mkNewsRequest "/top-headlines" params in
    try_catch
      (response <- (fun sent => (fetch request, (sent ++ [request])%list)) ;;
       if negb (ok response) then throw ("NewsAPI error: " ++ statusLine response)
       else if String.eqb (bodyStatus response) "error"
            then throw ("NewsAPI error: " ++ bodyMessage response)
            else ret (Fetched (bodyArticles response) (totalResults response)))
      (fun message => throw message).
End NewsApi.

(** ** [formatTimeAgo] of the news card (client, src/unnamed/part_000) *)

Inductive TimeAgo : Type :=
| JustNow                 (* "Just now" *)
| HoursAgo (n : Z)        (* `${n} hours ago` *)
| DaysAgo (n : Z)         (* `${n} days ago` *)
| OnDate (text : string). (* date.toLocaleDateString() *)

Section NewsCard.
(** [new Date(dateString).getTime()], [None] for an invalid date, and
    [toLocaleDateString] of that date. *)
Variable parseTime : string -> option Z.
Variable toLocaleDateString : string -> string.

Definition formatTimeAgo (dateString : string) (now : Z) : TimeAgo :=
  match parseTime dateString with
  | None => OnDate (toLocaleDateString dateString)
  | Some date =>
      let diffInHours := (now - date) / (1000 * 60 * 60) in
      if diffInHours <? 1 then JustNow
      else if diffInHours <? 24 then HoursAgo diffInHours
      else
        let diffInDays := diffInHours / 24 in
        if diffInDays <? 7 then DaysAgo diffInDays
        else OnDate (toLocaleDateString dateString)
  end.
End NewsCard.

(** ** More concrete stores and requests *)

Module Sample2.

(** Two feed items with the same URL and one without title. *)
Definition feed : list (NewsApiArticle.t * Env) :=
  [ (NewsApiArticle.mk "Monsoon" "Rain" "https://n.example/9" "img" "2024-06-01" "Thanthi" "Text",
     mkEnv "art-9" 20000 "-");
    (NewsApiArticle.mk "Monsoon again" "Rain" "https://n.example/9" "img" "2024-06-02"
       "Polimer" "Text",
     mkEnv "art-10" 20001 "-");
    (NewsApiArticle.mk EmptyString "No title" "https://n.example/11" "img" "2024-06-03"
       "Sun TV" "Text",
     mkEnv "art-11" 20002 "-") ].

(** [new Date(s)] on the timestamps of the feeds here; ["soon"] is no
    date. *)
Definition parseDate (s : string) : JsDate :=
  if String.eqb s "2024-06-01" then ValidDate 1717200000000
  else if String.eqb s "2024-06-02" then ValidDate 1717286400000
  else if String.eqb s "2024-06-03" then ValidDate 1717372800000
  else InvalidDate.

(** Three sports items, the second with a timestamp that is no date. *)
Definition feedUndated : list (NewsApiArticle.t * Env) :=
  [ (NewsApiArticle.mk "Toss" "Won" "https://n.example/21" "img" "2024-06-01" "Thanthi" "Text",
     mkEnv "art-21" 30000 "-");
    (NewsApiArticle.mk "Rain delay" "Wet" "https://n.example/22" "img" "soon" "Polimer" "Text",
     mkEnv "art-22" 30001 "-");
    (NewsApiArticle.mk "Result" "Draw" "https://n.example/23" "img" "2024-06-03" "Sun TV" "Text",
     mkEnv "art-23" 30002 "-") ].

(** A store with two bookmarks of user ["uuid-1"] for one resource and one
    bookmark of user ["uuid-7"]. *)
Definition storeThreeBookmarks : MemStorage :=
  snd (Mem.createBookmark (InsertBookmark.mk "uuid-7" "article" "art-1" "Cup final")
         (mkEnv "bm-3" 12000 "-")
    (snd (Mem.createBookmark Sample.bookmarkRequest (mkEnv "bm-2" 11000 "-")
            Sample.storeBookmarked))).

(** The token [alice] gets from [login] in [Sample.store1]. *)
Definition aliceToken : string :=
  Toy.sign (JWTPayload.mk "uuid-1" "a") "fallback-secret-key" 6 expiresIn.

Definition talk0 : MemTalk := mkTalk JsMap.empty JsMap.empty.

(** A comment on article ["uuid-2"], then one on article ["uuid-4"]. *)
Definition talk1 : MemTalk :=
  snd (Talk.createComment (InsertComment.mk "uuid-4" "uuid-7" "Nice chip") Sample.env4
    (snd (Talk.createComment (InsertComment.mk "uuid-2" "uuid-7" "Kick-off at six") Sample.env2
            talk0))).

(** [feed] after an item with the URL of an article of [Sample.store2]. *)
Definition feedKnown : list (NewsApiArticle.t * Env) :=
  (NewsApiArticle.mk "Cup final, again" "Replay" "https://n.example/1" "img" "2024-06-03"
     "Thanthi" "Text",
   mkEnv "art-8" 19999 "-") :: feed.

(** A second user with the username of [Sample.alice]. *)
Definition alias : InsertUser.t := InsertUser.mk "a" "other@x.com" "q".

(** The store after user ["uuid-1"] liked article ["uuid-2"]. *)
Definition storeLiked : MemStorage :=
  snd (toggleLike "uuid-2" "uuid-1" (mkEnv "like-1" 11000 "-") Sample.store2).

End Sample2.

(** Every map of the store holds its values under their own ids. *)
Definition well_keyed (s : MemStorage) : Prop :=
  keyed_by User.id (users s)
  /\ keyed_by Article.id (articles s)
  /\ keyed_by Like.id (likes s)
  /\ keyed_by Bookmark.id (bookmarks s)
  /\ keyed_by TnpscResource.id (tnpscResources s).

(** The list an operation answers, empty when it throws. *)
Definition answered {S A} (r : completion (list A) * S) : list A :=
  match fst r with
  | Return l => l
  | Throw _ => []
  end.

(** Whether a string holds a space. *)
Fixpoint has_space (s : string) : bool :=
  match s with
  | EmptyString => false
  | String c s' => Ascii.eqb c " " || has_space s'
  end.

(** [apiArticle.title && apiArticle.url]: the feed items the loop stores. *)
Definition usable (apiArticle : NewsApiArticle.t) : bool :=
  truthy (NewsApiArticle.title apiArticle) && truthy (NewsApiArticle.url apiArticle).

(** The article the loop stores for a feed item under the draw [e]: the
    fields the route copies from the item, with the id, the counter and the
    creation time that [createArticle] adds; an empty description, content
    or image address is stored as [null]. *)
Definition articleOf (parseDate : string -> JsDate) (category : option string)
    (apiArticle : NewsApiArticle.t) (e : Env) : Article.t :=
  Article.mk (randomUUID e) (NewsApiArticle.title apiArticle)
    (or_null (Some (NewsApiArticle.description apiArticle)))
    (or_null (Some (NewsApiArticle.content apiArticle)))
    (NewsApiArticle.url apiArticle)
    (or_null (Some (NewsApiArticle.urlToImage apiArticle)))
    (match category with
     | Some c => if truthy c then c else "general"
     | None => "general"
     end)
    (NewsApiArticle.sourceName apiArticle)
    (parseDate (NewsApiArticle.publishedAt apiArticle)) 0 (dateNow e).

(** The verdict [detectFakeNews] makes of a well-typed answer, as an
    untyped one. *)
Definition answerOf (r : FakeNewsResult) : FakeNewsAnswer :=
  mkFakeNewsAnswer (JBool (isReal r)) (Finite (confidence r)) (JString (explanation r))
    (sourceCredibility r).

(** * Properties *)

(** ** The monad *)

Lemma bind_gets {S A B} (f : S -> A) (k : A -> M S B) (s : S) :
  bind (gets f) k s = k (f s) s.
Proof. reflexivity. Qed.

Lemma bind_modify {S B} (f : S -> S) (k : unit -> M S B) (s : S) :
  bind (modify f) k s = k tt (f s).
Proof. reflexivity. Qed.

(** ** [JsMap] *)

Section JsMapFacts.
Variable V : Type.
Implicit Types (m : JsMap.t V) (k : string) (v : V).

Lemma values_set_In k v m : In v (JsMap.values (JsMap.set k v m)).
Proof.
  induction m as [|[k' v'] m IH]; simpl.
  - now left.
  - destruct (String.eqb k' k); simpl; auto.
Qed.

Lemma values_set_inv k v m x :
  In x (JsMap.values (JsMap.set k v m)) -> x = v \/ In x (JsMap.values m).
Proof.
  induction m as [|[k' v'] m IH]; simpl.
  - intros [H|[]]; auto.
  - destruct (String.eqb k' k); simpl.
    + intros [H|H]; auto.
    + intros [H|H]; auto. destruct (IH H); auto.
Qed.

Lemma values_delete_incl k m x :
  In x (JsMap.values (JsMap.delete k m)) -> In x (JsMap.values m).
Proof.
  induction m as [|[k' v'] m IH]; simpl; auto.
  destruct (String.eqb k' k); simpl; intuition.
Qed.

Lemma get_set_same k v m : JsMap.get k (JsMap.set k v m) = Some v.
Proof.
  induction m as [|[k' v'] m IH]; simpl.
  - now rewrite String.eqb_refl.
  - destruct (String.eqb k' k) eqn:E; simpl.
    + now rewrite String.eqb_refl.
    + now rewrite E.
Qed.

Lemma get_In k v m : JsMap.get k m = Some v -> In v (JsMap.values m).
Proof.
  induction m as [|[k' v'] m IH]; simpl; [discriminate|].
  destruct (String.eqb k' k); [intros [= ->]|]; auto.
Qed.

(** A [find] over the values after [set], when the new value is the only
    one the predicate accepts. *)
Lemma find_values_set (p : V -> bool) k v m :
  p v = true ->
  (forall x, In x (JsMap.values m) -> p x = false) ->
  find p (JsMap.values (JsMap.set k v m)) = Some v.
Proof.
  intros Hv Hm.
  destruct (find p (JsMap.values (JsMap.set k v m))) as [x|] eqn:E.
  - apply find_some in E as [Hin Hp].
    apply values_set_inv in Hin as [->|Hin]; [reflexivity|].
    rewrite (Hm _ Hin) in Hp. discriminate.
  - pose proof (find_none _ _ E _ (values_set_In k v m)) as H.
    congruence.
Qed.

Lemma find_values_set_none (p : V -> bool) k v m :
  p v = false ->
  (forall x, In x (JsMap.values m) -> p x = false) ->
  find p (JsMap.values (JsMap.set k v m)) = None.
Proof.
  intros Hv Hm.
  destruct (find p (JsMap.values (JsMap.set k v m))) as [x|] eqn:E; [|reflexivity].
  apply find_some in E as [Hin Hp].
  apply values_set_inv in Hin as [->|Hin]; [congruence|].
  rewrite (Hm _ Hin) in Hp. discriminate.
Qed.
End JsMapFacts.


Lemma find_app {A} (p : A -> bool) (l l' : list A) :
  find p (l ++ l') = match find p l with
                     | Some x => Some x
                     | None => find p l'
                     end.
Proof.
  induction l as [|x l IH]; simpl; [reflexivity|]. now destruct (p x).
Qed.

Lemma find_none_iff {A} (p : A -> bool) (l : list A) :
  find p l = None <-> (forall x, In x l -> p x = false).
Proof.
  split.
  - intros H x. now apply find_none.
  - intros H. destruct (find p l) as [x|] eqn:E; [|reflexivity].
    apply find_some in E as [Hin Hp]. rewrite (H _ Hin) in Hp. discriminate.
Qed.

(** ** [js_sort] and [js_slice] *)

Section SortFacts.
Variable A : Type.
Variable cmp : A -> A -> Z.

Lemma sort_insert_perm x l : Permutation (sort_insert cmp x l) (x :: l).
Proof.
  induction l as [|y l IH]; simpl; [reflexivity|].
  destruct (cmp x y <=? 0); [reflexivity|].
  rewrite IH. apply perm_swap.
Qed.

Lemma js_sort_perm l : Permutation (js_sort cmp l) l.
Proof.
  induction l as [|x l IH]; simpl; [reflexivity|].
  rewrite sort_insert_perm. now constructor.
Qed.

Lemma js_sort_In x l : In x (js_sort cmp l) <-> In x l.
Proof.
  split; apply Permutation_in; [|symmetry]; apply js_sort_perm.
Qed.

(** When the comparator is the difference of a numeric key, the result is
    ordered by decreasing key. *)
Variable key : A -> Z.
Hypothesis cmp_key : forall x y, cmp x y = key y - key x.

Lemma sort_insert_sorted x l :
  StronglySorted (fun a b => key b <= key a) l ->
  StronglySorted (fun a b => key b <= key a) (sort_insert cmp x l).
Proof.
  induction 1 as [|y l Hl IH Hy]; simpl.
  - repeat constructor.
  - destruct (cmp x y <=? 0) eqn:E.
    + apply Z.leb_le in E. rewrite cmp_key in E.
      constructor; [now constructor|].
      constructor; [lia|].
      eapply Forall_impl; [|exact Hy]. simpl. intros; lia.
    + apply Z.leb_gt in E. rewrite cmp_key in E.
      constructor; [exact IH|].
      apply Forall_forall. intros z Hz.
      apply (Permutation_in _ (sort_insert_perm x l)) in Hz as [<-|Hz].
      * lia.
      * rewrite Forall_forall in Hy. now apply Hy.
Qed.

Lemma js_sort_sorted l : StronglySorted (fun a b => key b <= key a) (js_sort cmp l).
Proof.
  induction l; simpl; [constructor|]. now apply sort_insert_sorted.
Qed.
End SortFacts.

(** The same when the comparator is that difference on the elements of the
    list only. *)
Section SortFactsOn.
Variable A : Type.
Variable cmp : A -> A -> Z.
Variable key : A -> Z.

Lemma sort_insert_sorted_on x l :
  (forall y, In y l -> cmp x y = key y - key x) ->
  StronglySorted (fun a b => key b <= key a) l ->
  StronglySorted (fun a b => key b <= key a) (sort_insert cmp x l).
Proof.
  intros Hcmp Hsorted. induction Hsorted as [|y l Hl IH Hy]; simpl.
  - repeat constructor.
  - destruct (cmp x y <=? 0) eqn:E.
    + apply Z.leb_le in E. rewrite Hcmp in E by now left.
      constructor; [now constructor|].
      constructor; [lia|].
      eapply Forall_impl; [|exact Hy]. simpl. intros; lia.
    + apply Z.leb_gt in E. rewrite Hcmp in E by now left.
      constructor; [apply IH; intros z Hz; apply Hcmp; now right|].
      apply Forall_forall. intros z Hz.
      apply (Permutation_in _ (sort_insert_perm cmp x l)) in Hz as [<-|Hz].
      * lia.
      * rewrite Forall_forall in Hy. now apply Hy.
Qed.

Lemma js_sort_sorted_on l :
  (forall x y, In x l -> In y l -> cmp x y = key y - key x) ->
  StronglySorted (fun a b => key b <= key a) (js_sort cmp l).
Proof.
  induction l as [|x l IH]; intros Hcmp; simpl; [constructor|].
  apply sort_insert_sorted_on.
  - intros y Hy. apply js_sort_In in Hy. apply Hcmp; [now left|now right].
  - apply IH. intros y z Hy Hz. apply Hcmp; now right.
Qed.
End SortFactsOn.

Lemma StronglySorted_impl_on {A} (R R' : A -> A -> Prop) (l : list A) :
  (forall a b, In a l -> In b l -> R a b -> R' a b) ->
  StronglySorted R l -> StronglySorted R' l.
Proof.
  intros Himpl Hsorted. induction Hsorted as [|x l Hl IH Hx]; [constructor|].
  constructor.
  - apply IH. intros a b Ha Hb. apply Himpl; now right.
  - rewrite Forall_forall in *. intros y Hy.
    apply Himpl; [now left|now right|now apply Hx].
Qed.

Lemma In_firstn {A} n (l : list A) x : In x (firstn n l) -> In x l.
Proof.
  revert l. induction n as [|n IH]; intros [|y l]; simpl; try tauto.
  intros [H|H]; auto.
Qed.

Lemma In_skipn {A} n (l : list A) x : In x (skipn n l) -> In x l.
Proof.
  revert l. induction n as [|n IH]; intros [|y l]; simpl; try tauto.
  intros H. right. now apply IH.
Qed.

Section SortedWindow.
Variable A : Type.
Variable R : A -> A -> Prop.

Lemma StronglySorted_skipn n (l : list A) :
  StronglySorted R l -> StronglySorted R (skipn n l).
Proof.
  revert l. induction n as [|n IH]; intros l H; [exact H|].
  destruct l; simpl; [constructor|].
  apply IH. now inversion H.
Qed.

Lemma StronglySorted_firstn n (l : list A) :
  StronglySorted R l -> StronglySorted R (firstn n l).
Proof.
  revert l. induction n as [|n IH]; intros l H; [constructor|].
  destruct l; simpl; [constructor|].
  inversion H as [|? ? Hl Hx]; subst. constructor; [now apply IH|].
  rewrite Forall_forall in *. intros y Hy. apply Hx.
  now apply In_firstn in Hy.
Qed.

Lemma js_slice_sorted start end_ (l : list A) :
  StronglySorted R l -> StronglySorted R (js_slice start end_ l).
Proof.
  intros H. unfold js_slice. now apply StronglySorted_firstn, StronglySorted_skipn.
Qed.
End SortedWindow.

Lemma js_slice_In {A} start end_ (l : list A) x :
  In x (js_slice start end_ l) -> In x l.
Proof.
  unfold js_slice. intros H.
  apply In_firstn in H. now apply In_skipn in H.
Qed.

(** For a non-negative window [slice] is [skip offset] then [keep limit]. *)
Lemma js_slice_window {A} offset limit (l : list A) :
  0 <= offset -> 0 <= limit ->
  js_slice offset (offset + limit) l = firstn (Z.to_nat limit) (skipn (Z.to_nat offset) l).
Proof.
  intros Ho Hl. unfold js_slice.
  destruct (offset <? 0) eqn:E1; [apply Z.ltb_lt in E1; lia|].
  destruct (offset + limit <? 0) eqn:E2; [apply Z.ltb_lt in E2; lia|].
  set (len := Z.of_nat (length l)).
  destruct (Z.le_gt_cases len offset) as [Hle|Hgt].
  - rewrite (Z.min_r offset len) by lia.
    rewrite (Z.min_r (offset + limit) len) by lia.
    rewrite Z.sub_diag. simpl.
    rewrite !skipn_all2 by (unfold len in *; lia).
    now rewrite firstn_nil.
  - rewrite (Z.min_l offset len) by lia.
    destruct (Z.le_gt_cases (offset + limit) len) as [Hle2|Hgt2].
    + rewrite (Z.min_l (offset + limit) len) by lia.
      now replace (offset + limit - offset) with limit by lia.
    + rewrite (Z.min_r (offset + limit) len) by lia.
      rewrite !firstn_all2; [reflexivity| |];
        rewrite length_skipn; unfold len in *; lia.
Qed.

(** ** The stand-ins meet the contracts of the libraries *)

Lemma toy_dec_len n rest : Toy.dec_len (Toy.ones n ++ String "0" rest) = Some (n, rest).
Proof.
  induction n as [|n IH]; simpl; [reflexivity|]. now rewrite IH.
Qed.

Lemma toy_take s rest : Toy.take (String.length s) (s ++ rest) = Some (s, rest).
Proof.
  induction s as [|c s IH]; simpl; [reflexivity|]. now rewrite IH.
Qed.

Lemma toy_dec_str s rest : Toy.dec_str (Toy.enc_str s rest) = Some (s, rest).
Proof.
  unfold Toy.dec_str, Toy.enc_str. rewrite toy_dec_len. apply toy_take.
Qed.

Lemma toy_dec_pos p rest : Toy.dec_pos (Toy.enc_pos p rest) = Some (p, rest).
Proof.
  induction p as [q IH|q IH|]; simpl; [now rewrite IH..|reflexivity].
Qed.

Lemma toy_dec_Z z rest : Toy.dec_Z (Toy.enc_Z z rest) = Some (z, rest).
Proof.
  destruct z as [|p|p]; simpl; [reflexivity|now rewrite toy_dec_pos..].
Qed.

Lemma toy_compare_hash password rounds salt :
  Toy.compare password (Toy.hash password rounds salt) = true.
Proof.
  unfold Toy.compare, Toy.hash. rewrite toy_dec_str. apply String.eqb_refl.
Qed.

Lemma toy_verify_sign payload secret iat ttl now :
  iat <= now < iat + ttl ->
  Toy.verify (Toy.sign payload secret iat ttl) secret now = Return payload.
Proof.
  intros H. unfold Toy.verify, Toy.sign.
  rewrite toy_dec_str, toy_dec_Z, !toy_dec_str, String.eqb_refl. simpl.
  destruct (iat + ttl <=? now) eqn:E; [apply Z.leb_le in E; lia|].
  now destruct payload.
Qed.

(** ** Authentication flow *)

Lemma eqb_neq_false (a b : string) : a <> b -> String.eqb a b = false.
Proof. intros H. now apply String.eqb_neq. Qed.

Lemma get_set_other {V} k k' (v : V) (m : JsMap.t V) :
  k' <> k -> JsMap.get k' (JsMap.set k v m) = JsMap.get k' m.
Proof.
  intros Hne. induction m as [|[k2 v2] m IH]; simpl.
  - now rewrite (eqb_neq_false (not_eq_sym Hne)).
  - destruct (String.eqb k2 k) eqn:E; simpl.
    + apply String.eqb_eq in E. subst k2.
      now rewrite (eqb_neq_false (not_eq_sym Hne)).
    + now rewrite IH.
Qed.

Section AuthFacts.
Context {crypto : Crypto}.
Variable this : AuthService.

(** Contracts of the libraries: a password matches its own hash, and a token
    verifies to its payload, under the key that signed it, until it
    expires. *)
Hypothesis bcrypt_compare_hash :
  forall password rounds salt,
    bcrypt_compare password (bcrypt_hash password rounds salt) = true.
Hypothesis jwt_verify_sign :
  forall payload secret iat ttl now,
    iat <= now < iat + ttl ->
    jwt_verify (jwt_sign payload secret iat ttl) secret now = Return payload.

(** [register] when both look-ups miss. *)
Lemma register_fresh (s : MemStorage) (userData : InsertUser.t) (e : Env) :
  (forall u, In u (JsMap.values (users s)) -> User.username u <> InsertUser.username userData) ->
  (forall u, In u (JsMap.values (users s)) -> User.email u <> InsertUser.email userData) ->
  let user := User.mk (randomUUID e) (InsertUser.username userData)
                (InsertUser.email userData)
                (hashPassword (InsertUser.password userData) e) (dateNow e) in
  register this userData e s =
    (Return (withoutPassword user,
             generateToken this (JWTPayload.mk (User.id user) (User.username user)) (dateNow e)),
     set_users (JsMap.set (randomUUID e) user) s).
Proof.
  intros Hname Hmail user. unfold register, Mem.getUserByEmail, Mem.getUserByUsername.
  rewrite bind_gets.
  replace (find _ (JsMap.values (users s))) with (@None User.t).
  2:{ symmetry. apply find_none_iff. intros x Hx. now apply eqb_neq_false, Hmail. }
  rewrite bind_gets.
  replace (find _ (JsMap.values (users s))) with (@None User.t).
  2:{ symmetry. apply find_none_iff. intros x Hx. now apply eqb_neq_false, Hname. }
  reflexivity.
Qed.

(** [login] once the identifier resolves to a stored user. *)
Lemma login_resolved (s : MemStorage) (ident password : string) (e : Env) (u : User.t) :
  (fst (Mem.getUserByUsername ident s) = Return (Some u)
   \/ (fst (Mem.getUserByUsername ident s) = Return None
       /\ fst (Mem.getUserByEmail ident s) = Return (Some u))) ->
  login this ident password e s =
    if verifyPassword password (User.password u)
    then (Return (withoutPassword u,
                  generateToken this (JWTPayload.mk (User.id u) (User.username u)) (dateNow e)),
          s)
    else (Throw "Invalid credentials", s).
Proof.
  unfold login, Mem.getUserByUsername, Mem.getUserByEmail, gets. simpl.
  intros [H|[H1 H2]]; unfold bind.
  - injection H as ->. simpl. now destruct (verifyPassword _ _).
  - injection H1 as ->. injection H2 as H2. simpl. rewrite H2.
    now destruct (verifyPassword _ _).
Qed.

Lemma login_unknown (s : MemStorage) (ident password : string) (e : Env) :
  (forall u, In u (JsMap.values (users s)) ->
     User.username u <> ident /\ User.email u <> ident) ->
  login this ident password e s = (Throw "Invalid credentials", s).
Proof.
  intros H. unfold login, Mem.getUserByUsername, Mem.getUserByEmail.
  rewrite bind_gets.
  replace (find _ (JsMap.values (users s))) with (@None User.t).
  2:{ symmetry. apply find_none_iff. intros x Hx. now apply eqb_neq_false, H. }
  rewrite bind_gets.
  replace (find _ (JsMap.values (users s))) with (@None User.t).
  2:{ symmetry. apply find_none_iff. intros x Hx. now apply eqb_neq_false, H. }
  reflexivity.
Qed.


(** In a store with unique usernames, a stored user's username resolves to
    that user. *)
Lemma getUserByUsername_stored (s : MemStorage) (u : User.t) :
  usernames_unique s ->
  In u (JsMap.values (users s)) ->
  fst (Mem.getUserByUsername (User.username u) s) = Return (Some u).
Proof.
  intros Huniq Hu. unfold Mem.getUserByUsername, gets. simpl. f_equal.
  destruct (find _ _) as [v|] eqn:E.
  - apply find_some in E as [Hv Heq]. apply String.eqb_eq in Heq.
    f_equal. now apply Huniq.
  - apply (find_none _ _ E) in Hu. now rewrite String.eqb_refl in Hu.
Qed.
End AuthFacts.

(** ** The like-toggle handler, case by case *)

Lemma toggleLike_missing id userId e s :
  JsMap.get id (articles s) = None ->
  toggleLike id userId e s = (Return LikeNotFound, s).
Proof.
  intros H. unfold toggleLike, try_catch, Mem.getLikeByUserAndArticle, Mem.getArticleById,
    bind, gets, ret.
  rewrite H. reflexivity.
Qed.

Lemma toggleLike_like id userId e s article :
  JsMap.get id (articles s) = Some article ->
  find (Mem.sameLike userId id) (JsMap.values (likes s)) = None ->
  let newLikes := num_or (Article.likes article) 0 + 1 in
  toggleLike id userId e s =
    (Return (LikeOk true newLikes),
     set_articles (JsMap.set id (withLikes article newLikes))
       (set_likes (JsMap.set (randomUUID e) (Like.mk (randomUUID e) userId id (dateNow e))) s)).
Proof.
  intros Ha Hl newLikes.
  unfold toggleLike, try_catch, Mem.getLikeByUserAndArticle, Mem.getArticleById,
    Mem.createLike, Mem.updateArticleLikes, bind, gets, modify, ret.
  rewrite Hl, Ha. simpl. rewrite Ha. reflexivity.
Qed.

Lemma toggleLike_unlike id userId e s article like :
  JsMap.get id (articles s) = Some article ->
  find (Mem.sameLike userId id) (JsMap.values (likes s)) = Some like ->
  let newLikes := Z.max 0 (num_or (Article.likes article) 0 - 1) in
  toggleLike id userId e s =
    (Return (LikeOk false newLikes),
     set_articles (JsMap.set id (withLikes article newLikes))
       (set_likes (JsMap.delete (Like.id like)) s)).
Proof.
  intros Ha Hl newLikes.
  unfold toggleLike, try_catch, Mem.getLikeByUserAndArticle, Mem.getArticleById,
    Mem.deleteLike, Mem.updateArticleLikes, bind, gets, modify, ret.
  rewrite Hl, Ha. simpl. rewrite Hl. simpl. rewrite Ha. reflexivity.
Qed.

(** What [toggleLike] leaves alone. *)
Lemma toggleLike_users id userId e s : users (snd (toggleLike id userId e s)) = users s.
Proof.
  destruct (JsMap.get id (articles s)) as [a|] eqn:Ha.
  - destruct (find (Mem.sameLike userId id) (JsMap.values (likes s))) as [l|] eqn:Hl.
    + now rewrite (toggleLike_unlike _ _ e _ Ha Hl).
    + now rewrite (toggleLike_like _ _ e _ Ha Hl).
  - now rewrite toggleLike_missing.
Qed.

(** ** Invariants of the reachable stores *)

Lemma step_users s s' :
  step s s' ->
  users s' = users s
  \/ exists insertUser e,
       fst (Mem.getUserByUsername (InsertUser.username insertUser) s) = Return None
       /\ users s' =
          JsMap.set (randomUUID e)
            (User.mk (randomUUID e) (InsertUser.username insertUser)
               (InsertUser.email insertUser) (InsertUser.password insertUser) (dateNow e))
            (users s).
Proof.
  destruct 1.
  - right. now exists insertUser, e.
  - now left.
  - left. apply toggleLike_users.
  - now left.
  - left. unfold Mem.deleteBookmark. rewrite bind_gets. now destruct (find _ _).
  - now left.
Qed.

Lemma reachable_usernames_unique s : reachable s -> usernames_unique s.
Proof.
  induction 1 as [e1 e2 e3|s s' _ IH Hstep].
  - intros u v [].
  - destruct (step_users Hstep) as [E|(iu & e & Hmiss & E)]; unfold usernames_unique.
    + rewrite E. exact IH.
    + rewrite E. unfold Mem.getUserByUsername, gets in Hmiss. simpl in Hmiss.
      injection Hmiss as Hmiss.
      assert (Hold : forall x, In x (JsMap.values (users s)) ->
                User.username x <> InsertUser.username iu).
      { intros x Hx Heq. apply (find_none _ _ Hmiss) in Hx.
        rewrite Heq, String.eqb_refl in Hx. discriminate. }
      intros u v Hu Hv Heq.
      apply values_set_inv in Hu as [->|Hu]; apply values_set_inv in Hv as [->|Hv].
      * reflexivity.
      * exfalso. apply (Hold _ Hv). now rewrite <- Heq.
      * exfalso. apply (Hold _ Hu). now rewrite Heq.
      * now apply IH.
Qed.

Lemma likes_nonneg_set k a s :
  likes_nonneg s -> 0 <= Article.likes a ->
  Forall (fun a => 0 <= Article.likes a) (JsMap.values (JsMap.set k a (articles s))).
Proof.
  intros Hs Ha. apply Forall_forall. intros x Hx.
  apply values_set_inv in Hx as [->|Hx]; [exact Ha|].
  unfold likes_nonneg in Hs. rewrite Forall_forall in Hs. now apply Hs.
Qed.

Lemma toggleLike_likes_nonneg id userId e s :
  likes_nonneg s -> likes_nonneg (snd (toggleLike id userId e s)).
Proof.
  intros Hs.
  destruct (JsMap.get id (articles s)) as [a|] eqn:Ha.
  - assert (0 <= Article.likes a) as Hpos.
    { unfold likes_nonneg in Hs. rewrite Forall_forall in Hs.
      now apply Hs, (get_In _ _ Ha). }
    destruct (find (Mem.sameLike userId id) (JsMap.values (likes s))) as [l|] eqn:Hl.
    + rewrite (toggleLike_unlike _ _ e _ Ha Hl). apply likes_nonneg_set; [exact Hs|].
      simpl. lia.
    + rewrite (toggleLike_like _ _ e _ Ha Hl). apply likes_nonneg_set; [exact Hs|].
      simpl. unfold num_or. destruct (Article.likes a =? 0); lia.
  - now rewrite toggleLike_missing.
Qed.

Lemma reachable_likes_nonneg s : reachable s -> likes_nonneg s.
Proof.
  induction 1 as [e1 e2 e3|s s' _ IH Hstep].
  - constructor.
  - destruct Hstep; try exact IH.
    + apply likes_nonneg_set; [exact IH|]. simpl. lia.
    + now apply toggleLike_likes_nonneg.
    + unfold Mem.deleteBookmark. rewrite bind_gets. now destruct (find _ _).
Qed.

(** ** Register, Login, Verify *)

Section AuthClaims.
Context {crypto : Crypto}.
Variable this : AuthService.

Hypothesis bcrypt_compare_hash :
  forall password rounds salt,
    bcrypt_compare password (bcrypt_hash password rounds salt) = true.
Hypothesis jwt_verify_sign :
  forall payload secret iat ttl now,
    iat <= now < iat + ttl ->
    jwt_verify (jwt_sign payload secret iat ttl) secret now = Return payload.

(** C1 (as amended).  After a Register whose username is no stored username
    and whose email is no stored email, Login with the same username and
    password succeeds and leaves the store as it is; so does Login with the
    email, provided no previously stored user has that email as username.
    Verify applied to the token of that Login, at any time before the token
    expires (seven days after it was issued), yields the id and the username
    of the user Register created. *)
Theorem register_then_login_then_verify
    (s : MemStorage) (userData : InsertUser.t) (e e' : Env) (now : Z) :
  (forall u, In u (JsMap.values (users s)) ->
     User.username u <> InsertUser.username userData) ->
  (forall u, In u (JsMap.values (users s)) ->
     User.email u <> InsertUser.email userData) ->
  exists user token s1,
    register this userData e s = (Return (user, token), s1)
    /\ UserWithoutPassword.username user = InsertUser.username userData
    /\ forall ident,
         ident = InsertUser.username userData
         \/ (ident = InsertUser.email userData
             /\ forall u, In u (JsMap.values (users s)) -> User.username u <> ident) ->
         exists token',
           login this ident (InsertUser.password userData) e' s1
             = (Return (user, token'), s1)
           /\ (clockTimestamp (dateNow e') <= clockTimestamp now
                 < clockTimestamp (dateNow e') + expiresIn ->
               verifyToken this token' now =
                 Return (Some (JWTPayload.mk (UserWithoutPassword.id user)
                                 (UserWithoutPassword.username user)))).
Proof.
  intros Hname Hmail.
  rewrite (register_fresh this s userData e Hname Hmail).
  set (user := User.mk _ _ _ _ _).
  do 3 eexists. split; [reflexivity|]. split; [reflexivity|].
  intros ident Hident.
  assert (Hres :
    fst (Mem.getUserByUsername ident (set_users (JsMap.set (randomUUID e) user) s))
      = Return (Some user)
    \/ (fst (Mem.getUserByUsername ident (set_users (JsMap.set (randomUUID e) user) s))
          = Return None
        /\ fst (Mem.getUserByEmail ident (set_users (JsMap.set (randomUUID e) user) s))
          = Return (Some user))).
  { unfold Mem.getUserByUsername, Mem.getUserByEmail, gets. simpl.
    destruct Hident as [->|[-> Hother]].
    - left. f_equal. apply find_values_set.
      + apply String.eqb_refl.
      + intros x Hx. now apply eqb_neq_false, Hname.
    - destruct (String.eqb (InsertUser.username userData) (InsertUser.email userData)) eqn:E.
      + left. f_equal. apply find_values_set; [exact E|].
        intros x Hx. now apply eqb_neq_false, Hother.
      + right. split; f_equal.
        * apply find_values_set_none; [exact E|].
          intros x Hx. now apply eqb_neq_false, Hother.
        * apply find_values_set; [apply String.eqb_refl|].
          intros x Hx. now apply eqb_neq_false, Hmail. }
  rewrite (@login_resolved _ this _ _ (InsertUser.password userData) e' _ Hres).
  unfold verifyPassword. simpl User.password. unfold hashPassword.
  rewrite bcrypt_compare_hash.
  eexists. split; [reflexivity|].
  intros Hnow. unfold verifyToken, generateToken.
  now rewrite jwt_verify_sign by exact Hnow.
Qed.

(** C3.  When the email or the username of a Register call already belongs
    to a stored user, Register fails with an error and the store, hence the
    set of stored users, is unchanged. *)
Theorem register_duplicate_fails (s : MemStorage) (userData : InsertUser.t) (e : Env) :
  (exists u, In u (JsMap.values (users s))
             /\ (User.email u = InsertUser.email userData
                 \/ User.username u = InsertUser.username userData)) ->
  exists message, register this userData e s = (Throw message, s).
Proof.
  intros (u & Hu & Hdup).
  unfold register, Mem.getUserByEmail, Mem.getUserByUsername, bind, gets, throw.
  destruct (find (fun user => String.eqb (User.email user) (InsertUser.email userData))
              (JsMap.values (users s))) as [v|] eqn:Email.
  - eexists; reflexivity.
  - destruct (find (fun user => String.eqb (User.username user) (InsertUser.username userData))
                (JsMap.values (users s))) as [v|] eqn:Ename.
    + eexists; reflexivity.
    + exfalso. destruct Hdup as [H|H].
      * apply (find_none _ _ Email) in Hu. rewrite H, String.eqb_refl in Hu. discriminate.
      * apply (find_none _ _ Ename) in Hu. rewrite H, String.eqb_refl in Hu. discriminate.
Qed.

(** C5.  In a reachable store, Login with the username of a stored user and
    a password that does not match that user's stored hash fails with
    exactly the completion of a Login whose identifier matches no stored
    user: the error ['Invalid credentials'], the store untouched. *)
Theorem login_failures_indistinguishable
    (s : MemStorage) (u : User.t) (password : string) (e : Env)
    (ident' password' : string) (e' : Env) :
  reachable s ->
  In u (JsMap.values (users s)) ->
  verifyPassword password (User.password u) = false ->
  (forall v, In v (JsMap.values (users s)) ->
     User.username v <> ident' /\ User.email v <> ident') ->
  login this (User.username u) password e s = (Throw "Invalid credentials", s)
  /\ login this ident' password' e' s = login this (User.username u) password e s.
Proof.
  intros Hreach Hu Hbad Hunknown.
  assert (H : login this (User.username u) password e s = (Throw "Invalid credentials", s)).
  { rewrite (@login_resolved _ this s _ password e u).
    - now rewrite Hbad.
    - left. apply getUserByUsername_stored; [|exact Hu].
      now apply reachable_usernames_unique. }
  split; [exact H|]. rewrite H. now apply login_unknown.
Qed.

(** C6.  Verify returns on every input string and never throws: the payload
    when [jwt.verify] accepts the token, null when [jwt.verify] throws
    (malformed, expired or wrongly signed token). *)
Theorem verifyToken_never_throws (token : string) (now : Z) :
  exists result,
    verifyToken this token now = Return result
    /\ (forall payload,
          jwt_verify token (jwtSecret this) (clockTimestamp now) = Return payload ->
          result = Some payload)
    /\ (forall message,
          jwt_verify token (jwtSecret this) (clockTimestamp now) = Throw message ->
          result = None).
Proof.
  unfold verifyToken.
  destruct (jwt_verify token (jwtSecret this) (clockTimestamp now)) as [payload|message].
  - exists (Some payload). repeat split; congruence.
  - exists None. repeat split; congruence.
Qed.
End AuthClaims.

Lemma register_then_login_then_verify_witness :
  exists user token s1,
    register Sample.auth Sample.alice Sample.env1 Sample.store0 = (Return (user, token), s1)
    /\ UserWithoutPassword.username user = "a"
    /\ forall ident,
         ident = "a"
         \/ (ident = "a@x.com"
             /\ forall u, In u (JsMap.values (users Sample.store0)) ->
                  User.username u <> ident) ->
         exists token',
           login Sample.auth ident "p" Sample.env2 s1 = (Return (user, token'), s1)
           /\ (clockTimestamp 6000 <= clockTimestamp 7000 < clockTimestamp 6000 + expiresIn ->
               verifyToken Sample.auth token' 7000 =
                 Return (Some (JWTPayload.mk (UserWithoutPassword.id user)
                                 (UserWithoutPassword.username user)))).
Proof.
  apply (@register_then_login_then_verify Toy.crypto Sample.auth
           toy_compare_hash toy_verify_sign
           Sample.store0 Sample.alice Sample.env1 Sample.env2 7000).
  - intros u H. destruct H.
  - intros u H. destruct H.
Defined.

(** C1 as stated fails on two inputs.
    Login by email: [squatter] registers with the username ["a@x.com"]; then
    [alice] registers with username ["a"] and email ["a@x.com"], neither of
    them stored as username, respectively email.  Login with her email and
    her password resolves the identifier as the username of [squatter] and
    fails.
    Verify after expiry: [alice] registers in the seeded store and logs in
    with her username; eight days later Verify answers null for the token of
    that Login. *)
Lemma login_by_email_shadowed :
  (let s := snd (register Sample.auth Sample.squatter Sample.env1 Sample.store0) in
   (forall u, In u (JsMap.values (users s)) -> User.username u <> "a")
   /\ (forall u, In u (JsMap.values (users s)) -> User.email u <> "a@x.com")
   /\ exists r s1,
        register Sample.auth Sample.alice Sample.env2 s = (Return r, s1)
        /\ login Sample.auth "a@x.com" "p" Sample.env3 s1
           = (Throw "Invalid credentials", s1))
  /\ (exists user token token' s1,
        register Sample.auth Sample.alice Sample.env1 Sample.store0
          = (Return (user, token), s1)
        /\ login Sample.auth "a" "p" Sample.env2 s1 = (Return (user, token'), s1)
        /\ verifyToken Sample.auth token' (dateNow Sample.env2 + 8 * 24 * 60 * 60 * 1000)
           = Return None).
Proof.
  split; [split; [|split]|].
  - intros u [<-|[]]. discriminate.
  - intros u [<-|[]]. discriminate.
  - do 2 eexists. split; vm_compute; reflexivity.
  - do 4 eexists. split; [vm_compute; reflexivity|]. split; vm_compute; reflexivity.
Qed.

Lemma register_duplicate_fails_witness :
  exists message,
    register Sample.auth (InsertUser.mk "a" "other@x.com" "pw") Sample.env2 Sample.store1
      = (Throw message, Sample.store1).
Proof.
  apply (@register_duplicate_fails Toy.crypto Sample.auth Sample.store1
           (InsertUser.mk "a" "other@x.com" "pw") Sample.env2).
  exists Sample.aliceStored. split.
  - left. reflexivity.
  - right. reflexivity.
Defined.

Lemma sample_store1_reachable : reachable Sample.store1.
Proof.
  unfold Sample.store1.
  apply reachable_step with (s := Sample.store0).
  - apply reachable_init.
  - apply step_register; reflexivity.
Qed.

Lemma login_failures_indistinguishable_witness :
  login Sample.auth "a" "wrong" Sample.env2 Sample.store1
    = (Throw "Invalid credentials", Sample.store1)
  /\ login Sample.auth "nobody" "p" Sample.env3 Sample.store1
     = login Sample.auth "a" "wrong" Sample.env2 Sample.store1.
Proof.
  apply (@login_failures_indistinguishable Toy.crypto Sample.auth
           Sample.store1 Sample.aliceStored "wrong" Sample.env2 "nobody" "p" Sample.env3).
  - exact sample_store1_reachable.
  - left. reflexivity.
  - reflexivity.
  - intros v [<-|[]]. split; discriminate.
Defined.

Lemma verifyToken_never_throws_witness :
  exists result, verifyToken Sample.auth "not a token" 7000 = Return result.
Proof.
  destruct (@verifyToken_never_throws Toy.crypto Sample.auth "not a token" 7000)
    as (result & H & _).
  exists result. exact H.
Defined.

(** ** Article listing *)

(** The time value of a valid date. *)
Lemma getTime_valid (date : JsDate) :
  isValid date = true -> exists time, date = ValidDate time.
Proof.
  destruct date as [time|]; [now exists time|discriminate].
Qed.

(** On articles with valid dates the listing is newest first. *)
Lemma js_sort_newest_first (l : list Article.t) :
  (forall a, In a l -> isValid (Article.publishedAt a) = true) ->
  newest_first (js_sort descPublishedAt l).
Proof.
  intros Hvalid.
  apply (@StronglySorted_impl_on _
           (fun a b => nan_as_zero (getTime (Article.publishedAt b))
                       <= nan_as_zero (getTime (Article.publishedAt a)))).
  - intros a b Ha Hb. apply js_sort_In in Ha, Hb.
    destruct (getTime_valid _ (Hvalid a Ha)) as [ta Ea].
    destruct (getTime_valid _ (Hvalid b Hb)) as [tb Eb].
    unfold notLater. now rewrite Ea, Eb.
  - apply js_sort_sorted_on. intros x y Hx Hy.
    destruct (getTime_valid _ (Hvalid x Hx)) as [tx Ex].
    destruct (getTime_valid _ (Hvalid y Hy)) as [ty Ey].
    unfold descPublishedAt, byPublishedDesc. now rewrite Ex, Ey.
Qed.

Lemma dated_filter (c : string) (stored : list Article.t) :
  dated c stored ->
  forall a, In a (filter (fun a => String.eqb (Article.category a) c) stored) ->
    isValid (Article.publishedAt a) = true.
Proof.
  intros Hdated a Ha. apply filter_In in Ha as [Hin Hc].
  apply Hdated; [exact Hin|now apply String.eqb_eq].
Qed.

Lemma filter_category_Forall (c : string) (l : list Article.t) :
  Forall (fun a => Article.category a = c)
    (filter (fun a => String.eqb (Article.category a) c) l).
Proof.
  apply Forall_forall. intros a Ha.
  apply filter_In in Ha as [_ Ha]. now apply String.eqb_eq.
Qed.

Lemma genuine_category (c : string) :
  c <> EmptyString -> c <> "all" ->
  truthy c && negb (String.eqb c "all") = true.
Proof.
  intros H1 H2. unfold truthy.
  now rewrite (eqb_neq_false H1), (eqb_neq_false H2).
Qed.

(** C7 (as amended).  For a category filter that is neither absent, nor the
    empty string, nor ["all"], and when the stored articles of that category
    all have a valid publication date, [getArticles] returns only articles
    of that category, ordered by published timestamp descending; for a
    non-negative offset and limit the result is the window of [limit]
    articles after the first [offset] ones; an absent limit is 20 and an
    absent offset 0.  The in-memory store answers for every offset and
    limit, the database for the non-negative ones. *)
Theorem getArticles_by_category
    (s : MemStorage) (d : Database) (c : string) (limit offset : option Z) :
  c <> EmptyString -> c <> "all" ->
  let lim := match limit with Some n => n | None => 20 end in
  let off := match offset with Some n => n | None => 0 end in
  (dated c (JsMap.values (articles s)) ->
   exists page,
     Mem.getArticles (Some c) limit offset s = (Return page, s)
     /\ Forall (fun a => Article.category a = c) page
     /\ newest_first page
     /\ (0 <= off -> 0 <= lim -> is_page c (JsMap.values (articles s)) off lim page))
  /\ (dated c (db_articles d) -> 0 <= off -> 0 <= lim ->
      exists page,
        Db.getArticles (Some c) limit offset d = (Return page, d)
        /\ Forall (fun a => Article.category a = c) page
        /\ newest_first page
        /\ is_page c (db_articles d) off lim page).
Proof.
  intros Hc Hall lim off. split.
  - intros Hdated.
    pose proof (js_sort_newest_first _ (dated_filter Hdated)) as Hsorted.
    unfold Mem.getArticles, gets. rewrite (genuine_category Hc Hall).
    fold lim off. eexists. split; [reflexivity|]. split; [|split].
    + apply Forall_forall. intros a Ha.
      apply js_slice_In, js_sort_In, filter_In in Ha as [_ Ha].
      now apply String.eqb_eq.
    + apply js_slice_sorted. exact Hsorted.
    + intros Hoff Hlim. eexists. split; [apply js_sort_perm|].
      split; [exact Hsorted|]. now apply js_slice_window.
  - intros Hdated Hoff Hlim.
    pose proof (js_sort_newest_first _ (dated_filter Hdated)) as Hsorted.
    unfold Db.getArticles, Db.await, Drizzle.run. rewrite (genuine_category Hc Hall).
    fold lim off. simpl.
    destruct (off <? 0) eqn:E1; [apply Z.ltb_lt in E1; lia|].
    destruct (lim <? 0) eqn:E2; [apply Z.ltb_lt in E2; lia|].
    eexists. split; [reflexivity|]. split; [|split].
    + apply Forall_forall. intros a Ha.
      apply In_firstn, In_skipn, js_sort_In, filter_In in Ha as [_ Ha].
      now apply String.eqb_eq.
    + apply StronglySorted_firstn, StronglySorted_skipn. exact Hsorted.
    + eexists. split; [apply js_sort_perm|].
      split; [exact Hsorted|reflexivity].
Qed.

Lemma sample_store2_dated (c : string) : dated c (JsMap.values (articles Sample.store2)).
Proof.
  intros a Ha _. simpl in Ha. destruct Ha as [<-|[<-|[<-|[]]]]; reflexivity.
Qed.

Lemma getArticles_by_category_witness :
  (exists page,
     Mem.getArticles (Some "sports") None (Some 1) Sample.store2 = (Return page, Sample.store2)
     /\ Forall (fun a => Article.category a = "sports") page
     /\ newest_first page
     /\ is_page "sports" (JsMap.values (articles Sample.store2)) 1 20 page)
  /\ (exists page,
        Db.getArticles (Some "sports") None (Some 1) Sample.db2 = (Return page, Sample.db2)
        /\ Forall (fun a => Article.category a = "sports") page
        /\ newest_first page
        /\ is_page "sports" (db_articles Sample.db2) 1 20 page).
Proof.
  destruct (@getArticles_by_category Sample.store2 Sample.db2 "sports" None (Some 1))
    as [Hmem Hdb]; try discriminate.
  split.
  - destruct (Hmem (@sample_store2_dated "sports")) as (page & H1 & H2 & H3 & H4).
    exists page. repeat split; try assumption. apply H4; lia.
  - destruct (Hdb (@sample_store2_dated "sports")) as (page & H); [lia|lia|].
    exists page. exact H.
Defined.

(** C7 as stated fails on two inputs.
    The filter ["all"]: the listing then holds articles of every category.
    An article without valid date: GET /api/news stores a feed of three
    sports items, the second with a timestamp that [new Date] cannot read;
    the comparator answers NaN whenever that article is compared, and the
    listing of the category keeps the three in the order they were stored,
    the oldest before the newest. *)
Lemma getArticles_all_or_undated :
  (exists page a,
     Mem.getArticles (Some "all") None None Sample.store2 = (Return page, Sample.store2)
     /\ In a page
     /\ Article.category a <> "all")
  /\ (let s := snd (storeFetched Sample2.parseDate (Some "sports") Sample2.feedUndated
                      Sample.store1) in
      exists older undated newer,
        Mem.getArticles (Some "sports") None None s = (Return [older; undated; newer], s)
        /\ Article.publishedAt older = ValidDate 1717200000000
        /\ Article.publishedAt undated = InvalidDate
        /\ Article.publishedAt newer = ValidDate 1717372800000
        /\ Forall (fun a => Article.category a = "sports") [older; undated; newer]
        /\ ~ newest_first [older; undated; newer]).
Proof.
  split.
  - eexists. eexists. split; [vm_compute; reflexivity|].
    split; [left; reflexivity|]. discriminate.
  - cbv zeta. do 3 eexists. split; [vm_compute; reflexivity|].
    split; [reflexivity|]. split; [reflexivity|]. split; [reflexivity|]. split.
    + repeat constructor.
    + intros H. apply StronglySorted_inv in H as [_ H].
      apply Forall_inv in H. exact H.
Qed.

(** C9.  In both implementations, [getArticles] with the category ["all"]
    is [getArticles] with no category, whatever the store, limit and
    offset. *)
Theorem getArticles_all_is_no_filter
    (s : MemStorage) (d : Database) (limit offset : option Z) :
  Mem.getArticles (Some "all") limit offset s = Mem.getArticles None limit offset s
  /\ Db.getArticles (Some "all") limit offset d = Db.getArticles None limit offset d.
Proof.
  split; reflexivity.
Qed.

(** ** Like toggle *)

Lemma num_or_zero n : num_or n 0 = n.
Proof.
  unfold num_or. destruct (n =? 0) eqn:E; [apply Z.eqb_eq in E; now subst|reflexivity].
Qed.

Lemma withLikes_back (a : Article.t) (n : Z) :
  withLikes (withLikes a n) (Article.likes a) = a.
Proof. now destruct a. Qed.

(** C4.  In a reachable store, for an existing article that the user has
    not liked yet, two like-toggles in a row are a like, answering the count
    plus one, then an unlike, answering the count; afterwards the article is
    stored with the like count it had before the first toggle. *)
Theorem like_then_unlike_restores_count
    (s : MemStorage) (id userId : string) (article : Article.t) (e1 e2 : Env) :
  reachable s ->
  fst (Mem.getArticleById id s) = Return (Some article) ->
  fst (Mem.getLikeByUserAndArticle userId id s) = Return None ->
  exists s1 s2,
    toggleLike id userId e1 s = (Return (LikeOk true (Article.likes article + 1)), s1)
    /\ toggleLike id userId e2 s1 = (Return (LikeOk false (Article.likes article)), s2)
    /\ fst (Mem.getArticleById id s2) = Return (Some article).
Proof.
  intros Hreach Ha Hl.
  unfold Mem.getArticleById, Mem.getLikeByUserAndArticle, gets in Ha, Hl.
  simpl in Ha, Hl. injection Ha as Ha. injection Hl as Hl.
  assert (Hpos : 0 <= Article.likes article).
  { pose proof (reachable_likes_nonneg Hreach) as Hinv.
    unfold likes_nonneg in Hinv. rewrite Forall_forall in Hinv.
    now apply Hinv, (get_In _ _ Ha). }
  rewrite (toggleLike_like _ _ e1 _ Ha Hl). rewrite num_or_zero.
  set (like := Like.mk (randomUUID e1) userId id (dateNow e1)).
  set (liked := withLikes article (Article.likes article + 1)).
  set (s1 := set_articles _ _).
  assert (Ha1 : JsMap.get id (articles s1) = Some liked) by apply get_set_same.
  assert (Hl1 : find (Mem.sameLike userId id) (JsMap.values (likes s1)) = Some like).
  { apply find_values_set.
    - unfold Mem.sameLike. simpl. now rewrite !String.eqb_refl.
    - now apply find_none_iff. }
  exists s1. eexists. split; [reflexivity|].
  rewrite (toggleLike_unlike _ _ e2 _ Ha1 Hl1).
  rewrite num_or_zero.
  replace (Z.max 0 (Article.likes liked - 1)) with (Article.likes article)
    by (simpl; lia).
  split; [reflexivity|].
  unfold Mem.getArticleById, gets. simpl. f_equal.
  rewrite get_set_same. f_equal. apply withLikes_back.
Qed.

Lemma sample_store2_reachable : reachable Sample.store2.
Proof.
  unfold Sample.store2.
  repeat (eapply reachable_step; [|apply step_createArticle]).
  exact sample_store1_reachable.
Qed.

Lemma like_then_unlike_restores_count_witness :
  exists s1 s2,
    toggleLike "uuid-2" "uuid-1" (mkEnv "like-1" 11000 "-") Sample.store2
      = (Return (LikeOk true (0 + 1)), s1)
    /\ toggleLike "uuid-2" "uuid-1" (mkEnv "like-2" 12000 "-") s1
      = (Return (LikeOk false 0), s2)
    /\ fst (Mem.getArticleById "uuid-2" s2)
       = Return (Some (Article.mk "uuid-2" "Cup final" None None "https://n.example/1" None
                         "sports" "Thanthi" (ValidDate 100) 0 6000)).
Proof.
  apply (@like_then_unlike_restores_count Sample.store2 "uuid-2" "uuid-1"
           (Article.mk "uuid-2" "Cup final" None None "https://n.example/1" None
              "sports" "Thanthi" (ValidDate 100) 0 6000)
           (mkEnv "like-1" 11000 "-") (mkEnv "like-2" 12000 "-")).
  - exact sample_store2_reachable.
  - reflexivity.
  - reflexivity.
Defined.

(** ** Bookmarks *)

Lemma filter_nil_iff {A} (p : A -> bool) (l : list A) :
  filter p l = [] <-> (forall x, In x l -> p x = false).
Proof.
  split.
  - intros H x Hx. destruct (p x) eqn:E; [|reflexivity].
    assert (In x (filter p l)) as Hin by (apply filter_In; auto).
    rewrite H in Hin. destruct Hin.
  - intros H. induction l as [|x l IH]; simpl; [reflexivity|].
    rewrite (H x) by (now left). apply IH. intros y Hy. apply H. now right.
Qed.

Lemma values_delete_set {V} k (v : V) m x :
  In x (JsMap.values (JsMap.delete k (JsMap.set k v m))) -> In x (JsMap.values m).
Proof.
  induction m as [|[k' v'] m IH]; simpl.
  - rewrite String.eqb_refl. intros [].
  - destruct (String.eqb k' k) eqn:E; simpl.
    + rewrite String.eqb_refl. auto.
    + rewrite E. simpl. intros [H|H]; auto.
Qed.

(** The database deletes every row with the composite key: after create and
    delete the user's list has no entry for the resource. *)
Lemma Db_create_then_delete_bookmark (d : Database) (b : InsertBookmark.t) (e : Env) :
  let userId := InsertBookmark.userId b in
  let d1 := snd (Db.createBookmark b e d) in
  let d2 := snd (Db.deleteBookmark userId (InsertBookmark.resourceType b)
                   (InsertBookmark.resourceId b) d1) in
  exists l,
    Db.getBookmarksByUserId userId d2 = (Return l, d2)
    /\ entriesFor (InsertBookmark.resourceType b) (InsertBookmark.resourceId b) l = [].
Proof.
  intros userId d1 d2. eexists. split; [reflexivity|].
  apply filter_nil_iff. intros x Hx. simpl in Hx.
  apply js_sort_In, filter_In in Hx as [Hx Huser].
  apply filter_In in Hx as [_ Hx]. unfold Drizzle.and_ in Hx. simpl in Hx.
  fold userId in Hx. rewrite Huser in Hx. simpl in Hx.
  rewrite andb_true_r in Hx. now apply negb_true_iff in Hx.
Qed.

(** The in-memory store deletes the first bookmark with the composite key:
    the user's list has no entry for the resource when it had none before
    the create. *)
Lemma Mem_create_then_delete_bookmark (s : MemStorage) (b : InsertBookmark.t) (e : Env) :
  let userId := InsertBookmark.userId b in
  let resourceType := InsertBookmark.resourceType b in
  let resourceId := InsertBookmark.resourceId b in
  (forall x, In x (JsMap.values (bookmarks s)) ->
     Mem.sameBookmark userId resourceType resourceId x = false) ->
  let s1 := snd (Mem.createBookmark b e s) in
  let s2 := snd (Mem.deleteBookmark userId resourceType resourceId s1) in
  exists l,
    Mem.getBookmarksByUserId userId s2 = (Return l, s2)
    /\ entriesFor resourceType resourceId l = [].
Proof.
  intros userId resourceType resourceId Hnone s1 s2.
  eexists. split; [reflexivity|].
  apply filter_nil_iff. intros x Hx.
  apply js_sort_In, filter_In in Hx as [Hx Huser].
  assert (Hin : In x (JsMap.values (bookmarks s))).
  { revert Hx. unfold s2, s1, Mem.deleteBookmark, Mem.createBookmark, bind, gets, modify, ret.
    simpl. rewrite find_values_set.
    - simpl. apply values_delete_set.
    - unfold Mem.sameBookmark. simpl. now rewrite !String.eqb_refl.
    - exact Hnone. }
  specialize (Hnone _ Hin). unfold Mem.sameBookmark in Hnone.
  rewrite Huser in Hnone. exact Hnone.
Qed.

(** C8, failing input.  The user already holds a bookmark for the resource.
    A second create followed by the delete removes the older bookmark and
    leaves the new one in the in-memory store; on the same rows the database
    leaves none. *)
Theorem createBookmark_deleteBookmark_keeps_duplicate :
  let s1 := snd (Mem.createBookmark Sample.bookmarkRequest (mkEnv "bm-2" 11000 "-")
                   Sample.storeBookmarked) in
  let s2 := snd (Mem.deleteBookmark "uuid-1" "article" "art-1" s1) in
  let d1 := snd (Db.createBookmark Sample.bookmarkRequest (mkEnv "bm-2" 11000 "-")
                   Sample.dbBookmarked) in
  let d2 := snd (Db.deleteBookmark "uuid-1" "article" "art-1" d1) in
  (exists l,
     Mem.getBookmarksByUserId "uuid-1" s2 = (Return l, s2)
     /\ map Bookmark.id (entriesFor "article" "art-1" l) = ["bm-2"])
  /\ (exists l,
        Db.getBookmarksByUserId "uuid-1" d2 = (Return l, d2)
        /\ entriesFor "article" "art-1" l = []).
Proof.
  split; eexists; split; reflexivity.
Qed.

(** ** Study resources *)

Lemma filter_filter {A} (p q : A -> bool) (l : list A) :
  filter q (filter p l) = filter (fun x => p x && q x) l.
Proof.
  induction l as [|x l IH]; simpl; [reflexivity|].
  destruct (p x); simpl; [destruct (q x)|]; now rewrite IH.
Qed.

Lemma filter_all {A} (p : A -> bool) (l : list A) :
  (forall x, p x = true) -> filter p l = l.
Proof.
  intros H. induction l as [|x l IH]; simpl; [reflexivity|]. now rewrite H, IH.
Qed.

Ltac same_filter :=
  repeat rewrite filter_filter;
  first
    [ apply filter_ext; intros ?; simpl;
      rewrite ?andb_true_r, ?andb_assoc; reflexivity
    | symmetry; apply filter_all; intros ?; reflexivity ].

(** Both implementations select the resources that match every supplied
    filter; the in-memory one orders them by title. *)
Lemma Mem_getTnpscResources_selects localeCompare category subject examStage s :
  Mem.getTnpscResources localeCompare category subject examStage s =
    (Return (js_sort (Mem.byTitle localeCompare)
               (filter (matchesFilters category subject examStage)
                  (JsMap.values (tnpscResources s)))),
     s).
Proof.
  unfold Mem.getTnpscResources, gets, matchesFilters, supplied. do 3 f_equal.
  destruct category as [c|]; [destruct (truthy c)|];
    (destruct subject as [u|]; [destruct (truthy u)|]);
    (destruct examStage as [x|]; [destruct (truthy x)|]);
    same_filter.
Qed.

(** ... the database by creation time, newest first. *)
Lemma Db_getTnpscResources_selects category subject examStage d :
  Db.getTnpscResources category subject examStage d =
    (Return (js_sort byResourceCreatedDesc
               (filter (matchesFilters category subject examStage)
                  (db_tnpscResources d))),
     d).
Proof.
  unfold Db.getTnpscResources, Db.await, Drizzle.run, matchesFilters, supplied.
  destruct category as [c|]; [destruct (truthy c)|];
    (destruct subject as [u|]; [destruct (truthy u)|]);
    (destruct examStage as [x|]; [destruct (truthy x)|]);
    simpl; do 3 f_equal; unfold Drizzle.and_; same_filter.
Qed.

Lemma Db_getTnpscResources_newest_first category subject examStage d :
  exists l,
    Db.getTnpscResources category subject examStage d = (Return l, d)
    /\ Permutation l (filter (matchesFilters category subject examStage) (db_tnpscResources d))
    /\ newest_created_first l.
Proof.
  rewrite Db_getTnpscResources_selects. eexists. split; [reflexivity|].
  split; [apply js_sort_perm|].
  exact (js_sort_sorted byResourceCreatedDesc TnpscResource.createdAt
           (fun x y => eq_refl) _).
Qed.

(** On the same rows the two implementations return the same resources, up
    to their order. *)
Lemma getTnpscResources_same_resources localeCompare category subject examStage s d :
  db_tnpscResources d = JsMap.values (tnpscResources s) ->
  exists lm ld,
    Mem.getTnpscResources localeCompare category subject examStage s = (Return lm, s)
    /\ Db.getTnpscResources category subject examStage d = (Return ld, d)
    /\ Permutation lm ld.
Proof.
  intros Hrows. rewrite Mem_getTnpscResources_selects, Db_getTnpscResources_selects.
  do 2 eexists. split; [reflexivity|]. split; [reflexivity|].
  rewrite Hrows. now rewrite !js_sort_perm.
Qed.

(** C2, failing input.  The seeded store plus one resource created later,
    ["Zoology Notes"], and a database with the same rows, no filter
    supplied.  The in-memory store lists the newest resource last, the
    database first: the in-memory order is not newest first and the two
    results differ. *)
Theorem getTnpscResources_orders_differ :
  exists lm ld,
    Mem.getTnpscResources codeUnitCompare None None None Sample.store3
      = (Return lm, Sample.store3)
    /\ Db.getTnpscResources None None None Sample.db3 = (Return ld, Sample.db3)
    /\ map TnpscResource.title lm
       = ["Geography Notes"; "Indian Polity"; "Tamil Nadu History"; "Zoology Notes"]
    /\ map TnpscResource.title ld
       = ["Zoology Notes"; "Tamil Nadu History"; "Indian Polity"; "Geography Notes"]
    /\ ~ newest_created_first lm
    /\ lm <> ld.
Proof.
  do 2 eexists.
  split; [vm_compute; reflexivity|].
  split; [vm_compute; reflexivity|].
  split; [reflexivity|]. split; [reflexivity|]. split.
  - intros H. apply StronglySorted_inv in H as [_ H].
    rewrite Forall_forall in H.
    specialize (H _ (or_intror (or_intror (or_introl eq_refl)))).
    simpl in H. lia.
  - discriminate.
Qed.

(** ** Fake-news detection *)

Section DetectFakeNews.
Variable chat : string -> completion (option string).
Variable JSON_parse : string -> completion Verdict.
Variable analysisPrompt : string -> string.

Lemma trusted_source_truthy (source : string) :
  existsb (fun trusted => includes (toLowerCase source) trusted) trustedSources = true ->
  truthy source = true.
Proof.
  destruct source; [discriminate|reflexivity].
Qed.

(** C10.  When the lower-cased source contains one of the six trusted names,
    [detectFakeNews] returns the fixed verdict (real, confidence 0.95,
    credibility high) and sends nothing to the model, whatever the text and
    whatever the model would answer.  And every result it returns, for any
    text and source, has credibility high or medium, never low. *)
Theorem detectFakeNews_credibility (text : string) :
  (forall (source : string) (sent : list string),
     (exists trusted, In trusted trustedSources
                      /\ includes (toLowerCase source) trusted = true) ->
     detectFakeNews chat JSON_parse analysisPrompt text (Some source) sent =
       (Return (mkFakeNewsResult true (95 # 100)
                  "This news comes from a trusted and verified source." high),
        sent))
  /\ (forall (source : option string) (sent sent' : list string) (result : FakeNewsResult),
        detectFakeNews chat JSON_parse analysisPrompt text source sent = (Return result, sent') ->
        sourceCredibility result <> low
        /\ (sourceCredibility result = high \/ sourceCredibility result = medium)).
Proof.
  split.
  - intros source sent (trusted & Hin & Hinc).
    assert (Hex : existsb (fun trusted => includes (toLowerCase source) trusted)
                    trustedSources = true).
    { apply existsb_exists. now exists trusted. }
    unfold detectFakeNews, try_catch.
    rewrite (trusted_source_truthy _ Hex), Hex. reflexivity.
  - intros source sent sent' result.
    unfold detectFakeNews, try_catch, createCompletion, bind, ret, throw.
    set (credibility := match source with Some _ => _ | None => _ end).
    assert (Hcred : credibility = high \/ credibility = medium).
    { unfold credibility. destruct source as [src|]; [|now right].
      destruct (truthy src && _); [now left|now right]. }
    destruct Hcred as [-> | ->].
    + intros [= <- _]. simpl. split; [discriminate|now left].
    + destruct (chat (analysisPrompt text)) as [content|]; [|discriminate].
      destruct (JSON_parse _) as [verdict|]; [|discriminate].
      intros [= <- _]. simpl. split; [discriminate|now right].
Qed.
End DetectFakeNews.

Lemma detectFakeNews_credibility_witness :
  detectFakeNews (fun _ => Throw "model unavailable") (fun _ => Throw "not JSON")
      (fun text => text) "Rain expected" (Some "The HINDU, Chennai") []
    = (Return (mkFakeNewsResult true (95 # 100)
                 "This news comes from a trusted and verified source." high),
       []).
Proof.
  apply (proj1 (@detectFakeNews_credibility (fun _ => Throw "model unavailable")
                  (fun _ => Throw "not JSON") (fun text => text) "Rain expected")).
  exists "the hindu". split.
  - simpl. tauto.
  - reflexivity.
Defined.

(** * Further properties *)

(** ** Maps keyed by the id of their values *)

Section KeyedFacts.
Variable V : Type.
Variable id : V -> string.
Implicit Types (m : JsMap.t V) (k : string) (v : V).

Lemma keys_set_inv k v m x :
  In x (JsMap.keys (JsMap.set k v m)) -> x = k \/ In x (JsMap.keys m).
Proof.
  induction m as [|[k' v'] m IH]; simpl.
  - intros [H|[]]; auto.
  - destruct (String.eqb k' k) eqn:E; simpl.
    + apply String.eqb_eq in E. subst. intros [H|H]; auto.
    + intros [H|H]; auto. destruct (IH H); auto.
Qed.

Lemma keys_delete_incl k m x :
  In x (JsMap.keys (JsMap.delete k m)) -> In x (JsMap.keys m).
Proof.
  induction m as [|[k' v'] m IH]; simpl; auto.
  destruct (String.eqb k' k); simpl; intuition.
Qed.

Lemma keyed_by_empty : keyed_by id (@JsMap.empty V).
Proof. split; constructor. Qed.

Lemma keyed_by_set k v m :
  keyed_by id m -> k = id v -> keyed_by id (JsMap.set k v m).
Proof.
  intros [Hnd Hid] ->. split.
  - clear Hid. induction m as [|[k' v'] m IH]; simpl.
    + repeat constructor. intros [].
    + simpl in Hnd. apply NoDup_cons_iff in Hnd as [Hnotin Hnd'].
      destruct (String.eqb k' (id v)) eqn:E; simpl.
      * apply String.eqb_eq in E. rewrite <- E. now constructor.
      * constructor; [|now apply IH].
        intros Hin. apply keys_set_inv in Hin as [Heq|Hin]; [|contradiction].
        rewrite Heq, String.eqb_refl in E. discriminate.
  - clear Hnd. induction m as [|[k' v'] m IH]; simpl.
    + repeat constructor.
    + pose proof (Forall_inv Hid) as Hhead. pose proof (Forall_inv_tail Hid) as Htail.
      destruct (String.eqb k' (id v)); constructor; auto.
Qed.

Lemma keyed_by_delete k m : keyed_by id m -> keyed_by id (JsMap.delete k m).
Proof.
  intros [Hnd Hid]. split.
  - clear Hid. induction m as [|[k' v'] m IH]; simpl; [constructor|].
    simpl in Hnd. apply NoDup_cons_iff in Hnd as [Hnotin Hnd'].
    destruct (String.eqb k' k); simpl; [exact Hnd'|].
    constructor; [|now apply IH].
    intros Hin. now apply keys_delete_incl in Hin.
  - clear Hnd. induction m as [|[k' v'] m IH]; simpl; [constructor|].
    pose proof (Forall_inv Hid) as Hhead. pose proof (Forall_inv_tail Hid) as Htail.
    destruct (String.eqb k' k); [assumption|constructor; auto].
Qed.

Lemma keyed_get_id k v m : keyed_by id m -> JsMap.get k m = Some v -> id v = k.
Proof.
  intros [_ Hid]. induction m as [|[k' v'] m IH]; simpl; [discriminate|].
  pose proof (Forall_inv Hid) as Hhead. pose proof (Forall_inv_tail Hid) as Htail.
  simpl in Hhead.
  destruct (String.eqb k' k) eqn:E.
  - intros [= <-]. apply String.eqb_eq in E. congruence.
  - now apply IH.
Qed.

Lemma keyed_In_key v m : keyed_by id m -> In v (JsMap.values m) -> In (id v) (JsMap.keys m).
Proof.
  intros [_ Hid] Hin. induction m as [|[k' v'] m IH]; simpl in *; [contradiction|].
  pose proof (Forall_inv Hid) as Hhead. pose proof (Forall_inv_tail Hid) as Htail.
  simpl in Hhead.
  destruct Hin as [<-|Hin]; [now left|right; auto].
Qed.

(** A stored value is found under its id. *)
Lemma keyed_get_In v m : keyed_by id m -> In v (JsMap.values m) -> JsMap.get (id v) m = Some v.
Proof.
  intros [Hnd Hid] Hin.
  induction m as [|[k' v'] m IH]; simpl in *; [contradiction|].
  pose proof (Forall_inv Hid) as Hhead. pose proof (Forall_inv_tail Hid) as Htail.
  simpl in Hhead.
  apply NoDup_cons_iff in Hnd as [Hnotin Hnd'].
  destruct Hin as [<-|Hin].
  - now rewrite Hhead, String.eqb_refl.
  - destruct (String.eqb k' (id v)) eqn:E; [|now apply IH].
    apply String.eqb_eq in E. exfalso. apply Hnotin. rewrite E.
    apply keyed_In_key; [now split|exact Hin].
Qed.

Lemma filter_other_keys k m :
  keyed_by id m -> ~ In k (JsMap.keys m) ->
  filter (fun v => negb (String.eqb (id v) k)) (JsMap.values m) = JsMap.values m.
Proof.
  intros [_ Hid] Hnotin. induction m as [|[k' v'] m IH]; simpl in *; [reflexivity|].
  pose proof (Forall_inv Hid) as Hhead. pose proof (Forall_inv_tail Hid) as Htail.
  simpl in Hhead. rewrite <- Hhead.
  destruct (String.eqb k' k) eqn:E.
  - apply String.eqb_eq in E. exfalso. apply Hnotin. now left.
  - simpl. f_equal. apply IH; [exact Htail|]. intros Hin. apply Hnotin. now right.
Qed.

(** [delete] removes the values with the deleted id, and only those. *)
Lemma keyed_values_delete k m :
  keyed_by id m ->
  JsMap.values (JsMap.delete k m)
    = filter (fun v => negb (String.eqb (id v) k)) (JsMap.values m).
Proof.
  intros [Hnd Hid]. induction m as [|[k' v'] m IH]; simpl in *; [reflexivity|].
  pose proof (Forall_inv Hid) as Hhead. pose proof (Forall_inv_tail Hid) as Htail.
  simpl in Hhead.
  apply NoDup_cons_iff in Hnd as [Hnotin Hnd'].
  rewrite <- Hhead.
  destruct (String.eqb k' k) eqn:E; simpl.
  - apply String.eqb_eq in E. subst k'.
    symmetry. apply filter_other_keys; [now split|now rewrite <- E].
  - f_equal. apply IH; assumption.
Qed.
End KeyedFacts.

(** ** More invariants of the reachable stores *)

Lemma length_filter_set {V} (p : V -> bool) k v (m : JsMap.t V) :
  (length (filter p (JsMap.values (JsMap.set k v m)))
   <= length (filter p (JsMap.values m)) + (if p v then 1 else 0))%nat.
Proof.
  induction m as [|[k' v'] m IH]; simpl.
  - destruct (p v); simpl; lia.
  - destruct (String.eqb k' k); simpl.
    + destruct (p v), (p v'); simpl; lia.
    + destruct (p v'); simpl; lia.
Qed.

Lemma length_filter_delete {V} (p : V -> bool) k (m : JsMap.t V) :
  (length (filter p (JsMap.values (JsMap.delete k m)))
   <= length (filter p (JsMap.values m)))%nat.
Proof.
  induction m as [|[k' v'] m IH]; simpl; [lia|].
  destruct (String.eqb k' k); simpl; destruct (p v'); simpl; lia.
Qed.

Lemma toggleLike_cases id userId e s :
  (JsMap.get id (articles s) = None /\ toggleLike id userId e s = (Return LikeNotFound, s))
  \/ (exists article,
        JsMap.get id (articles s) = Some article
        /\ find (Mem.sameLike userId id) (JsMap.values (likes s)) = None
        /\ toggleLike id userId e s =
             (Return (LikeOk true (num_or (Article.likes article) 0 + 1)),
              set_articles
                (JsMap.set id (withLikes article (num_or (Article.likes article) 0 + 1)))
                (set_likes
                   (JsMap.set (randomUUID e) (Like.mk (randomUUID e) userId id (dateNow e)))
                   s)))
  \/ (exists article like,
        JsMap.get id (articles s) = Some article
        /\ find (Mem.sameLike userId id) (JsMap.values (likes s)) = Some like
        /\ toggleLike id userId e s =
             (Return (LikeOk false (Z.max 0 (num_or (Article.likes article) 0 - 1))),
              set_articles
                (JsMap.set id
                   (withLikes article (Z.max 0 (num_or (Article.likes article) 0 - 1))))
                (set_likes (JsMap.delete (Like.id like)) s))).
Proof.
  destruct (JsMap.get id (articles s)) as [a|] eqn:Ha.
  - destruct (find (Mem.sameLike userId id) (JsMap.values (likes s))) as [l|] eqn:Hl.
    + right. right. exists a, l. repeat split. now apply toggleLike_unlike.
    + right. left. exists a. repeat split. now apply toggleLike_like.
  - left. split; [reflexivity|]. now apply toggleLike_missing.
Qed.

Lemma init_well_keyed e1 e2 e3 : well_keyed (Mem.init e1 e2 e3).
Proof.
  unfold well_keyed, Mem.init. cbn [users articles likes bookmarks tnpscResources].
  repeat (split; [apply keyed_by_empty|]).
  unfold Mem.tnpscData. cbn [fold_left].
  repeat (apply keyed_by_set; [|reflexivity]). apply keyed_by_empty.
Qed.

Ltac keyed_fields :=
  unfold well_keyed;
  cbn [users articles likes bookmarks tnpscResources
       set_users set_articles set_likes set_bookmarks set_tnpscResources snd];
  split; [|split; [|split; [|split]]];
  first [ assumption
        | apply keyed_by_set; [assumption|reflexivity]
        | apply keyed_by_delete; assumption ].

Lemma step_well_keyed s s' : well_keyed s -> step s s' -> well_keyed s'.
Proof.
  intros (Hu & Ha & Hl & Hb & Hr) Hstep. destruct Hstep.
  - unfold Mem.createUser, bind, modify, ret. keyed_fields.
  - unfold Mem.createArticle, bind, modify, ret. keyed_fields.
  - destruct (toggleLike_cases id userId e s)
      as [[_ E]|[(a & Hget & _ & E)|(a & l & Hget & _ & E)]]; rewrite E.
    + keyed_fields.
    + assert (keyed_by Article.id
                (JsMap.set id (withLikes a (num_or (Article.likes a) 0 + 1)) (articles s))).
      { apply keyed_by_set; [exact Ha|]. simpl. symmetry.
        eapply keyed_get_id; eassumption. }
      keyed_fields.
    + assert (keyed_by Article.id
                (JsMap.set id (withLikes a (Z.max 0 (num_or (Article.likes a) 0 - 1)))
                   (articles s))).
      { apply keyed_by_set; [exact Ha|]. simpl. symmetry.
        eapply keyed_get_id; eassumption. }
      keyed_fields.
  - unfold Mem.createBookmark, bind, modify, ret. keyed_fields.
  - unfold Mem.deleteBookmark. rewrite bind_gets.
    destruct (find _ _) as [b|]; unfold modify, ret; keyed_fields.
  - unfold Mem.createTnpscResource, bind, modify, ret. keyed_fields.
Qed.

Lemma reachable_well_keyed s : reachable s -> well_keyed s.
Proof.
  induction 1 as [e1 e2 e3|s s' _ IH Hstep].
  - apply init_well_keyed.
  - exact (step_well_keyed IH Hstep).
Qed.

Lemma In_set_same {V} k (v : V) (m : JsMap.t V) : In (k, v) (JsMap.set k v m).
Proof.
  induction m as [|[k' v'] m IH]; simpl.
  - now left.
  - destruct (String.eqb k' k); [now left|now right].
Qed.

Lemma In_set_other {V} k k' (v v' : V) (m : JsMap.t V) :
  k' <> k -> In (k', v') m -> In (k', v') (JsMap.set k v m).
Proof.
  intros Hne. induction m as [|[k2 v2] m IH]; simpl; [tauto|].
  destruct (String.eqb k2 k) eqn:E.
  - apply String.eqb_eq in E. subst k2. intros [[= -> _]|H]; [contradiction|now right].
  - intros [H|H]; [now left|right; now apply IH].
Qed.

Section RegisterRace.
Context {crypto : Crypto}.
Variable this : AuthService.

(** [register] is its look-ups followed by the hash and the store. *)
Lemma register_phases (userData : InsertUser.t) (e : Env) (s : MemStorage) :
  register this userData e s
    = (registerLookups userData ;;; registerStore this userData e) s.
Proof.
  unfold register, registerLookups, registerStore, Mem.getUserByEmail, Mem.getUserByUsername,
    bind, gets, throw, ret.
  destruct (find _ _); [reflexivity|]. now destruct (find _ _).
Qed.

Lemma registerLookups_miss (userData : InsertUser.t) (s : MemStorage) :
  (forall u, In u (JsMap.values (users s)) ->
     User.username u <> InsertUser.username userData
     /\ User.email u <> InsertUser.email userData) ->
  registerLookups userData s = (Return tt, s).
Proof.
  intros Hfree.
  unfold registerLookups, Mem.getUserByEmail, Mem.getUserByUsername, bind, gets, throw, ret.
  replace (find (fun user => String.eqb (User.email user) (InsertUser.email userData))
             (JsMap.values (users s))) with (@None User.t).
  2:{ symmetry. apply find_none_iff. intros x Hx. now apply eqb_neq_false, Hfree. }
  replace (find (fun user => String.eqb (User.username user) (InsertUser.username userData))
             (JsMap.values (users s))) with (@None User.t).
  2:{ symmetry. apply find_none_iff. intros x Hx. now apply eqb_neq_false, Hfree. }
  reflexivity.
Qed.

(** X1.  Register checks and then acts, and waits for the hash in between.
    Take two registrations with the same username or the same email, each
    free in the store.  Served one after the other, the first succeeds and
    the second fails, the store as the first left it.  When the second
    arrives while the first waits for its hash, both succeed and the store
    then holds two users, under different ids, with that username or
    email: usernames and emails are not both unique any more. *)
Theorem register_interleaved_stores_duplicates
    (s : MemStorage) (first second : InsertUser.t) (e1 e2 : Env) :
  (forall u, In u (JsMap.values (users s)) ->
     User.username u <> InsertUser.username first
     /\ User.email u <> InsertUser.email first) ->
  (forall u, In u (JsMap.values (users s)) ->
     User.username u <> InsertUser.username second
     /\ User.email u <> InsertUser.email second) ->
  InsertUser.username first = InsertUser.username second
  \/ InsertUser.email first = InsertUser.email second ->
  randomUUID e1 <> randomUUID e2 ->
  (exists r1 s1 message,
     register this first e1 s = (Return r1, s1)
     /\ register this second e2 s1 = (Throw message, s1))
  /\ (exists r1 r2 s2 stored1 stored2,
        registerInterleaved this first second e1 e2 s = (Return (r1, r2), s2)
        /\ In stored1 (JsMap.values (users s2))
        /\ In stored2 (JsMap.values (users s2))
        /\ User.id stored1 = randomUUID e1
        /\ User.id stored2 = randomUUID e2
        /\ (User.username stored1 = User.username stored2
            \/ User.email stored1 = User.email stored2)
        /\ ~ (usernames_unique s2 /\ emails_unique s2)).
Proof.
  intros Hfirst Hsecond Hsame Hids.
  set (stored1 := User.mk (randomUUID e1) (InsertUser.username first) (InsertUser.email first)
                    (hashPassword (InsertUser.password first) e1) (dateNow e1)).
  set (stored2 := User.mk (randomUUID e2) (InsertUser.username second)
                    (InsertUser.email second)
                    (hashPassword (InsertUser.password second) e2) (dateNow e2)).
  split.
  - rewrite (register_fresh this s first e1
               (fun u Hu => proj1 (Hfirst u Hu)) (fun u Hu => proj2 (Hfirst u Hu))).
    fold stored1. set (s1 := set_users _ s).
    assert (Hin : In stored1 (JsMap.values (users s1))) by apply values_set_In.
    eexists. exists s1.
    assert (Hfails : exists message, register this second e2 s1 = (Throw message, s1));
      [|destruct Hfails as [message Hfails]; exists message; now split].
    unfold register, Mem.getUserByEmail, Mem.getUserByUsername, bind, gets, throw.
    destruct (find (fun user => String.eqb (User.email user) (InsertUser.email second))
                (JsMap.values (users s1))) as [v|] eqn:Email;
      [eexists; reflexivity|].
    destruct (find (fun user => String.eqb (User.username user) (InsertUser.username second))
                (JsMap.values (users s1))) as [v|] eqn:Ename;
      [eexists; reflexivity|].
    exfalso. destruct Hsame as [H|H].
    + apply (find_none _ _ Ename) in Hin. cbn [User.username stored1] in Hin.
      rewrite H, String.eqb_refl in Hin. discriminate.
    + apply (find_none _ _ Email) in Hin. cbn [User.email stored1] in Hin.
      rewrite H, String.eqb_refl in Hin. discriminate.
  - unfold registerInterleaved. unfold bind at 1. rewrite (@registerLookups_miss first s Hfirst).
    unfold bind at 1. rewrite (@registerLookups_miss second s Hsecond).
    unfold registerStore, Mem.createUser, bind, modify, ret. fold stored1 stored2.
    do 3 eexists. exists stored1, stored2. split; [reflexivity|].
    assert (H1 : In stored1
              (JsMap.values
                 (users (set_users (JsMap.set (randomUUID e2) stored2)
                           (set_users (JsMap.set (randomUUID e1) stored1) s))))).
    { cbn [users set_users].
      apply (in_map snd _ (randomUUID e1, stored1)).
      apply In_set_other; [exact Hids|apply In_set_same]. }
    assert (H2 : In stored2
              (JsMap.values
                 (users (set_users (JsMap.set (randomUUID e2) stored2)
                           (set_users (JsMap.set (randomUUID e1) stored1) s)))))
      by apply values_set_In.
    split; [exact H1|]. split; [exact H2|]. split; [reflexivity|]. split; [reflexivity|].
    split; [exact Hsame|].
    intros [Hnames Hmails].
    assert (stored1 = stored2) as Heq.
    { destruct Hsame as [H|H]; [now apply Hnames|now apply Hmails]. }
    apply Hids. now injection Heq.
Qed.
End RegisterRace.

Lemma register_interleaved_stores_duplicates_witness :
  (exists r1 s1 message,
     register Sample.auth Sample.alice Sample.env1 Sample.store0 = (Return r1, s1)
     /\ register Sample.auth Sample2.alias Sample.env2 s1 = (Throw message, s1))
  /\ (exists r1 r2 s2 stored1 stored2,
        registerInterleaved Sample.auth Sample.alice Sample2.alias Sample.env1 Sample.env2
          Sample.store0 = (Return (r1, r2), s2)
        /\ In stored1 (JsMap.values (users s2))
        /\ In stored2 (JsMap.values (users s2))
        /\ User.id stored1 = "uuid-1"
        /\ User.id stored2 = "uuid-2"
        /\ (User.username stored1 = User.username stored2
            \/ User.email stored1 = User.email stored2)
        /\ ~ (usernames_unique s2 /\ emails_unique s2)).
Proof.
  apply (@register_interleaved_stores_duplicates Toy.crypto Sample.auth Sample.store0
           Sample.alice Sample2.alias Sample.env1 Sample.env2).
  - intros u [].
  - intros u [].
  - left. reflexivity.
  - discriminate.
Defined.

(** X2.  In every reachable store the look-ups by id answer the entity
    stored with that id and no other: [getUser] and [getArticleById] return
    a value whose id is the requested one, and every stored user or article
    is returned for its own id. *)
Theorem reachable_lookup_by_id (s : MemStorage) :
  reachable s ->
  (forall id u, fst (Mem.getUser id s) = Return (Some u) -> User.id u = id)
  /\ (forall u, In u (JsMap.values (users s)) ->
        fst (Mem.getUser (User.id u) s) = Return (Some u))
  /\ (forall id a, fst (Mem.getArticleById id s) = Return (Some a) -> Article.id a = id)
  /\ (forall a, In a (JsMap.values (articles s)) ->
        fst (Mem.getArticleById (Article.id a) s) = Return (Some a)).
Proof.
  intros Hreach. destruct (reachable_well_keyed Hreach) as (Hu & Ha & _).
  unfold Mem.getUser, Mem.getArticleById, gets. simpl. repeat split.
  - intros id u [= H]. eapply keyed_get_id; eassumption.
  - intros u Hin. f_equal. now apply keyed_get_In.
  - intros id a [= H]. eapply keyed_get_id; eassumption.
  - intros a Hin. f_equal. now apply keyed_get_In.
Qed.

Lemma reachable_lookup_by_id_witness :
  (forall id u, fst (Mem.getUser id Sample.store2) = Return (Some u) -> User.id u = id)
  /\ (forall u, In u (JsMap.values (users Sample.store2)) ->
        fst (Mem.getUser (User.id u) Sample.store2) = Return (Some u))
  /\ (forall id a, fst (Mem.getArticleById id Sample.store2) = Return (Some a) ->
        Article.id a = id)
  /\ (forall a, In a (JsMap.values (articles Sample.store2)) ->
        fst (Mem.getArticleById (Article.id a) Sample.store2) = Return (Some a)).
Proof.
  apply (@reachable_lookup_by_id Sample.store2). exact sample_store2_reachable.
Defined.

Lemma sameLike_true userId articleId like :
  Mem.sameLike userId articleId like = true ->
  Like.userId like = userId /\ Like.articleId like = articleId.
Proof.
  unfold Mem.sameLike. intros H. apply andb_true_iff in H as [H1 H2].
  split; now apply String.eqb_eq.
Qed.

Lemma step_one_like s s' :
  (forall u a, (length (likesOf u a s) <= 1)%nat) ->
  step s s' ->
  forall u a, (length (likesOf u a s') <= 1)%nat.
Proof.
  intros Hinv Hstep u a. destruct Hstep; try apply Hinv.
  - destruct (toggleLike_cases id userId e s)
      as [[_ E]|[(art & _ & Hnone & E)|(art & l & _ & _ & E)]];
      rewrite E; unfold likesOf; simpl.
    + apply Hinv.
    + pose proof (length_filter_set (Mem.sameLike u a) (randomUUID e)
                    (Like.mk (randomUUID e) userId id (dateNow e)) (likes s)) as Hlen.
      destruct (Mem.sameLike u a (Like.mk (randomUUID e) userId id (dateNow e))) eqn:Esame.
      * apply sameLike_true in Esame as [Hu Ha]. simpl in Hu, Ha. subst u a.
        replace (filter (Mem.sameLike userId id) (JsMap.values (likes s)))
          with (@nil Like.t) in Hlen; [exact Hlen|].
        symmetry. apply filter_nil_iff. now apply find_none_iff.
      * specialize (Hinv u a). unfold likesOf in Hinv. lia.
    + pose proof (length_filter_delete (Mem.sameLike u a) (Like.id l) (likes s)) as Hlen.
      specialize (Hinv u a). unfold likesOf in Hinv. lia.
  - unfold Mem.deleteBookmark. rewrite bind_gets. destruct (find _ _); apply Hinv.
Qed.

Lemma reachable_one_like s :
  reachable s -> forall u a, (length (likesOf u a s) <= 1)%nat.
Proof.
  induction 1 as [e1 e2 e3|s s' _ IH Hstep].
  - intros u a. simpl. lia.
  - now apply (step_one_like IH).
Qed.

Lemma sample_liked_reachable : reachable Sample2.storeLiked.
Proof.
  eapply reachable_step; [exact sample_store2_reachable|apply step_toggleLike].
Qed.

(** X3.  One run of the like-toggle, its storage calls not mixed with those
    of another request, keeps the likes consistent: when before it every
    user holds at most one like on every article and no like counter is
    negative, the same is true after it, whatever the article id, the user
    and the id drawn for a new like. *)
Theorem toggleLike_keeps_likes_consistent
    (s : MemStorage) (id userId : string) (e : Env) :
  (forall user article, (length (likesOf user article s) <= 1)%nat) ->
  likes_nonneg s ->
  (forall user article,
     (length (likesOf user article (snd (toggleLike id userId e s))) <= 1)%nat)
  /\ likes_nonneg (snd (toggleLike id userId e s)).
Proof.
  intros Hone Hnonneg. split.
  - apply (step_one_like Hone). apply step_toggleLike.
  - now apply toggleLike_likes_nonneg.
Qed.

Lemma toggleLike_keeps_likes_consistent_witness :
  map Like.userId
    (JsMap.values (likes (snd (toggleLike "uuid-2" "uuid-9" Sample.env3 Sample2.storeLiked))))
    = ["uuid-1"; "uuid-9"]
  /\ (forall user article,
        (length (likesOf user article
                   (snd (toggleLike "uuid-2" "uuid-9" Sample.env3 Sample2.storeLiked)))
         <= 1)%nat)
  /\ likes_nonneg (snd (toggleLike "uuid-2" "uuid-9" Sample.env3 Sample2.storeLiked)).
Proof.
  split; [reflexivity|].
  apply (@toggleLike_keeps_likes_consistent Sample2.storeLiked "uuid-2" "uuid-9" Sample.env3).
  - apply reachable_one_like. exact sample_liked_reachable.
  - apply reachable_likes_nonneg. exact sample_liked_reachable.
Defined.

Lemma short_list_eq {A} (l : list A) x y :
  (length l <= 1)%nat -> In x l -> In y l -> x = y.
Proof.
  intros Hlen Hx Hy. destruct l as [|a [|b l]]; simpl in *; [contradiction| |lia].
  destruct Hx as [<-|[]], Hy as [<-|[]]. reflexivity.
Qed.

(** X4.  In a reachable store the answer of the like-toggle tells what the
    store holds afterwards: the user holds one like on the article when the
    answer is [liked: true] and none when it is [liked: false], and the
    article is stored with the like count of the answer. *)
Theorem toggleLike_answer_matches_store
    (s s' : MemStorage) (id userId : string) (e : Env) (liked : bool) (count : Z) :
  reachable s ->
  toggleLike id userId e s = (Return (LikeOk liked count), s') ->
  length (likesOf userId id s') = (if liked then 1 else 0)%nat
  /\ exists article,
       fst (Mem.getArticleById id s') = Return (Some article)
       /\ Article.likes article = count.
Proof.
  intros Hreach Htoggle.
  assert (Hreach' : reachable s').
  { apply reachable_step with (s := s); [exact Hreach|].
    replace s' with (snd (toggleLike id userId e s)) by now rewrite Htoggle.
    constructor. }
  pose proof (reachable_one_like Hreach) as Hone.
  pose proof (reachable_one_like Hreach') as Hone'.
  destruct (reachable_well_keyed Hreach) as (_ & _ & Hkeyed & _).
  destruct (toggleLike_cases id userId e s)
    as [[_ E]|[(a & _ & Hnone & E)|(a & l & _ & Hsome & E)]];
    rewrite E in Htoggle; [discriminate| |].
  - injection Htoggle as <- <- <-. split.
    + specialize (Hone' userId id).
      assert (In (Like.mk (randomUUID e) userId id (dateNow e)) (likesOf userId id
                (set_articles
                   (JsMap.set id (withLikes a (num_or (Article.likes a) 0 + 1)))
                   (set_likes
                      (JsMap.set (randomUUID e) (Like.mk (randomUUID e) userId id (dateNow e)))
                      s)))) as Hin.
      { unfold likesOf. simpl. apply filter_In. split; [apply values_set_In|].
        unfold Mem.sameLike. simpl. now rewrite !String.eqb_refl. }
      destruct (likesOf _ _ _) as [|x [|y rest]]; simpl in *; [contradiction|reflexivity|lia].
    + eexists. unfold Mem.getArticleById, gets. simpl.
      rewrite get_set_same. split; reflexivity.
  - injection Htoggle as <- <- <-. split.
    + unfold likesOf. simpl. rewrite (keyed_values_delete _ Hkeyed).
      apply length_zero_iff_nil, filter_nil_iff. intros x Hx.
      apply filter_In in Hx as [Hx Hid].
      destruct (Mem.sameLike userId id x) eqn:Esame; [|reflexivity].
      apply find_some in Hsome as [Hl Hsame].
      assert (x = l).
      { apply (@short_list_eq _ (likesOf userId id s)); [apply Hone| |];
          unfold likesOf; apply filter_In; auto. }
      subst x. now rewrite String.eqb_refl in Hid.
    + eexists. unfold Mem.getArticleById, gets. simpl.
      rewrite get_set_same. split; reflexivity.
Qed.

Lemma toggleLike_answer_matches_store_witness :
  length (likesOf "uuid-1" "uuid-2"
            (snd (toggleLike "uuid-2" "uuid-1" (mkEnv "like-1" 11000 "-") Sample.store2)))
    = 1%nat
  /\ exists article,
       fst (Mem.getArticleById "uuid-2"
              (snd (toggleLike "uuid-2" "uuid-1" (mkEnv "like-1" 11000 "-") Sample.store2)))
         = Return (Some article)
       /\ Article.likes article = 1.
Proof.
  apply (@toggleLike_answer_matches_store Sample.store2
           (snd (toggleLike "uuid-2" "uuid-1" (mkEnv "like-1" 11000 "-") Sample.store2))
           "uuid-2" "uuid-1" (mkEnv "like-1" 11000 "-") true 1).
  - exact sample_store2_reachable.
  - reflexivity.
Defined.

(** ** Bookmarks, once more *)

Lemma keys_get_None {V} k (m : JsMap.t V) : JsMap.get k m = None -> ~ In k (JsMap.keys m).
Proof.
  induction m as [|[k' v'] m IH]; simpl; [auto|].
  destruct (String.eqb k' k) eqn:E; [discriminate|].
  intros H [Heq|Hin]; [subst; now rewrite String.eqb_refl in E|now apply IH].
Qed.

Lemma values_set_fresh {V} k (v : V) (m : JsMap.t V) :
  JsMap.get k m = None -> JsMap.values (JsMap.set k v m) = (JsMap.values m ++ [v])%list.
Proof.
  induction m as [|[k' v'] m IH]; simpl; [reflexivity|].
  destruct (String.eqb k' k); [discriminate|]. intros H. simpl. now rewrite IH.
Qed.

(** X5.  [createBookmark] under an id not in use appends the bookmark: it
    then is in its owner's list, together with what the list held before,
    and the list of every other user is as it was.  No check is made for a
    bookmark of the same resource. *)
Theorem createBookmark_adds_to_own_list
    (s : MemStorage) (insertBookmark : InsertBookmark.t) (e : Env) :
  JsMap.get (randomUUID e) (bookmarks s) = None ->
  let owner := InsertBookmark.userId insertBookmark in
  exists bookmark s',
    Mem.createBookmark insertBookmark e s = (Return bookmark, s')
    /\ Bookmark.id bookmark = randomUUID e
    /\ (forall b,
          In b (answered (Mem.getBookmarksByUserId owner s'))
          <-> b = bookmark \/ In b (answered (Mem.getBookmarksByUserId owner s)))
    /\ (forall other, other <> owner ->
          fst (Mem.getBookmarksByUserId other s') = fst (Mem.getBookmarksByUserId other s)).
Proof.
  intros Hfresh owner.
  do 2 eexists. split; [reflexivity|]. split; [reflexivity|].
  unfold answered, Mem.getBookmarksByUserId, gets. simpl.
  rewrite values_set_fresh by exact Hfresh. split.
  - intros b. rewrite !js_sort_In, !filter_In, in_app_iff. simpl. split.
    + intros [[Hin|[<-|[]]] Hu]; auto.
    + intros [->|[Hin Hu]]; [|auto]. split; [auto|]. simpl. apply String.eqb_refl.
  - intros other Hother. do 2 f_equal.
    rewrite filter_app. simpl.
    rewrite (eqb_neq_false (a := InsertBookmark.userId insertBookmark) (b := other))
      by (unfold owner in Hother; congruence).
    now rewrite app_nil_r.
Qed.

Lemma createBookmark_adds_to_own_list_witness :
  exists bookmark s',
    Mem.createBookmark Sample.bookmarkRequest (mkEnv "bm-2" 11000 "-") Sample.storeBookmarked
      = (Return bookmark, s')
    /\ length (answered (Mem.getBookmarksByUserId "uuid-1" s')) = 2%nat.
Proof.
  destruct (@createBookmark_adds_to_own_list Sample.storeBookmarked Sample.bookmarkRequest
              (mkEnv "bm-2" 11000 "-") eq_refl) as (b & s' & H & _).
  exists b, s'. split; [exact H|].
  injection H as <- <-. reflexivity.
Defined.

Lemma sameBookmark_user userId resourceType resourceId b :
  Mem.sameBookmark userId resourceType resourceId b = true -> Bookmark.userId b = userId.
Proof.
  unfold Mem.sameBookmark. intros H.
  apply andb_true_iff in H as [H _]. apply andb_true_iff in H as [H _].
  now apply String.eqb_eq.
Qed.

(** What [deleteBookmark] does to a map keyed by id. *)
Lemma deleteBookmark_keyed (s : MemStorage) (userId resourceType resourceId : string) :
  keyed_by Bookmark.id (bookmarks s) ->
  match find (Mem.sameBookmark userId resourceType resourceId) (JsMap.values (bookmarks s)) with
  | None => Mem.deleteBookmark userId resourceType resourceId s = (Return tt, s)
  | Some b =>
      Bookmark.userId b = userId
      /\ In b (JsMap.values (bookmarks s))
      /\ (forall x,
            In x (JsMap.values
                    (bookmarks (snd (Mem.deleteBookmark userId resourceType resourceId s))))
            <-> In x (JsMap.values (bookmarks s)) /\ x <> b)
      /\ (forall other, other <> userId ->
            fst (Mem.getBookmarksByUserId other
                   (snd (Mem.deleteBookmark userId resourceType resourceId s)))
            = fst (Mem.getBookmarksByUserId other s))
  end.
Proof.
  intros Hkeyed. unfold Mem.deleteBookmark. rewrite bind_gets.
  destruct (find _ _) as [b|] eqn:Hfind; [|reflexivity].
  apply find_some in Hfind as [Hb Hsame]. apply sameBookmark_user in Hsame.
  assert (Hsameid : forall x, In x (JsMap.values (bookmarks s)) ->
            String.eqb (Bookmark.id x) (Bookmark.id b) = true -> x = b).
  { intros x Hx Heq. apply String.eqb_eq in Heq.
    pose proof (keyed_get_In _ Hkeyed Hx) as H1. pose proof (keyed_get_In _ Hkeyed Hb) as H2.
    rewrite Heq in H1. congruence. }
  split; [exact Hsame|]. split; [exact Hb|]. simpl. split.
  - intros x. rewrite (keyed_values_delete _ Hkeyed), filter_In. split.
    + intros [Hx Hid]. split; [exact Hx|]. intros ->.
      now rewrite String.eqb_refl in Hid.
    + intros [Hx Hneq]. split; [exact Hx|].
      destruct (String.eqb (Bookmark.id x) (Bookmark.id b)) eqn:E; [|reflexivity].
      exfalso. apply Hneq. now apply Hsameid.
  - intros other Hother. unfold Mem.getBookmarksByUserId, gets. simpl. do 2 f_equal.
    rewrite (keyed_values_delete _ Hkeyed), filter_filter.
    apply filter_ext_in. intros x Hx.
    destruct (String.eqb (Bookmark.id x) (Bookmark.id b)) eqn:E; [|reflexivity].
    apply Hsameid in E; [|exact Hx]. subst x. simpl.
    symmetry. apply eqb_neq_false. congruence.
Qed.

(** X6.  In a reachable store [deleteBookmark] removes the first bookmark
    with the composite key and nothing else; it belongs to the given user,
    so the list of every other user is as it was.  When no bookmark has the
    key, the store is unchanged. *)
Theorem deleteBookmark_removes_one_of_own
    (s : MemStorage) (userId resourceType resourceId : string) :
  reachable s ->
  match find (Mem.sameBookmark userId resourceType resourceId) (JsMap.values (bookmarks s)) with
  | None => Mem.deleteBookmark userId resourceType resourceId s = (Return tt, s)
  | Some b =>
      Bookmark.userId b = userId
      /\ In b (JsMap.values (bookmarks s))
      /\ (forall x,
            In x (JsMap.values
                    (bookmarks (snd (Mem.deleteBookmark userId resourceType resourceId s))))
            <-> In x (JsMap.values (bookmarks s)) /\ x <> b)
      /\ (forall other, other <> userId ->
            fst (Mem.getBookmarksByUserId other
                   (snd (Mem.deleteBookmark userId resourceType resourceId s)))
            = fst (Mem.getBookmarksByUserId other s))
  end.
Proof.
  intros Hreach. apply deleteBookmark_keyed.
  now destruct (reachable_well_keyed Hreach) as (_ & _ & _ & H & _).
Qed.

Lemma sample_threeBookmarks_reachable : reachable Sample2.storeThreeBookmarks.
Proof.
  unfold Sample2.storeThreeBookmarks, Sample.storeBookmarked.
  repeat (eapply reachable_step; [|apply step_createBookmark]).
  exact sample_store1_reachable.
Qed.

Lemma deleteBookmark_removes_one_of_own_witness :
  map Bookmark.id
    (JsMap.values (bookmarks (snd (Mem.deleteBookmark "uuid-1" "article" "art-1"
                                     Sample2.storeThreeBookmarks))))
    = ["bm-2"; "bm-3"]
  /\ fst (Mem.getBookmarksByUserId "uuid-7"
            (snd (Mem.deleteBookmark "uuid-1" "article" "art-1" Sample2.storeThreeBookmarks)))
     = fst (Mem.getBookmarksByUserId "uuid-7" Sample2.storeThreeBookmarks).
Proof.
  pose proof (@deleteBookmark_removes_one_of_own Sample2.storeThreeBookmarks
                "uuid-1" "article" "art-1" sample_threeBookmarks_reachable) as H.
  split; [reflexivity|].
  assert (Hfind : find (Mem.sameBookmark "uuid-1" "article" "art-1")
            (JsMap.values (bookmarks Sample2.storeThreeBookmarks))
          = Some (Bookmark.mk "bm-1" "uuid-1" "article" "art-1" "Cup final" 10000))
    by reflexivity.
  rewrite Hfind in H. destruct H as (_ & _ & _ & H). apply H. discriminate.
Defined.

(** X7.  In the database [deleteBookmark] removes every bookmark with the
    composite key and no other row, leaves the other tables alone, and
    deleting a second time changes nothing. *)
Theorem Db_deleteBookmark_removes_all_matches
    (d : Database) (userId resourceType resourceId : string) :
  let d' := snd (Db.deleteBookmark userId resourceType resourceId d) in
  (forall b,
     In b (db_bookmarks d')
     <-> In b (db_bookmarks d)
         /\ ~ (Bookmark.userId b = userId
               /\ Bookmark.resourceType b = resourceType
               /\ Bookmark.resourceId b = resourceId))
  /\ db_articles d' = db_articles d
  /\ db_tnpscResources d' = db_tnpscResources d
  /\ snd (Db.deleteBookmark userId resourceType resourceId d') = d'.
Proof.
  simpl. unfold Drizzle.delete_where, Drizzle.and_. simpl. split; [|split; [|split]];
    try reflexivity.
  - intros b. rewrite filter_In, andb_true_r, negb_true_iff. split.
    + intros [Hin Hne]. split; [exact Hin|]. intros (H1 & H2 & H3).
      rewrite H1, H2, H3, !String.eqb_refl in Hne. discriminate.
    + intros [Hin Hne]. split; [exact Hin|].
      destruct (String.eqb (Bookmark.userId b) userId) eqn:E1; [|reflexivity].
      destruct (String.eqb (Bookmark.resourceType b) resourceType) eqn:E2; [|reflexivity].
      destruct (String.eqb (Bookmark.resourceId b) resourceId) eqn:E3; [|reflexivity].
      exfalso. apply Hne. repeat split; now apply String.eqb_eq.
  - f_equal. rewrite filter_filter. apply filter_ext. intros b. apply andb_diag.
Qed.

(** ** Pagination *)

Lemma firstn_then_more {A} (n m : nat) (l : list A) :
  (firstn n l ++ firstn m (skipn n l))%list = firstn (n + m) l.
Proof.
  revert l. induction n as [|n IH]; intros l; [reflexivity|].
  destruct l as [|x l]; simpl; [now rewrite firstn_nil|]. now rewrite IH.
Qed.

(** X8.  For a non-negative offset and non-negative limits the pages of
    [getArticles] tile the listing: a page of [n] articles followed by the
    page of [m] articles that starts where it ends is the page of [n + m]
    articles; and a page never holds more articles than its limit. *)
Theorem getArticles_pages_tile
    (s : MemStorage) (category : option string) (offset n m : Z) :
  0 <= offset -> 0 <= n -> 0 <= m ->
  (answered (Mem.getArticles category (Some n) (Some offset) s)
   ++ answered (Mem.getArticles category (Some m) (Some (offset + n)) s))%list
    = answered (Mem.getArticles category (Some (n + m)) (Some offset) s)
  /\ Z.of_nat (length (answered (Mem.getArticles category (Some n) (Some offset) s))) <= n.
Proof.
  intros Ho Hn Hm. unfold answered, Mem.getArticles, gets. simpl.
  set (sorted := js_sort _ _).
  rewrite !js_slice_window by lia. split.
  - rewrite (Z2Nat.inj_add offset n), (Z2Nat.inj_add n m) by lia.
    rewrite (Nat.add_comm (Z.to_nat offset)), <- skipn_skipn.
    apply firstn_then_more.
  - pose proof (firstn_le_length (Z.to_nat n) (skipn (Z.to_nat offset) sorted)). lia.
Qed.

Lemma getArticles_pages_tile_witness :
  (answered (Mem.getArticles None (Some 1) (Some 1) Sample.store2)
   ++ answered (Mem.getArticles None (Some 5) (Some (1 + 1)) Sample.store2))%list
    = answered (Mem.getArticles None (Some (1 + 5)) (Some 1) Sample.store2)
  /\ Z.of_nat (length (answered (Mem.getArticles None (Some 1) (Some 1) Sample.store2))) <= 1.
Proof.
  apply (@getArticles_pages_tile Sample.store2 None 1 1 5); lia.
Defined.

(** ** Register and Login, once more *)

Section AuthMore.
Context {crypto : Crypto}.
Variable this : AuthService.

Hypothesis bcrypt_compare_hash :
  forall password rounds salt,
    bcrypt_compare password (bcrypt_hash password rounds salt) = true.
Hypothesis jwt_verify_sign :
  forall payload secret iat ttl now,
    iat <= now < iat + ttl ->
    jwt_verify (jwt_sign payload secret iat ttl) secret now = Return payload.

(** X9.  A Register whose username and email are not taken stores a user
    that both look-ups then return, with the id drawn for it and with a
    password that is the hash, against which the plaintext verifies; and the
    token Register answers verifies, until it expires, to the id and
    username of that user. *)
Theorem register_creates_user
    (s : MemStorage) (userData : InsertUser.t) (e : Env) (now : Z) :
  (forall u, In u (JsMap.values (users s)) ->
     User.username u <> InsertUser.username userData) ->
  (forall u, In u (JsMap.values (users s)) ->
     User.email u <> InsertUser.email userData) ->
  exists user token s1 stored,
    register this userData e s = (Return (user, token), s1)
    /\ user = withoutPassword stored
    /\ User.id stored = randomUUID e
    /\ fst (Mem.getUserByUsername (InsertUser.username userData) s1) = Return (Some stored)
    /\ fst (Mem.getUserByEmail (InsertUser.email userData) s1) = Return (Some stored)
    /\ User.password stored = hashPassword (InsertUser.password userData) e
    /\ verifyPassword (InsertUser.password userData) (User.password stored) = true
    /\ (clockTimestamp (dateNow e) <= clockTimestamp now
          < clockTimestamp (dateNow e) + expiresIn ->
        verifyToken this token now =
          Return (Some (JWTPayload.mk (User.id stored) (User.username stored)))).
Proof.
  intros Hname Hmail.
  rewrite (register_fresh this s userData e Hname Hmail).
  set (stored := User.mk _ _ _ _ _).
  exists (withoutPassword stored). eexists. eexists. exists stored.
  split; [reflexivity|]. split; [reflexivity|]. split; [reflexivity|].
  unfold Mem.getUserByUsername, Mem.getUserByEmail, gets. simpl.
  split; [|split; [|split; [|split]]].
  - f_equal. apply find_values_set; [apply String.eqb_refl|].
    intros x Hx. now apply eqb_neq_false, Hname.
  - f_equal. apply find_values_set; [apply String.eqb_refl|].
    intros x Hx. now apply eqb_neq_false, Hmail.
  - reflexivity.
  - apply bcrypt_compare_hash.
  - intros Hnow. unfold verifyToken, generateToken.
    now rewrite jwt_verify_sign by exact Hnow.
Qed.

(** X10.  The two conflicts of Register have their own messages and the
    email is checked first: a stored user with the email gives 'User with
    this email already exists', whatever the username; otherwise a stored
    user with the username gives 'Username already taken'.  The store is
    unchanged in both cases. *)
Theorem register_conflict_messages (s : MemStorage) (userData : InsertUser.t) (e : Env) :
  ((exists u, In u (JsMap.values (users s)) /\ User.email u = InsertUser.email userData) ->
   register this userData e s = (Throw "User with this email already exists", s))
  /\ ((forall u, In u (JsMap.values (users s)) -> User.email u <> InsertUser.email userData) ->
      (exists u, In u (JsMap.values (users s))
                 /\ User.username u = InsertUser.username userData) ->
      register this userData e s = (Throw "Username already taken", s)).
Proof.
  unfold register, Mem.getUserByEmail, Mem.getUserByUsername, bind, gets, throw. split.
  - intros (u & Hu & Heq).
    destruct (find _ _) as [v|] eqn:E; [reflexivity|].
    apply (find_none _ _ E) in Hu. rewrite Heq, String.eqb_refl in Hu. discriminate.
  - intros Hmail (u & Hu & Heq).
    replace (find (fun user => String.eqb (User.email user) (InsertUser.email userData))
               (JsMap.values (users s))) with (@None User.t).
    2:{ symmetry. apply find_none_iff. intros x Hx. now apply eqb_neq_false, Hmail. }
    destruct (find _ _) as [v|] eqn:E; [reflexivity|].
    apply (find_none _ _ E) in Hu. rewrite Heq, String.eqb_refl in Hu. discriminate.
Qed.

(** X11.  Login never writes to the store.  When it succeeds, some stored
    user has the identifier as username or as email, the password verifies
    against that user's hash, and the answer is that user without the
    password together with a token for the user's id and username;
    otherwise the error is 'Invalid credentials'. *)
Theorem login_reads_only (s : MemStorage) (ident password : string) (e : Env) :
  (exists u,
     In u (JsMap.values (users s))
     /\ (User.username u = ident \/ User.email u = ident)
     /\ verifyPassword password (User.password u) = true
     /\ login this ident password e s =
          (Return (withoutPassword u,
                   generateToken this (JWTPayload.mk (User.id u) (User.username u))
                     (dateNow e)),
           s))
  \/ login this ident password e s = (Throw "Invalid credentials", s).
Proof.
  unfold login, Mem.getUserByUsername, Mem.getUserByEmail, gets, bind, ret, throw.
  destruct (find (fun user => String.eqb (User.username user) ident) _) as [u|] eqn:E1.
  - apply find_some in E1 as [Hin Heq]. apply String.eqb_eq in Heq.
    destruct (verifyPassword password (User.password u)) eqn:Ev; [|now right].
    left. exists u. repeat split; auto.
  - destruct (find (fun user => String.eqb (User.email user) ident) _) as [u|] eqn:E2;
      [|now right].
    apply find_some in E2 as [Hin Heq]. apply String.eqb_eq in Heq.
    destruct (verifyPassword password (User.password u)) eqn:Ev; [|now right].
    left. exists u. repeat split; auto.
Qed.

(** The token of a successful Login is the one generated for the answered
    user. *)
Lemma login_token (s s' : MemStorage) (ident password : string) (e : Env)
    (user : UserWithoutPassword.t) (token : string) :
  login this ident password e s = (Return (user, token), s') ->
  token = generateToken this
            (JWTPayload.mk (UserWithoutPassword.id user) (UserWithoutPassword.username user))
            (dateNow e).
Proof.
  unfold login, Mem.getUserByUsername, Mem.getUserByEmail, gets, bind, ret, throw.
  destruct (find (fun user => String.eqb (User.username user) ident) _) as [u|];
    [|destruct (find (fun user => String.eqb (User.email user) ident) _) as [u|]];
    simpl; try discriminate;
    destruct (verifyPassword password (User.password u)); try discriminate;
    now intros [= <- <- _].
Qed.

End AuthMore.

Lemma register_creates_user_witness :
  exists user token s1 stored,
    register Sample.auth Sample.alice Sample.env1 Sample.store0 = (Return (user, token), s1)
    /\ fst (Mem.getUserByEmail "a@x.com" s1) = Return (Some stored)
    /\ verifyToken Sample.auth token 5999
       = Return (Some (JWTPayload.mk (User.id stored) (User.username stored))).
Proof.
  destruct (@register_creates_user Toy.crypto Sample.auth toy_compare_hash toy_verify_sign
              Sample.store0 Sample.alice Sample.env1 5999)
    as (user & token & s1 & stored & H1 & _ & _ & _ & H2 & _ & _ & H3).
  - intros u [].
  - intros u [].
  - exists user, token, s1, stored. split; [exact H1|]. split; [exact H2|].
    apply H3. vm_compute. split; [discriminate|reflexivity].
Defined.

Lemma register_conflict_messages_witness :
  register Sample.auth (InsertUser.mk "a" "a@x.com" "again") Sample.env2 Sample.store1
    = (Throw "User with this email already exists", Sample.store1)
  /\ register Sample.auth (InsertUser.mk "a" "new@x.com" "again") Sample.env2 Sample.store1
     = (Throw "Username already taken", Sample.store1).
Proof.
  split.
  - apply (proj1 (@register_conflict_messages Toy.crypto Sample.auth Sample.store1
                    (InsertUser.mk "a" "a@x.com" "again") Sample.env2)).
    exists Sample.aliceStored. split; [now left|reflexivity].
  - apply (proj2 (@register_conflict_messages Toy.crypto Sample.auth Sample.store1
                    (InsertUser.mk "a" "new@x.com" "again") Sample.env2)).
    + intros u [<-|[]]. discriminate.
    + exists Sample.aliceStored. split; [now left|reflexivity].
Defined.

(** ** The authentication middleware and the protected routes *)

Lemma split_spaces_word (w : string) : has_space w = false -> split_spaces w = [w].
Proof.
  induction w as [|c w IH]; simpl; [reflexivity|].
  destruct (Ascii.eqb c " "); [discriminate|]. simpl. intros H. now rewrite IH.
Qed.

Lemma split_spaces_first (w rest : string) :
  has_space w = false ->
  split_spaces (w ++ String " " rest) = w :: split_spaces rest.
Proof.
  induction w as [|c w IH]; simpl; [reflexivity|].
  destruct (Ascii.eqb c " "); [discriminate|]. simpl. intros H. now rewrite IH.
Qed.

Lemma truthy_append_space (w rest : string) : truthy (w ++ String " " rest) = true.
Proof. now destruct w. Qed.

Lemma bearerToken_two_words scheme token :
  has_space scheme = false -> has_space token = false ->
  bearerToken (Some (scheme ++ String " " token))
    = if truthy token then Some token else None.
Proof.
  intros Hs Ht. unfold bearerToken.
  rewrite truthy_append_space.
  rewrite split_spaces_first by exact Hs. rewrite split_spaces_word by exact Ht.
  reflexivity.
Qed.

(** X12.  The middleware takes as token the text between the first and the
    second space of the Authorization header, whatever stands before the
    first space; a header without a space, or with nothing between its first
    two spaces, carries no token. *)
Theorem bearerToken_second_word :
  (forall scheme token,
     has_space scheme = false -> has_space token = false ->
     bearerToken (Some (scheme ++ String " " token))
       = if truthy token then Some token else None)
  /\ (forall scheme token rest,
        has_space scheme = false -> has_space token = false ->
        bearerToken (Some (scheme ++ String " " (token ++ String " " rest)))
          = if truthy token then Some token else None)
  /\ (forall header, has_space header = false -> bearerToken (Some header) = None)
  /\ bearerToken None = None.
Proof.
  repeat split.
  - apply bearerToken_two_words.
  - intros scheme token rest Hs Ht. unfold bearerToken.
    rewrite truthy_append_space.
    rewrite split_spaces_first by exact Hs. rewrite split_spaces_first by exact Ht.
    reflexivity.
  - intros header Hh. unfold bearerToken. rewrite split_spaces_word by exact Hh.
    now destruct (truthy header).
Qed.

Lemma bearerToken_second_word_witness :
  bearerToken (Some ("Bearer" ++ String " " "abc.def")) = Some "abc.def"
  /\ bearerToken (Some ("Basic" ++ String " " "abc.def")) = Some "abc.def".
Proof.
  split.
  - apply (proj1 bearerToken_second_word "Bearer" "abc.def"); reflexivity.
  - apply (proj1 bearerToken_second_word "Basic" "abc.def"); reflexivity.
Defined.

Section RouteFacts.
Context {crypto : Crypto}.
Variable this : AuthService.

Hypothesis jwt_verify_sign :
  forall payload secret iat ttl now,
    iat <= now < iat + ttl ->
    jwt_verify (jwt_sign payload secret iat ttl) secret now = Return payload.

Lemma authenticateToken_cases (authHeader : option string) (now : Z) :
  (bearerToken authHeader = None
   /\ authenticateToken this authHeader now = Respond 401 "Access token required")
  \/ (exists token message,
        bearerToken authHeader = Some token
        /\ jwt_verify token (jwtSecret this) (clockTimestamp now) = Throw message
        /\ authenticateToken this authHeader now = Respond 403 "Invalid or expired token")
  \/ (exists token payload,
        bearerToken authHeader = Some token
        /\ jwt_verify token (jwtSecret this) (clockTimestamp now) = Return payload
        /\ authenticateToken this authHeader now = Next (Some payload)).
Proof.
  unfold authenticateToken, verifyToken.
  destruct (bearerToken authHeader) as [token|]; [|now left].
  right. destruct (jwt_verify token _ _) as [payload|message] eqn:E.
  - right. now exists token, payload.
  - left. now exists token, message.
Qed.

(** X13.  On the like route, the bookmark listing and the bookmark deletion
    alike, a request whose Authorization header carries no token is
    answered 401 'Access token required', and a request whose token
    [jwt.verify] rejects is answered 403 'Invalid or expired token'; in both
    cases the handler does not run and the store is unchanged. *)
Theorem protected_routes_deny
    (s : MemStorage) (authHeader : option string) (now : Z)
    (id : string) (e : Env) (resourceType resourceId : option string) :
  (bearerToken authHeader = None ->
   likeRoute this authHeader now id e s
     = (Return (Denied _ 401 "Access token required"), s)
   /\ getBookmarksRoute this authHeader now s
      = (Return (Denied _ 401 "Access token required"), s)
   /\ deleteBookmarkRoute this authHeader now resourceType resourceId s
      = (Return (Denied _ 401 "Access token required"), s))
  /\ (forall token message,
        bearerToken authHeader = Some token ->
        jwt_verify token (jwtSecret this) (clockTimestamp now) = Throw message ->
        likeRoute this authHeader now id e s
          = (Return (Denied _ 403 "Invalid or expired token"), s)
        /\ getBookmarksRoute this authHeader now s
           = (Return (Denied _ 403 "Invalid or expired token"), s)
        /\ deleteBookmarkRoute this authHeader now resourceType resourceId s
           = (Return (Denied _ 403 "Invalid or expired token"), s)).
Proof.
  unfold likeRoute, getBookmarksRoute, deleteBookmarkRoute, behindAuth, authenticateToken,
    verifyToken.
  split.
  - intros ->. repeat split.
  - intros token message -> ->. repeat split.
Qed.

(** X14.  The token a stored user gets from Login opens the protected
    routes for that user: sent as [Bearer <token>] before it expires, the
    like route answers what the like-toggle answers for the user's id. *)
Theorem login_token_authenticates
    (s s' : MemStorage) (ident password : string) (e e' : Env) (now : Z)
    (user : UserWithoutPassword.t) (token : string) (id : string) :
  login this ident password e s' = (Return (user, token), s') ->
  has_space token = false ->
  token <> EmptyString ->
  clockTimestamp (dateNow e) <= clockTimestamp now < clockTimestamp (dateNow e) + expiresIn ->
  authenticateToken this (Some ("Bearer" ++ String " " token)) now
    = Next (Some (JWTPayload.mk (UserWithoutPassword.id user)
                    (UserWithoutPassword.username user)))
  /\ likeRoute this (Some ("Bearer" ++ String " " token)) now id e' s
     = (match toggleLike id (UserWithoutPassword.id user) e' s with
        | (Return r, s2) => (Return (Handled r), s2)
        | (Throw m, s2) => (Throw m, s2)
        end).
Proof.
  intros Hlogin Hspace Hne Hnow.
  assert (Htoken : token = generateToken this
            (JWTPayload.mk (UserWithoutPassword.id user) (UserWithoutPassword.username user))
            (dateNow e)).
  { eapply login_token; eassumption. }
  assert (Hauth : authenticateToken this (Some ("Bearer" ++ String " " token)) now
            = Next (Some (JWTPayload.mk (UserWithoutPassword.id user)
                            (UserWithoutPassword.username user)))).
  { unfold authenticateToken.
    rewrite (bearerToken_two_words "Bearer" token eq_refl Hspace).
    unfold truthy. rewrite (eqb_neq_false Hne). simpl.
    unfold verifyToken. rewrite Htoken at 1. unfold generateToken.
    now rewrite jwt_verify_sign by exact Hnow. }
  split; [exact Hauth|].
  unfold likeRoute, behindAuth. rewrite Hauth. unfold bind, ret. simpl.
  now destruct (toggleLike id (UserWithoutPassword.id user) e' s) as [[r|m] s2].
Qed.
End RouteFacts.

Lemma protected_routes_deny_witness :
  (likeRoute Sample.auth (Some "Bearer") 7000 "uuid-2" Sample.env4 Sample.store2
     = (Return (Denied _ 401 "Access token required"), Sample.store2)
   /\ getBookmarksRoute Sample.auth (Some "Bearer") 7000 Sample.store2
      = (Return (Denied _ 401 "Access token required"), Sample.store2)
   /\ deleteBookmarkRoute Sample.auth (Some "Bearer") 7000 (Some "article") (Some "art-1")
        Sample.store2
      = (Return (Denied _ 401 "Access token required"), Sample.store2))
  /\ (likeRoute Sample.auth (Some "Bearer forged") 7000 "uuid-2" Sample.env4 Sample.store2
        = (Return (Denied _ 403 "Invalid or expired token"), Sample.store2)
      /\ getBookmarksRoute Sample.auth (Some "Bearer forged") 7000 Sample.store2
         = (Return (Denied _ 403 "Invalid or expired token"), Sample.store2)
      /\ deleteBookmarkRoute Sample.auth (Some "Bearer forged") 7000 (Some "article")
           (Some "art-1") Sample.store2
         = (Return (Denied _ 403 "Invalid or expired token"), Sample.store2)).
Proof.
  split.
  - apply (proj1 (@protected_routes_deny Toy.crypto Sample.auth Sample.store2 (Some "Bearer")
                    7000 "uuid-2" Sample.env4 (Some "article") (Some "art-1"))).
    reflexivity.
  - apply (proj2 (@protected_routes_deny Toy.crypto Sample.auth Sample.store2
                    (Some "Bearer forged") 7000 "uuid-2" Sample.env4 (Some "article")
                    (Some "art-1")) "forged" "jwt malformed").
    + reflexivity.
    + reflexivity.
Defined.

Lemma login_token_authenticates_witness :
  authenticateToken Sample.auth (Some ("Bearer" ++ String " " Sample2.aliceToken)) 7000
    = Next (Some (JWTPayload.mk "uuid-1" "a"))
  /\ likeRoute Sample.auth (Some ("Bearer" ++ String " " Sample2.aliceToken)) 7000
       "uuid-2" Sample.env4 Sample.store2
     = (match toggleLike "uuid-2" "uuid-1" Sample.env4 Sample.store2 with
        | (Return r, s2) => (Return (Handled r), s2)
        | (Throw m, s2) => (Throw m, s2)
        end).
Proof.
  apply (@login_token_authenticates Toy.crypto Sample.auth toy_verify_sign
           Sample.store2 Sample.store1 "a" "p" Sample.env2 Sample.env4 7000
           (withoutPassword Sample.aliceStored) Sample2.aliceToken "uuid-2").
  - reflexivity.
  - reflexivity.
  - discriminate.
  - vm_compute. split; [discriminate|reflexivity].
Defined.

Section RouteFacts2.
Context {crypto : Crypto}.
Variable this : AuthService.

(** X15.  In a reachable store the bookmark deletion route changes the
    bookmark list of no user other than the one the token names, whatever
    the request; and with a valid token it answers 'Bookmark removed'
    whether or not a bookmark was removed. *)
Theorem deleteBookmarkRoute_only_own
    (s : MemStorage) (authHeader : option string) (now : Z)
    (resourceType resourceId : option string) :
  reachable s ->
  (forall other,
     (forall token payload,
        bearerToken authHeader = Some token ->
        jwt_verify token (jwtSecret this) (clockTimestamp now) = Return payload ->
        JWTPayload.userId payload <> other) ->
     fst (Mem.getBookmarksByUserId other
            (snd (deleteBookmarkRoute this authHeader now resourceType resourceId s)))
     = fst (Mem.getBookmarksByUserId other s))
  /\ (forall token payload,
        bearerToken authHeader = Some token ->
        jwt_verify token (jwtSecret this) (clockTimestamp now) = Return payload ->
        fst (deleteBookmarkRoute this authHeader now resourceType resourceId s)
        = Return (Handled BookmarkRemoved)).
Proof.
  intros Hreach.
  destruct (reachable_well_keyed Hreach) as (_ & _ & _ & Hkeyed & _).
  unfold deleteBookmarkRoute, behindAuth, authenticateToken, verifyToken. split.
  - intros other Hother.
    destruct (bearerToken authHeader) as [token|]; [|reflexivity].
    destruct (jwt_verify token _ _) as [payload|message] eqn:Hver; [|reflexivity].
    specialize (Hother token payload eq_refl Hver).
    destruct resourceType as [rt|]; [|reflexivity].
    destruct resourceId as [ri|]; [|reflexivity].
    pose proof (@deleteBookmark_keyed s (JWTPayload.userId payload) rt ri Hkeyed) as Hdel.
    unfold try_catch, bind, ret.
    destruct (find _ _) as [b|] eqn:Hfind.
    + destruct Hdel as (_ & _ & _ & Hdel). specialize (Hdel other (not_eq_sym Hother)).
      destruct (Mem.deleteBookmark _ rt ri s) as [[[]|m] s2]; exact Hdel.
    + now rewrite Hdel.
  - intros token payload Htok Hver. rewrite Htok, Hver.
    unfold try_catch, bind, ret.
    destruct resourceType as [rt|]; [|reflexivity].
    destruct resourceId as [ri|]; [|reflexivity].
    unfold Mem.deleteBookmark, bind, gets, modify, ret.
    now destruct (find _ _).
Qed.


End RouteFacts2.


Lemma deleteBookmarkRoute_only_own_witness :
  fst (Mem.getBookmarksByUserId "uuid-7"
         (snd (deleteBookmarkRoute Sample.auth
                 (Some ("Bearer" ++ String " " Sample2.aliceToken)) 7000
                 (Some "article") (Some "art-1") Sample2.storeThreeBookmarks)))
  = fst (Mem.getBookmarksByUserId "uuid-7" Sample2.storeThreeBookmarks).
Proof.
  apply (proj1 (@deleteBookmarkRoute_only_own Toy.crypto Sample.auth
                  Sample2.storeThreeBookmarks
                  (Some ("Bearer" ++ String " " Sample2.aliceToken)) 7000
                  (Some "article") (Some "art-1") sample_threeBookmarks_reachable)).
  intros token payload Htok Hver.
  injection Htok as <-. vm_compute in Hver. injection Hver as <-. discriminate.
Defined.

(** ** Storing fetched headlines *)

Section StoreFetchedFacts.
Variable parseDate : string -> JsDate.

Lemma storeOne_cases category apiArticle e s :
  (usable apiArticle = false
   /\ storeOne parseDate category apiArticle e s = (Return None, s))
  \/ (usable apiArticle = true
      /\ exists existing,
           find (fun a => String.eqb (Article.url a) (NewsApiArticle.url apiArticle))
             (JsMap.values (articles s)) = Some existing
           /\ storeOne parseDate category apiArticle e s = (Return (Some existing), s))
  \/ (usable apiArticle = true
      /\ find (fun a => String.eqb (Article.url a) (NewsApiArticle.url apiArticle))
           (JsMap.values (articles s)) = None
      /\ exists article,
           Article.url article = NewsApiArticle.url apiArticle
           /\ Article.likes article = 0
           /\ storeOne parseDate category apiArticle e s
              = (Return (Some article),
                 set_articles (JsMap.set (randomUUID e) article) s)).
Proof.
  unfold storeOne, usable.
  destruct (truthy (NewsApiArticle.title apiArticle) && truthy (NewsApiArticle.url apiArticle));
    [|now left].
  right. unfold Mem.getArticleByUrl, bind, gets.
  destruct (find _ _) as [existing|] eqn:E.
  - left. split; [reflexivity|]. now exists existing.
  - right. split; [reflexivity|]. split; [reflexivity|].
    eexists. split; [|split]; [| |reflexivity]; reflexivity.
Qed.

Lemma storeOne_urls_unique category apiArticle e s :
  urls_unique s -> urls_unique (snd (storeOne parseDate category apiArticle e s)).
Proof.
  intros Huniq.
  destruct (storeOne_cases category apiArticle e s)
    as [[_ E]|[(_ & a & _ & E)|(_ & Hnone & art & Hurl & _ & E)]]; rewrite E; simpl;
    try exact Huniq.
  assert (Hold : forall x, In x (JsMap.values (articles s)) ->
            Article.url x <> Article.url art).
  { intros x Hx Heq. apply (find_none _ _ Hnone) in Hx.
    rewrite Heq, Hurl, String.eqb_refl in Hx. discriminate. }
  intros a b Ha Hb Heq. simpl in Ha, Hb.
  apply values_set_inv in Ha as [->|Ha]; apply values_set_inv in Hb as [->|Hb].
  - reflexivity.
  - exfalso. apply (Hold _ Hb). now rewrite <- Heq.
  - exfalso. apply (Hold _ Ha). now rewrite Heq.
  - now apply Huniq.
Qed.

Lemma storeFetched_returns category feed s :
  exists answer s', storeFetched parseDate category feed s = (Return answer, s').
Proof.
  revert s. induction feed as [|[apiArticle e] feed IH]; intros s; simpl.
  - now exists [], s.
  - unfold bind.
    destruct (storeOne_cases category apiArticle e s)
      as [[_ E]|[(_ & a & _ & E)|(_ & _ & art & _ & _ & E)]]; rewrite E;
      match goal with |- context [storeFetched _ _ _ ?s1] =>
        destruct (IH s1) as (answer & s' & E') end;
      rewrite E'; eexists; eexists; reflexivity.
Qed.

(** X17.  Storing a fetched feed keeps article URLs unique: when no two
    stored articles share a URL before the loop, none do after it, whatever
    the feed holds (also the same URL several times). *)
Theorem storeFetched_keeps_urls_unique
    (category : option string) (feed : list (NewsApiArticle.t * Env)) (s : MemStorage) :
  urls_unique s -> urls_unique (snd (storeFetched parseDate category feed s)).
Proof.
  revert s. induction feed as [|[apiArticle e] feed IH]; intros s Huniq; simpl.
  - exact Huniq.
  - unfold bind.
    pose proof (storeOne_urls_unique category apiArticle e Huniq) as H1.
    destruct (storeOne parseDate category apiArticle e s) as [[stored|m] s1] eqn:E1.
    + simpl in H1. specialize (IH s1 H1).
      destruct (storeFetched parseDate category feed s1) as [[rest|m] s2]; exact IH.
    + destruct (storeOne_cases category apiArticle e s)
        as [[_ E]|[(_ & a & _ & E)|(_ & _ & art & _ & _ & E)]]; congruence.
Qed.

Lemma or_null_or_empty (x : string) : or_null (Some (or_empty x)) = or_null (Some x).
Proof.
  unfold or_null, or_empty. now destruct (truthy x) eqn:E; [rewrite E|].
Qed.

Lemma storeOne_new category apiArticle e s :
  usable apiArticle = true ->
  find (fun a => String.eqb (Article.url a) (NewsApiArticle.url apiArticle))
    (JsMap.values (articles s)) = None ->
  storeOne parseDate category apiArticle e s
    = (Return (Some (articleOf parseDate category apiArticle e)),
       set_articles (JsMap.set (randomUUID e) (articleOf parseDate category apiArticle e)) s).
Proof.
  intros Hu Hnone. unfold storeOne. unfold usable in Hu. rewrite Hu.
  unfold Mem.getArticleByUrl, Mem.createArticle, try_catch, bind, gets, modify, ret.
  rewrite Hnone. cbn [InsertArticle.title InsertArticle.description InsertArticle.content
    InsertArticle.url InsertArticle.imageUrl InsertArticle.category InsertArticle.source
    InsertArticle.publishedAt].
  rewrite !or_null_or_empty. reflexivity.
Qed.

(** The loop appends what it stores, and answers for each usable item the
    article found or made for it. *)
Lemma storeFetched_appends
    (category : option string) (feed : list (NewsApiArticle.t * Env)) (s : MemStorage) :
  NoDup (map (fun item => randomUUID (snd item)) feed) ->
  (forall item, In item feed -> JsMap.get (randomUUID (snd item)) (articles s) = None) ->
  exists answer s' added,
    storeFetched parseDate category feed s = (Return answer, s')
    /\ JsMap.values (articles s') = (JsMap.values (articles s) ++ added)%list
    /\ map Article.url answer = map NewsApiArticle.url (filter usable (map fst feed))
    /\ (forall a, In a answer ->
          find (fun x => String.eqb (Article.url x) (Article.url a)) (JsMap.values (articles s'))
            = Some a
          /\ match find (fun x => String.eqb (Article.url x) (Article.url a))
                     (JsMap.values (articles s)) with
             | Some known => a = known
             | None =>
                 exists apiArticle e,
                   In (apiArticle, e) feed /\ usable apiArticle = true
                   /\ a = articleOf parseDate category apiArticle e
             end).
Proof.
  revert s. induction feed as [|[apiArticle e] feed IH]; intros s Hnodup Hfresh.
  - exists [], s, []. split; [reflexivity|]. split; [now rewrite app_nil_r|].
    split; [reflexivity|]. intros a [].
  - simpl in Hnodup. apply NoDup_cons_iff in Hnodup as [Hnotin Hnodup].
    assert (Hfresh' : forall item, In item feed ->
              JsMap.get (randomUUID (snd item)) (articles s) = None).
    { intros item Hin. apply Hfresh. now right. }
    cbn [storeFetched]. unfold bind at 1.
    destruct (storeOne_cases category apiArticle e s)
      as [[Hu E]|[(Hu & known & Hfind & E)|(Hu & Hnone & _)]].
    + (* the item is left out *)
      rewrite E. destruct (IH s Hnodup Hfresh')
        as (answer & s' & added & Erest & Hvalues & Hmap & Hanswer).
      unfold bind. rewrite Erest. exists answer, s', added.
      split; [reflexivity|]. split; [exact Hvalues|]. cbn [map filter fst]. rewrite Hu.
      split; [exact Hmap|]. intros a Ha. destruct (Hanswer a Ha) as [H1 H2].
      split; [exact H1|]. destruct (find (fun x => String.eqb (Article.url x) (Article.url a))
                    (JsMap.values (articles s))); [exact H2|].
      destruct H2 as (item & e' & Hin & H2). exists item, e'. split; [now right|exact H2].
    + (* the URL is known *)
      rewrite E. destruct (IH s Hnodup Hfresh')
        as (answer & s' & added & Erest & Hvalues & Hmap & Hanswer).
      unfold bind. rewrite Erest. exists (known :: answer), s', added.
      split; [reflexivity|]. split; [exact Hvalues|]. cbn [map filter fst]. rewrite Hu.
      pose proof (find_some _ _ Hfind) as [_ Hurl]. apply String.eqb_eq in Hurl.
      split; [cbn [map]; now rewrite Hurl, Hmap|].
      intros a [<-|Ha].
      * rewrite Hvalues, find_app, Hurl, Hfind. now split.
      * destruct (Hanswer a Ha) as [H1 H2].
        split; [exact H1|]. destruct (find (fun x => String.eqb (Article.url x) (Article.url a))
                    (JsMap.values (articles s))); [exact H2|].
        destruct H2 as (item & e' & Hin & H2). exists item, e'. split; [now right|exact H2].
    + (* the article is new *)
      rewrite (@storeOne_new category apiArticle e s Hu Hnone).
      set (article := articleOf parseDate category apiArticle e).
      set (s1 := set_articles (JsMap.set (randomUUID e) article) s).
      assert (Hvalues1 : JsMap.values (articles s1)
                         = (JsMap.values (articles s) ++ [article])%list).
      { apply values_set_fresh. apply (Hfresh (apiArticle, e)). now left. }
      assert (Hfresh1 : forall item, In item feed ->
                JsMap.get (randomUUID (snd item)) (articles s1) = None).
      { intros item Hin. unfold s1. cbn [articles set_articles].
        rewrite get_set_other; [now apply Hfresh'|].
        intros Heq. apply Hnotin. rewrite <- Heq.
        now apply (in_map (fun item => randomUUID (snd item))) in Hin. }
      destruct (IH s1 Hnodup Hfresh1)
        as (answer & s' & added & Erest & Hvalues & Hmap & Hanswer).
      unfold bind. rewrite Erest. exists (article :: answer), s', ([article] ++ added)%list.
      split; [reflexivity|].
      split; [now rewrite Hvalues, Hvalues1, <- app_assoc|].
      cbn [map filter fst]. rewrite Hu.
      split; [cbn [map]; now rewrite Hmap|].
      intros a [<-|Ha].
      * rewrite Hvalues, Hvalues1, !find_app. cbn [Article.url article articleOf].
        rewrite Hnone. cbn [find Article.url]. rewrite String.eqb_refl.
        split; [reflexivity|]. exists apiArticle, e. split; [now left|]. now split.
      * destruct (Hanswer a Ha) as [H1 H2].
        split; [exact H1|]. rewrite Hvalues1, find_app in H2.
        destruct (find (fun x => String.eqb (Article.url x) (Article.url a))
                    (JsMap.values (articles s))) as [known|]; [exact H2|].
        cbn [find] in H2.
        destruct (String.eqb (Article.url article) (Article.url a)).
        -- exists apiArticle, e. split; [now left|]. now split.
        -- destruct H2 as (item & e' & Hin & H2). exists item, e'.
           split; [now right|exact H2].
Qed.

(** X18.  When the draws of the loop are distinct ids not in use, the loop
    completes and answers one article for every feed item that has a title
    and a URL, in feed order and with the item's URL.  Each answered article
    is stored afterwards, and it is the article [getArticleByUrl] then finds
    for its URL.  It is the article that was stored under that URL before
    the loop when there was one, and otherwise the article made of a feed
    item that has title and URL.  Feed items without title or URL are left
    out, and every article stored before is still stored. *)
Theorem storeFetched_answers_usable_items
    (category : option string) (feed : list (NewsApiArticle.t * Env)) (s : MemStorage) :
  NoDup (map (fun item => randomUUID (snd item)) feed) ->
  (forall item, In item feed -> JsMap.get (randomUUID (snd item)) (articles s) = None) ->
  exists answer s',
    storeFetched parseDate category feed s = (Return answer, s')
    /\ map Article.url answer = map NewsApiArticle.url (filter usable (map fst feed))
    /\ (forall a, In a answer ->
          In a (JsMap.values (articles s'))
          /\ fst (Mem.getArticleByUrl (Article.url a) s') = Return (Some a)
          /\ match fst (Mem.getArticleByUrl (Article.url a) s) with
             | Return (Some known) => a = known
             | _ =>
                 exists apiArticle e,
                   In (apiArticle, e) feed /\ usable apiArticle = true
                   /\ a = articleOf parseDate category apiArticle e
             end)
    /\ (forall a, In a (JsMap.values (articles s)) -> In a (JsMap.values (articles s'))).
Proof.
  intros Hnodup Hfresh.
  destruct (@storeFetched_appends category feed s Hnodup Hfresh)
    as (answer & s' & added & E & Hvalues & Hmap & Hanswer).
  exists answer, s'. split; [exact E|]. split; [exact Hmap|]. split.
  - intros a Ha. destruct (Hanswer a Ha) as [H1 H2].
    unfold Mem.getArticleByUrl, gets. cbn [fst]. split; [|split].
    + now apply find_some in H1.
    + now rewrite H1.
    + exact H2.
  - intros a Ha. rewrite Hvalues. apply in_or_app. now left.
Qed.
End StoreFetchedFacts.

Lemma sample_store2_urls_unique : urls_unique Sample.store2.
Proof.
  intros a b Ha Hb Heq. simpl in Ha, Hb.
  destruct Ha as [<-|[<-|[<-|[]]]]; destruct Hb as [<-|[<-|[<-|[]]]];
    try reflexivity; discriminate Heq.
Qed.

Lemma storeFetched_keeps_urls_unique_witness :
  urls_unique (snd (storeFetched Sample2.parseDate (Some "sports") Sample2.feed Sample.store2)).
Proof.
  apply (@storeFetched_keeps_urls_unique Sample2.parseDate (Some "sports") Sample2.feed
           Sample.store2).
  exact sample_store2_urls_unique.
Defined.

Lemma storeFetched_answers_usable_items_witness :
  exists answer s',
    storeFetched Sample2.parseDate (Some "sports") Sample2.feedKnown Sample.store2
      = (Return answer, s')
    /\ map Article.id answer = ["uuid-2"; "art-9"; "art-9"]
    /\ map Article.title answer = ["Cup final"; "Monsoon"; "Monsoon"]
    /\ (forall a, In a answer ->
          fst (Mem.getArticleByUrl (Article.url a) s') = Return (Some a)).
Proof.
  destruct (@storeFetched_answers_usable_items Sample2.parseDate (Some "sports")
              Sample2.feedKnown Sample.store2)
    as (answer & s' & E & _ & Hanswer & _).
  - repeat constructor; simpl; intuition discriminate.
  - intros item Hin. simpl in Hin.
    destruct Hin as [<-|[<-|[<-|[<-|[]]]]]; reflexivity.
  - exists answer, s'. split; [exact E|].
    split; [|split].
    + injection E as <- _. reflexivity.
    + injection E as <- _. reflexivity.
    + intros a Ha. now apply Hanswer.
Defined.

(** ** Comments and chat sessions *)


Lemma js_sort_newest_last_in {A} (created : A -> Z) (l : list A) (c : A) :
  (forall x, In x l -> created x < created c) ->
  js_sort (fun a b => created b - created a) (l ++ [c])
    = c :: js_sort (fun a b => created b - created a) l.
Proof.
  induction l as [|x l IH]; intros Hlt; simpl; [reflexivity|].
  rewrite IH by (intros y Hy; apply Hlt; now right). simpl.
  destruct (created c - created x <=? 0) eqn:E; [|reflexivity].
  apply Z.leb_le in E. specialize (Hlt x (or_introl eq_refl)). lia.
Qed.

(** X19.  [getCommentsByArticleId] answers exactly the comments of the
    article, newest first.  A comment created under an id not in use and
    with a timestamp later than those of the article's stored comments
    becomes the head of that list, the rest of the list unchanged, and the
    lists of other articles stay as they were. *)
Theorem createComment_heads_the_list
    (s : MemTalk) (insertComment : InsertComment.t) (e : Env) :
  JsMap.get (randomUUID e) (comments s) = None ->
  (forall c, In c (JsMap.values (comments s)) ->
     Comment.articleId c = InsertComment.articleId insertComment ->
     Comment.createdAt c < dateNow e) ->
  let articleId := InsertComment.articleId insertComment in
  exists comment s',
    Talk.createComment insertComment e s = (Return comment, s')
    /\ answered (Talk.getCommentsByArticleId articleId s')
       = comment :: answered (Talk.getCommentsByArticleId articleId s)
    /\ (forall other, other <> articleId ->
          answered (Talk.getCommentsByArticleId other s')
          = answered (Talk.getCommentsByArticleId other s))
    /\ (forall any c,
          In c (answered (Talk.getCommentsByArticleId any s))
          <-> In c (JsMap.values (comments s)) /\ Comment.articleId c = any).
Proof.
  intros Hfresh Hlater articleId.
  do 2 eexists. split; [reflexivity|].
  unfold answered, Talk.getCommentsByArticleId, gets. simpl.
  rewrite values_set_fresh by exact Hfresh. split; [|split].
  - rewrite filter_app. simpl. fold articleId. rewrite String.eqb_refl.
    apply (@js_sort_newest_last_in _ Comment.createdAt).
    intros x Hx. apply filter_In in Hx as [Hx Heq]. apply String.eqb_eq in Heq.
    simpl. now apply Hlater.
  - intros other Hother. rewrite filter_app. simpl.
    rewrite (eqb_neq_false (a := InsertComment.articleId insertComment) (b := other))
      by (unfold articleId in Hother; congruence).
    now rewrite app_nil_r.
  - intros any c. rewrite js_sort_In, filter_In.
    split; intros [H1 H2]; split; auto; now apply String.eqb_eq.
Qed.

Lemma createComment_heads_the_list_witness :
  exists comment s',
    Talk.createComment (InsertComment.mk "uuid-2" "uuid-1" "Great match") Sample.env3
      Sample2.talk1 = (Return comment, s')
    /\ map Comment.content (answered (Talk.getCommentsByArticleId "uuid-2" s'))
       = ["Great match"; "Kick-off at six"]
    /\ answered (Talk.getCommentsByArticleId "uuid-4" s')
       = answered (Talk.getCommentsByArticleId "uuid-4" Sample2.talk1).
Proof.
  destruct (@createComment_heads_the_list Sample2.talk1
              (InsertComment.mk "uuid-2" "uuid-1" "Great match") Sample.env3 eq_refl)
    as (c & s' & H1 & H2 & H3 & _).
  - intros c [<-|[<-|[]]] Harticle; [reflexivity|discriminate Harticle].
  - exists c, s'. split; [exact H1|]. split.
    + cbn [InsertComment.articleId] in H2. rewrite H2. injection H1 as <- _. reflexivity.
    + apply H3. discriminate.
Defined.

(** X20.  [updateChatSession] replaces the messages of a stored session and
    keeps its id, user and creation time; it creates nothing when the id is
    unknown; and it leaves every other session as it was. *)
Theorem updateChatSession_replaces_messages
    (s : MemTalk) (id : string) (messages : list ChatMessage.t) :
  match JsMap.get id (chatSessions s) with
  | None => Talk.updateChatSession id messages s = (Return tt, s)
  | Some session =>
      exists s',
        Talk.updateChatSession id messages s = (Return tt, s')
        /\ fst (Talk.getChatSession id s')
           = Return (Some (ChatSession.mk (ChatSession.id session) (ChatSession.userId session)
                             messages (ChatSession.createdAt session)))
        /\ (forall other, other <> id ->
              fst (Talk.getChatSession other s') = fst (Talk.getChatSession other s))
        /\ comments s' = comments s
  end.
Proof.
  unfold Talk.updateChatSession, Talk.getChatSession, bind, gets, modify, ret.
  destruct (JsMap.get id (chatSessions s)) as [session|] eqn:E; [|reflexivity].
  eexists. split; [reflexivity|]. simpl. split; [|split; [|reflexivity]].
  - now rewrite get_set_same.
  - intros other Hother. now rewrite get_set_other by exact Hother.
Qed.

Section ChatRouteFacts.
Variable chatWithAI : Json -> option Json -> completion string.
Variable toISOString : Z -> string.

(** X21.  POST /api/chat never stores anything: the route runs its handler
    without authentication middleware, so the handler never sees a user and
    its code that saves the exchange in a chat session is not reached,
    whatever session id and whatever Authorization header the request
    carries.  The route always answers: 400 'Message is required' exactly
    when the message of the body is missing or falsy, 500 'Failed to get AI
    response' exactly when the assistant fails, and the assistant's
    response otherwise. *)
Theorem chatRoute_never_saves
    (s : MemTalk) (message context sessionId : option Json) (t1 t2 : Z) (e : Env) :
  exists response,
    chatRoute chatWithAI toISOString message context sessionId t1 t2 e s
      = (Return response, s)
    /\ match response with
       | ChatError status text =>
           (status = 400 /\ text = "Message is required" /\ present message = false)
           \/ (status = 500 /\ text = "Failed to get AI response"
               /\ exists value failure,
                    message = Some value /\ js_truthy value = true
                    /\ chatWithAI value context = Throw failure)
       | ChatOk answer =>
           exists value,
             message = Some value /\ js_truthy value = true
             /\ chatWithAI value context = Return answer
       end.
Proof.
  unfold chatRoute, chatHandler, try_catch, bind, ret.
  destruct message as [value|]; [|eexists; split; [reflexivity|]; left; auto].
  destruct (js_truthy value) eqn:Etruthy;
    [|eexists; split; [reflexivity|]; left; auto].
  destruct (chatWithAI value context) as [answer|failure] eqn:Echat.
  - eexists. split; [reflexivity|]. now exists value.
  - eexists. split; [reflexivity|]. right. repeat split. now exists value, failure.
Qed.
End ChatRouteFacts.

Lemma chatRoute_never_saves_witness :
  chatRoute (fun _ _ => Return "Hello") (fun _ => "2024-06-01T00:00:00.000Z")
    (Some (JString "Hi")) None (Some (JString "session-1")) 1 2 Sample.env3 Sample2.talk1
    = (Return (ChatOk "Hello"), Sample2.talk1).
Proof.
  destruct (@chatRoute_never_saves (fun _ _ => Return "Hello")
              (fun _ => "2024-06-01T00:00:00.000Z") Sample2.talk1
              (Some (JString "Hi")) None (Some (JString "session-1")) 1 2 Sample.env3)
    as (response & E & H).
  destruct response as [answer|status text].
  - destruct H as (value & [= <-] & _ & [= <-]). exact E.
  - destruct H as [(_ & _ & H)|(_ & _ & value & failure & [= <-] & _ & H)]; discriminate H.
Defined.

(** ** The AI service, once more *)


Section DetectFakeNewsMore.
Variable chat : string -> completion (option string).
Variable JSON_parse : string -> completion Json.
Variable analysisPrompt : string -> string.
Variable StringToNumber : string -> JsNumber.
Variable toString : Json -> string.


End DetectFakeNewsMore.

(** On a well-typed answer of the model the untyped reading is the typed
    one. *)
Lemma detectFakeNewsUntyped_typed
    (chat : string -> completion (option string)) (JSON_parse : string -> completion Verdict)
    (analysisPrompt : string -> string) (StringToNumber : string -> JsNumber)
    (toString : Json -> string) (text : string) (source : option string)
    (sent : list string) :
  detectFakeNewsUntyped chat
    (fun s => match JSON_parse s with
              | Return v => Return (verdictJson v)
              | Throw message => Throw message
              end)
    analysisPrompt StringToNumber toString text source sent
  = match detectFakeNews chat JSON_parse analysisPrompt text source sent with
    | (Return r, sent') => (Return (answerOf r), sent')
    | (Throw message, sent') => (Throw message, sent')
    end.
Proof.
  unfold detectFakeNewsUntyped, detectFakeNews, try_catch, createCompletion, bind, ret, throw.
  set (credibility := match source with Some _ => _ | None => _ end).
  destruct credibility; [reflexivity| |];
    (destruct (chat (analysisPrompt text)) as [content|failure]; [|reflexivity]);
    (destruct (JSON_parse _) as [[isReal confidence explanation]|failure]; [|reflexivity]);
    unfold verdictJson, answerOf; cbn [v_isReal v_confidence v_explanation];
    destruct isReal as [[|]|], confidence as [c|], explanation as [x|];
    cbn; try (destruct (Qeq_bool c 0)); try (destruct (truthy x)); reflexivity.
Qed.

Lemma content_or_truthy content fallback :
  fallback <> EmptyString -> content_or content fallback <> EmptyString.
Proof.
  intros Hf. unfold content_or. destruct content as [c|]; [|exact Hf].
  unfold truthy. destruct (String.eqb c EmptyString) eqn:E; simpl; [exact Hf|].
  now apply String.eqb_neq.
Qed.

Section CompletionsFacts.
Variable create : ChatRequest -> completion (option string).
Variable numberToString : Z -> string.

(** X23.  [summarizeText] and [chatWithAI] send exactly one request to the
    model, [summarizeText] with a token budget of at least 200 and at least
    twice the requested length.  Neither ever answers the empty string, and
    each has a single error message, whatever made the request fail. *)
Theorem completions_never_empty (sent : list ChatRequest) :
  (forall text maxLength,
     exists request budget,
       snd (summarizeText create numberToString text maxLength sent) = (sent ++ [request])%list
       /\ max_tokens request = Some budget
       /\ 200 <= budget
       /\ 2 * (match maxLength with Some n => n | None => 150 end) <= budget
       /\ ((exists summary,
              fst (summarizeText create numberToString text maxLength sent) = Return summary
              /\ summary <> EmptyString)
           \/ fst (summarizeText create numberToString text maxLength sent)
              = Throw "Failed to summarize text"))
  /\ (forall message context,
        exists request,
          snd (chatWithAI create message context sent) = (sent ++ [request])%list
          /\ max_tokens request = Some 500
          /\ ((exists answer,
                 fst (chatWithAI create message context sent) = Return answer
                 /\ answer <> EmptyString)
              \/ fst (chatWithAI create message context sent)
                 = Throw "Failed to get AI response")).
Proof.
  split.
  - intros text maxLength.
    unfold summarizeText, try_catch, send, bind, ret, throw.
    eexists. eexists.
    destruct (create _) as [content|failure]; cbn [fst snd max_tokens].
    + split; [reflexivity|]. split; [reflexivity|]. split; [apply Z.le_max_r|].
      split; [rewrite Z.mul_comm; apply Z.le_max_l|].
      left. eexists. split; [reflexivity|]. now apply content_or_truthy.
    + split; [reflexivity|]. split; [reflexivity|]. split; [apply Z.le_max_r|].
      split; [rewrite Z.mul_comm; apply Z.le_max_l|].
      now right.
  - intros message context.
    unfold chatWithAI, try_catch, send, bind, ret, throw.
    eexists.
    destruct (create _) as [content|failure]; cbn [fst snd max_tokens].
    + split; [reflexivity|]. split; [reflexivity|].
      left. eexists. split; [reflexivity|]. now apply content_or_truthy.
    + split; [reflexivity|]. split; [reflexivity|]. now right.
Qed.
End CompletionsFacts.

(** ** The news provider *)

Section NewsApiFacts.
Variable fetch : NewsRequest -> completion NewsReply.
Variable numberToString : Z -> string.

Lemma apiKey_truthy NEWS_API_KEY : truthy (apiKey (newNewsApiService NEWS_API_KEY)) = true.
Proof.
  unfold newNewsApiService. simpl.
  destruct NEWS_API_KEY as [k|]; [|reflexivity].
  now destruct (truthy k) eqn:E.
Qed.

(** X24.  Whatever the environment holds, the service has a non-empty API
    key, so [getTopHeadlines] never answers the mock data: it sends exactly
    one request.  The category ["all"] sends the request of an absent
    category, without category parameter.  A reply that is not [ok] is the
    error 'NewsAPI error: ' followed by its status line. *)
Theorem getTopHeadlines_always_fetches
    (NEWS_API_KEY : option string) (category country : option string)
    (pageSize page : option Z) (sent : list NewsRequest) :
  let this := newNewsApiService NEWS_API_KEY in
  fst (getTopHeadlines fetch numberToString this category country pageSize page sent)
    <> Return MockData
  /\ (exists request,
        snd (getTopHeadlines fetch numberToString this category country pageSize page sent)
          = (sent ++ [request])%list
        /\ (forall reply,
              fetch request = Return reply -> ok reply = false ->
              fst (getTopHeadlines fetch numberToString this category country pageSize page sent)
                = Throw ("NewsAPI error: " ++ statusLine reply)))
  /\ getTopHeadlines fetch numberToString this (Some "all") country pageSize page sent
     = getTopHeadlines fetch numberToString this None country pageSize page sent.
Proof.
  intros this. pose proof (apiKey_truthy NEWS_API_KEY) as Hkey. fold this in Hkey.
  unfold getTopHeadlines. rewrite Hkey. cbn [negb]. cbv iota.
  unfold try_catch, bind, ret, throw.
  set (request := mkNewsRequest _ _).
  split; [|split].
  - destruct (fetch request) as [reply|failure]; cbn [fst]; [|discriminate].
    destruct (ok reply); cbn [negb fst]; [|discriminate].
    destruct (String.eqb (bodyStatus reply) "error"); discriminate.
  - exists request. split.
    + destruct (fetch request) as [reply|failure]; cbn [snd]; [|reflexivity].
      destruct (ok reply); cbn [negb snd]; [|reflexivity].
      destruct (String.eqb (bodyStatus reply) "error"); reflexivity.
    + intros reply Hfetch Hok. rewrite Hfetch, Hok. reflexivity.
  - reflexivity.
Qed.
End NewsApiFacts.

(** ** The news card *)

Section NewsCardFacts.
Variable parseTime : string -> option Z.
Variable toLocaleDateString : string -> string.

(** X25.  [formatTimeAgo] shows between 1 and 23 hours or between 1 and 6
    days, never 0 and never more; an article dated in the future or less
    than an hour ago shows 'Just now'; from seven days on, and for an
    invalid date, it shows the date. *)
Theorem formatTimeAgo_ranges (dateString : string) (now : Z) :
  match formatTimeAgo parseTime toLocaleDateString dateString now with
  | JustNow => exists date, parseTime dateString = Some date /\ now - date < 3600000
  | HoursAgo n =>
      1 <= n <= 23
      /\ exists date, parseTime dateString = Some date
                      /\ n * 3600000 <= now - date < (n + 1) * 3600000
  | DaysAgo n =>
      1 <= n <= 6
      /\ exists date, parseTime dateString = Some date
                      /\ n * 86400000 <= now - date < (n + 1) * 86400000
  | OnDate text =>
      text = toLocaleDateString dateString
      /\ (parseTime dateString = None
          \/ exists date, parseTime dateString = Some date /\ 7 * 86400000 <= now - date)
  end.
Proof.
  unfold formatTimeAgo.
  destruct (parseTime dateString) as [date|]; [|now split; [|left]].
  change (1000 * 60 * 60) with 3600000.
  pose proof (Z.div_mod (now - date) 3600000 ltac:(lia)) as Hdm.
  pose proof (Z.mod_pos_bound (now - date) 3600000 ltac:(lia)) as Hmod.
  set (hours := (now - date) / 3600000) in *.
  destruct (hours <? 1) eqn:E1.
  - apply Z.ltb_lt in E1. exists date. split; [reflexivity|]. lia.
  - apply Z.ltb_ge in E1. destruct (hours <? 24) eqn:E2.
    + apply Z.ltb_lt in E2. split; [lia|]. exists date. split; [reflexivity|]. lia.
    + apply Z.ltb_ge in E2.
      pose proof (Z.div_mod hours 24 ltac:(lia)) as Hdm2.
      pose proof (Z.mod_pos_bound hours 24 ltac:(lia)) as Hmod2.
      set (days := hours / 24) in *.
      destruct (days <? 7) eqn:E3.
      * apply Z.ltb_lt in E3. split; [lia|]. exists date. split; [reflexivity|]. lia.
      * apply Z.ltb_ge in E3. split; [reflexivity|]. right.
        exists date. split; [reflexivity|]. lia.
Qed.
End NewsCardFacts.

(** ** Filters, toggles and the signing key *)

(** X26.  An empty string is no filter: in both implementations
    [getArticles] with the category [''] is [getArticles] without category,
    and each filter of [getTnpscResources] given as [''] acts as if
    absent. *)
Theorem empty_filter_is_absent
    (s : MemStorage) (d : Database) (localeCompare : string -> string -> Z)
    (limit offset : option Z) (category subject examStage : option string) :
  Mem.getArticles (Some EmptyString) limit offset s = Mem.getArticles None limit offset s
  /\ Db.getArticles (Some EmptyString) limit offset d = Db.getArticles None limit offset d
  /\ Mem.getTnpscResources localeCompare (Some EmptyString) subject examStage s
     = Mem.getTnpscResources localeCompare None subject examStage s
  /\ Mem.getTnpscResources localeCompare category (Some EmptyString) examStage s
     = Mem.getTnpscResources localeCompare category None examStage s
  /\ Mem.getTnpscResources localeCompare category subject (Some EmptyString) s
     = Mem.getTnpscResources localeCompare category subject None s
  /\ Db.getTnpscResources (Some EmptyString) subject examStage d
     = Db.getTnpscResources None subject examStage d
  /\ Db.getTnpscResources category (Some EmptyString) examStage d
     = Db.getTnpscResources category None examStage d
  /\ Db.getTnpscResources category subject (Some EmptyString) d
     = Db.getTnpscResources category subject None d.
Proof.
  repeat split; reflexivity.
Qed.

Lemma unlike_leaves_no_like (s : MemStorage) (userId id : string) (like : Like.t) :
  reachable s ->
  find (Mem.sameLike userId id) (JsMap.values (likes s)) = Some like ->
  find (Mem.sameLike userId id) (JsMap.values (JsMap.delete (Like.id like) (likes s))) = None.
Proof.
  intros Hreach Hsome.
  pose proof (reachable_one_like Hreach userId id) as Hone.
  destruct (reachable_well_keyed Hreach) as (_ & _ & Hkeyed & _).
  apply find_some in Hsome as [Hl Hsame].
  apply find_none_iff. intros x Hx.
  rewrite (keyed_values_delete _ Hkeyed) in Hx. apply filter_In in Hx as [Hx Hid].
  destruct (Mem.sameLike userId id x) eqn:Esame; [|reflexivity].
  assert (x = like).
  { apply (@short_list_eq _ (likesOf userId id s)); [exact Hone| |];
      unfold likesOf; apply filter_In; auto. }
  subst x. now rewrite String.eqb_refl in Hid.
Qed.

(** X27.  In a reachable store, for an article the user has liked, two
    like-toggles in a row are an unlike, answering the count minus one but
    not less than 0, then a like; afterwards the article is stored with its
    former count, or with 1 when the former count was 0. *)
Theorem unlike_then_like_restores_count
    (s : MemStorage) (id userId : string) (article : Article.t) (like : Like.t)
    (e1 e2 : Env) :
  reachable s ->
  fst (Mem.getArticleById id s) = Return (Some article) ->
  fst (Mem.getLikeByUserAndArticle userId id s) = Return (Some like) ->
  exists s1 s2,
    toggleLike id userId e1 s
      = (Return (LikeOk false (Z.max 0 (Article.likes article - 1))), s1)
    /\ toggleLike id userId e2 s1
       = (Return (LikeOk true (Z.max 1 (Article.likes article))), s2)
    /\ fst (Mem.getArticleById id s2)
       = Return (Some (withLikes article (Z.max 1 (Article.likes article)))).
Proof.
  intros Hreach Ha Hl.
  unfold Mem.getArticleById, Mem.getLikeByUserAndArticle, gets in Ha, Hl.
  simpl in Ha, Hl. injection Ha as Ha. injection Hl as Hl.
  assert (Hpos : 0 <= Article.likes article).
  { pose proof (reachable_likes_nonneg Hreach) as Hinv.
    unfold likes_nonneg in Hinv. rewrite Forall_forall in Hinv.
    now apply Hinv, (get_In _ _ Ha). }
  rewrite (toggleLike_unlike _ _ e1 _ Ha Hl). rewrite num_or_zero.
  set (unliked := withLikes article (Z.max 0 (Article.likes article - 1))).
  set (s1 := set_articles _ _).
  assert (Ha1 : JsMap.get id (articles s1) = Some unliked) by apply get_set_same.
  assert (Hl1 : find (Mem.sameLike userId id) (JsMap.values (likes s1)) = None)
    by (eapply unlike_leaves_no_like; eassumption).
  exists s1. eexists. split; [reflexivity|].
  rewrite (toggleLike_like _ _ e2 _ Ha1 Hl1). rewrite num_or_zero.
  replace (Article.likes unliked + 1) with (Z.max 1 (Article.likes article))
    by (simpl; lia).
  split; [reflexivity|].
  unfold Mem.getArticleById, gets. simpl. f_equal.
  now rewrite get_set_same.
Qed.

Lemma unlike_then_like_restores_count_witness :
  exists s1 s2,
    toggleLike "uuid-2" "uuid-1" Sample.env3
      (snd (toggleLike "uuid-2" "uuid-1" (mkEnv "like-1" 11000 "-") Sample.store2))
      = (Return (LikeOk false (Z.max 0 (1 - 1))), s1)
    /\ toggleLike "uuid-2" "uuid-1" Sample.env4 s1 = (Return (LikeOk true (Z.max 1 1)), s2).
Proof.
  destruct (@unlike_then_like_restores_count
              (snd (toggleLike "uuid-2" "uuid-1" (mkEnv "like-1" 11000 "-") Sample.store2))
              "uuid-2" "uuid-1"
              (Article.mk "uuid-2" "Cup final" None None "https://n.example/1" None
                 "sports" "Thanthi" (ValidDate 100) 1 6000)
              (Like.mk "like-1" "uuid-1" "uuid-2" 11000) Sample.env3 Sample.env4
              sample_liked_reachable eq_refl eq_refl)
    as (s1 & s2 & H1 & H2 & _).
  exists s1, s2. split; [exact H1|exact H2].
Defined.

Section FallbackSecret.
Context {crypto : Crypto}.

Hypothesis jwt_verify_sign :
  forall payload secret iat ttl now,
    iat <= now < iat + ttl ->
    jwt_verify (jwt_sign payload secret iat ttl) secret now = Return payload.

(** X28.  With [SESSION_SECRET] unset or empty the service signs and
    verifies with the key written in the source: Verify then accepts, for
    any user id and username, a token that anyone signs with
    'fallback-secret-key'. *)
Theorem fallback_secret_accepts_forged_tokens
    (SESSION_SECRET : option string) (payload : JWTPayload.t) (iat ttl now : Z) :
  supplied SESSION_SECRET = false ->
  iat <= clockTimestamp now < iat + ttl ->
  jwtSecret (newAuthService SESSION_SECRET) = "fallback-secret-key"
  /\ verifyToken (newAuthService SESSION_SECRET)
       (jwt_sign payload "fallback-secret-key" iat ttl) now
     = Return (Some payload).
Proof.
  intros Hunset Hnow.
  assert (Hkey : jwtSecret (newAuthService SESSION_SECRET) = "fallback-secret-key").
  { unfold newAuthService. simpl. destruct SESSION_SECRET as [k|]; [|reflexivity].
    simpl in Hunset. now rewrite Hunset. }
  split; [exact Hkey|].
  unfold verifyToken. rewrite Hkey. now rewrite jwt_verify_sign by exact Hnow.
Qed.
End FallbackSecret.

Lemma fallback_secret_accepts_forged_tokens_witness :
  jwtSecret (newAuthService None) = "fallback-secret-key"
  /\ verifyToken (newAuthService None)
       (jwt_sign (JWTPayload.mk "uuid-1" "a") "fallback-secret-key" 0 100) 5000
     = Return (Some (JWTPayload.mk "uuid-1" "a")).
Proof.
  apply (@fallback_secret_accepts_forged_tokens Toy.crypto toy_verify_sign None
           (JWTPayload.mk "uuid-1" "a") 0 100 5000).
  - reflexivity.
  - vm_compute. split; [discriminate|reflexivity].
Defined.


Lemma getTopHeadlines_always_fetches_witness :
  fst (getTopHeadlines
         (fun _ => Return (mkNewsReply false "429 Too Many Requests" "error" "limit" [] 0))
         (fun _ => "20") (newNewsApiService (Some EmptyString)) (Some "all") None None None [])
  = Throw "NewsAPI error: 429 Too Many Requests".
Proof.
  destruct (@getTopHeadlines_always_fetches
              (fun _ => Return (mkNewsReply false "429 Too Many Requests" "error" "limit" [] 0))
              (fun _ => "20") (Some EmptyString) (Some "all") None None None [])
    as (_ & (request & _ & H) & _).
  exact (H _ eq_refl eq_refl).
Defined.
